(** * RFHO [datasets.py]: windowed data access and example visiting

    A shallow embedding of the two classes of [rfho/datasets.py] that carry
    the algorithmic content of the module, [WindowedData] and
    [ExampleVisiting], together with the handful of Python and numpy
    primitives their methods call.

    Conventions.
    - Python integers are [Z]; array elements are kept abstract (the code
      only moves them around, it never computes with them).
    - A Python exception is a value of [exn]; a call that may raise returns
      [res A = exn + A], with [inl e] for "raised e".
    - The quotient of two Python integers is a double, kept as the dyadic
      number it stands for ([py_true_div]); [int64] results of numpy wrap
      around ([wrap_int64]).
    - The names of the source are kept: [pad], [get_context], [generate_all],
      [generate_visiting_scheme], [_training_supplier], ... *)

From Stdlib Require Import ZArith Lia List Permutation.
From stdpp Require Import base list gmap strings.

Open Scope Z_scope.

(** ** Python exceptions and results *)

Inductive exn : Type :=
| IndexError
| TypeError
| ValueError
| ZeroDivisionError
| OverflowError.

Definition res (A : Type) : Type := (exn + A)%type.

Definition raise {A} (e : exn) : res A := inl e.
Definition ok {A} (a : A) : res A := inr a.

Definition rbind {A B} (m : res A) (k : A -> res B) : res B :=
  match m with
  | inl e => inl e
  | inr a => k a
  end.

Declare Scope res_scope.
Delimit Scope res_scope with res.
Notation "'do' x <- m ; k" := (rbind m (fun x => k))
  (at level 20, x name, m at level 100, k at level 200,
   only parsing) : res_scope.
Open Scope res_scope.

(** [[f(x) for x in xs]] for an [f] that may raise: evaluation is left to
    right and the first exception wins. *)
Fixpoint rmap {A B} (f : A -> res B) (xs : list A) : res (list B) :=
  match xs with
  | [] => ok []
  | x :: xs' => do y <- f x; do ys <- rmap f xs'; ok (y :: ys)
  end.

(** ** Python slices and ranges *)

Record pyslice : Type := Slice {
  sl_start : option Z;
  sl_stop : option Z;
  sl_step : option Z
}.

(** [slice(None, None, None)], written [:]. *)
Definition full_slice : pyslice := Slice None None None.

(** One bound of [slice.indices(len)]: negative bounds count from the end,
    and everything is clamped to [lower .. upper]. *)
Definition clamp_bound (len lower upper : Z) (b : Z) : Z :=
  if b <? 0 then Z.max (b + len) lower else Z.min b upper.

(** [slice.indices(len)]; a zero step raises [ValueError]. *)
Definition slice_indices (s : pyslice) (len : Z) : res (Z * Z * Z) :=
  let step := default 1 (sl_step s) in
  if step =? 0 then raise ValueError
  else
    let lower := if step <? 0 then -1 else 0 in
    let upper := if step <? 0 then len - 1 else len in
    let start :=
      match sl_start s with
      | None => if step <? 0 then upper else lower
      | Some b => clamp_bound len lower upper b
      end in
    let stop :=
      match sl_stop s with
      | None => if step <? 0 then lower else upper
      | Some b => clamp_bound len lower upper b
      end in
    ok (start, stop, step).

(** [list(range(start, stop, step))] for a non-zero step. *)
Definition py_range (start stop step : Z) : list Z :=
  let count :=
    if step >? 0 then (stop - start + step - 1) / step
    else (start - stop - step - 1) / (- step) in
  map (fun k => start + Z.of_nat k * step) (seq 0 (Z.to_nat count)).

(** The positions selected by slice [s] on a sequence of length [len]:
    [range] applied to the three numbers of [s.indices(len)]. *)
Definition slice_range (s : pyslice) (len : Z) : res (list Z) :=
  do ix <- slice_indices s len;
  let '(start, stop, step) := ix in
  ok (py_range start stop step).

(** ** numpy arrays

    A one-dimensional array is a list; a two-dimensional array keeps its
    rows and, separately, its number of columns, so that [shape] is defined
    for an array without rows too. *)

Section Arrays.
Context {A : Type}.

Record ndarray2 : Type := Ndarray2 {
  nd_rows : list (list A);
  nd_cols : Z
}.

Definition nd_len (m : ndarray2) : Z := Z.of_nat (length (nd_rows m)).

(** Every row has [nd_cols] entries. *)
Definition nd_wf (m : ndarray2) : Prop :=
  Forall (fun r => Z.of_nat (length r) = nd_cols m) (nd_rows m).

(** [l[i]] for an integer [i]: negative indices count from the end, an
    index outside [-len .. len-1] raises [IndexError]. *)
Definition py_index {B} (l : list B) (i : Z) : res B :=
  let len := Z.of_nat (length l) in
  let j := if i <? 0 then i + len else i in
  if (j <? 0) || (len <=? j) then raise IndexError
  else match l !! Z.to_nat j with
       | Some x => ok x
       | None => raise IndexError
       end.

(** [l[i]] for every [i] of an index array (fancy indexing). *)
Definition py_take {B} (l : list B) (ixs : list Z) : res (list B) :=
  rmap (py_index l) ixs.

(** [l[s]] for a slice [s]: the positions come from [s.indices(len(l))]
    and are always in range. *)
Definition py_slice {B} (l : list B) (s : pyslice) : res (list B) :=
  do ixs <- slice_range s (Z.of_nat (length l));
  ok (omap (fun i => l !! Z.to_nat i) ixs).

(** [l[a:b]], which cannot raise. *)
Definition py_slice2 {B} (l : list B) (a b : Z) : list B :=
  let len := Z.of_nat (length l) in
  omap (fun i => l !! Z.to_nat i)
       (py_range (clamp_bound len 0 len a) (clamp_bound len 0 len b) 1).

(** [np.concatenate(arrays)] for a sequence of one-dimensional arrays:
    an empty sequence raises [ValueError]. *)
Definition np_concatenate (arrays : list (list A)) : res (list A) :=
  match arrays with
  | [] => raise ValueError
  | _ => ok (concat arrays)
  end.

(** [np.vstack(arrays)] for a sequence of one-dimensional arrays: they
    are stacked as the rows of a matrix; an empty sequence, or rows of
    different lengths, raise [ValueError]. *)
Definition np_vstack (arrays : list (list A)) : res ndarray2 :=
  match arrays with
  | [] => raise ValueError
  | r :: rs =>
      if forallb (fun r' => Nat.eqb (length r') (length r)) rs
      then ok (Ndarray2 arrays (Z.of_nat (length r)))
      else raise ValueError
  end.
End Arrays.

Arguments ndarray2 : clear implicits.

(** ** The interval tree behind [WindowedData]

    [WindowedData] stores its sentence bounds in an [intervaltree.IntervalTree]
    and only ever asks it for the intervals that contain a point.  The tree
    is kept as the list of its intervals; an interval is half-open,
    [iv_begin <= p < iv_end]. *)

Record Interval : Type := mkInterval {
  iv_begin : Z;
  iv_end : Z
}.

Definition iv_contains (iv : Interval) (p : Z) : bool :=
  (iv_begin iv <=? p) && (p <? iv_end iv).

(** [Interval.is_null()]. *)
Definition iv_is_null (iv : Interval) : bool := iv_end iv <=? iv_begin iv.

(** [IntervalTree(intervals)]: null intervals are refused with
    [ValueError]. *)
Definition IntervalTree (intervals : list Interval) : res (list Interval) :=
  if existsb iv_is_null intervals then raise ValueError else ok intervals.

(** [tree[p]]: the intervals that contain the point [p]. *)
Definition tree_at (tree : list Interval) (p : Z) : list Interval :=
  List.filter (fun iv => iv_contains iv p) tree.

(** [list(s)[0]]: [IndexError] on an empty collection.  The collection
    is a set; it is listed here in the order of the bounds. *)
Definition first_of {B} (l : list B) : res B :=
  match l with
  | [] => raise IndexError
  | x :: _ => ok x
  end.

(** ** Indices accepted by [__getitem__] *)

Inductive sindex : Type :=
| SInt (i : Z)
| SSlice (s : pyslice)
| SSeq (l : list Z).

Inductive index : Type :=
| IxS (s : sindex)
| IxTuple (l : list sindex).

(** ** [WindowedData] *)

Section Windowed.
Context {A : Type}.

(** What an indexing expression evaluates to. *)
Inductive value : Type :=
| VScalar (a : A)
| VVec (v : list A)
| VMat (m : ndarray2 A).

(** [process_all] is [None] while the attribute does not exist yet, which
    is the case during the call of [generate_all] made by [__init__]. *)
Record WindowedData : Type := mkWindowedData {
  window : Z;
  data : ndarray2 A;
  shape : Z * Z;
  tree : list Interval;
  process_all : option bool
}.

(** [len(self)]. *)
Definition wd_len (self : WindowedData) : Z := fst (shape self).

(** [pad(_example, _size) = np.concatenate([_example] * _size)]. *)
Definition pad (_example : list A) (_size : Z) : res (list A) :=
  np_concatenate (replicate (Z.to_nat _size) _example).

(** [WindowedData.get_context]. *)
Definition get_context (self : WindowedData) (item : Z) : res (list A) :=
  do interval <- first_of (tree_at (tree self) item);
  let left := iv_begin interval in
  let right := iv_end interval in
  let left_pad := Z.max (window self + left - item) 0 in
  let right_pad :=
    Z.max 0 (window self - Z.min right (wd_len self - 1) + item) in
  do base <- np_concatenate
               (py_slice2 (nd_rows (data self))
                          (item - window self + left_pad)
                          (item + window self + 1 - right_pad));
  do base <- (if left_pad =? 0 then ok base
              else do row <- py_index (nd_rows (data self)) item;
                   do p <- pad row left_pad;
                   np_concatenate [p; base]);
  do base <- (if right_pad =? 0 then ok base
              else do row <- py_index (nd_rows (data self)) item;
                   do p <- pad row right_pad;
                   np_concatenate [base; p]);
  ok base.

(** *** numpy indexing of a two-dimensional array, [m[item]] *)

(** The rows selected by the first component of an index. *)
Definition np_rows (m : ndarray2 A) (r : sindex) : res (list (list A)) :=
  match r with
  | SInt i => do row <- py_index (nd_rows m) i; ok [row]
  | SSlice s => py_slice (nd_rows m) s
  | SSeq l => py_take (nd_rows m) l
  end.

(** The positions selected on an axis of length [len]. *)
Definition np_positions (len : Z) (c : sindex) : res (list Z) :=
  match c with
  | SInt i =>
      let j := if i <? 0 then i + len else i in
      if (j <? 0) || (len <=? j) then raise IndexError else ok [j]
  | SSlice s => slice_range s len
  | SSeq l =>
      rmap (fun i =>
              let j := if i <? 0 then i + len else i in
              if (j <? 0) || (len <=? j) then raise IndexError else ok j) l
  end.

(** The entries of one row at positions that are known to be in range
    for a row of the array. *)
Definition row_at (row : list A) (ps : list Z) : list A :=
  omap (fun j => row !! Z.to_nat j) ps.

(** [m[:, c]]. *)
Definition np_columns (m : ndarray2 A) (c : sindex) : res value :=
  do ps <- np_positions (nd_cols m) c;
  match c with
  | SInt _ => ok (VVec (concat (map (fun row => row_at row ps) (nd_rows m))))
  | _ => ok (VMat (Ndarray2 (map (fun row => row_at row ps) (nd_rows m))
                            (Z.of_nat (length ps))))
  end.

(** [m[r, c]]. *)
Definition np_getitem2 (m : ndarray2 A) (r c : sindex) : res value :=
  match r, c with
  | SSeq rl, SSeq cl =>
      (* two index arrays are broadcast against each other *)
      let n := length rl in
      let k := length cl in
      if negb (Nat.eqb n k || Nat.eqb n 1 || Nat.eqb k 1)
      then raise IndexError
      else
        let rl' := if Nat.eqb n 1 then flat_map (fun i => replicate k i) rl
                   else rl in
        let cl' := if Nat.eqb k 1 then flat_map (fun j => replicate n j) cl
                   else cl in
        do ps <- np_positions (nd_cols m) (SSeq cl');
        do rows <- py_take (nd_rows m) rl';
        ok (VVec (concat (zip_with (fun row j => row_at row [j]) rows ps)))
  | SInt i, _ =>
      do row <- py_index (nd_rows m) i;
      do ps <- np_positions (nd_cols m) c;
      match c, row_at row ps with
      | SInt _, [a] => ok (VScalar a)
      | _, v => ok (VVec v)
      end
  | _, _ =>
      do rows <- np_rows m r;
      np_columns (Ndarray2 rows (nd_cols m)) c
  end.

(** [m[item]] for the indices of [index]. *)
Definition np_getitem (m : ndarray2 A) (item : index) : res value :=
  match item with
  | IxS (SInt i) | IxTuple [SInt i] =>
      do row <- py_index (nd_rows m) i; ok (VVec row)
  | IxS r | IxTuple [r] =>
      do rows <- np_rows m r; ok (VMat (Ndarray2 rows (nd_cols m)))
  | IxTuple [] => ok (VMat m)
  | IxTuple [r; c] => np_getitem2 m r c
  | IxTuple _ => raise IndexError
  end.

(** *** [WindowedData.__getitem__] *)

(** [np.vstack([self.get_context(r) for r in rows])]. *)
Definition stack_contexts (self : WindowedData) (rows : list Z)
  : res (ndarray2 A) :=
  do ctxs <- rmap (get_context self) rows;
  np_vstack ctxs.

(** The rows a non-integer row index iterates over: a slice is turned
    into the range of its [indices(self.shape[0])], an index array is
    iterated as it is, an integer is not iterable. *)
Definition rows_of (self : WindowedData) (rows : sindex) : res (list Z) :=
  match rows with
  | SInt _ => raise TypeError
  | SSlice s => slice_range s (fst (shape self))
  | SSeq l => ok l
  end.

Definition getitem (self : WindowedData) (item : index) : res value :=
  match process_all self with
  | Some true => np_getitem (data self) item
  | _ =>
      match item with
      | IxS (SInt i) => do v <- get_context self i; ok (VVec v)
      | IxTuple l =>
          match l with
          | [rows; columns] =>
              match rows, columns with
              | SInt r, SInt c =>
                  do v <- get_context self r;
                  do a <- py_index v c;
                  ok (VScalar a)
              | _, _ =>
                  do rs <- rows_of self rows;
                  do m <- stack_contexts self rs;
                  np_columns m columns
              end
          | _ => raise TypeError
          end
      | IxS item' =>
          do rs <- rows_of self item';
          do m <- stack_contexts self rs;
          ok (VMat m)
      end
  end.

(** [WindowedData.generate_all], that is [self[:]]. *)
Definition generate_all (self : WindowedData) : res value :=
  getitem self (IxS (SSlice full_slice)).

(** [WindowedData.__init__], without its two progress messages.  The
    bounds [e] are inclusive on both sides and become the half-open
    interval [e[0], e[1] + 1).  With [process_all] the windowed rows are
    computed at once, while the attribute [process_all] does not exist
    yet, and replace [self.data]. *)
Definition init (data0 : ndarray2 A) (row_sentence_bounds : list (Z * Z))
    (window0 : Z) (process_all0 : bool) : res WindowedData :=
  do t <- IntervalTree
            (map (fun e => mkInterval (fst e) (snd e + 1))
                 row_sentence_bounds);
  let self :=
    mkWindowedData window0 data0
      (nd_len data0, (2 * window0 + 1) * nd_cols data0) t None in
  do d <- (if process_all0 then
             do v <- generate_all self;
             match v with
             | VMat m => ok m
             | _ => raise TypeError (* not reached: [self[:]] is a matrix *)
             end
           else ok data0);
  ok (mkWindowedData window0 d (shape self) t (Some process_all0)).
End Windowed.

Arguments value : clear implicits.
Arguments WindowedData : clear implicits.

(** ** [Dataset], as far as [ExampleVisiting] uses it *)

Section Datasets.
Context {A : Type}.

(** [Dataset.data] is a plain array or a [WindowedData]. *)
Inductive table : Type :=
| Plain (m : ndarray2 A)
| Windowed (w : WindowedData A).

Record Dataset : Type := mkDataset {
  ds_data : table;
  ds_target : ndarray2 A
}.

(** [Dataset.num_examples], that is [self.data.shape[0]]. *)
Definition num_examples (d : Dataset) : Z :=
  match ds_data d with
  | Plain m => nd_len m
  | Windowed w => fst (shape w)
  end.

(** [m[nb, :]] for a plain array.  [float_index] says that [nb] is an array
    of floats, which numpy refuses as an index. *)
Definition take_rows (m : ndarray2 A) (float_index : bool) (nb : list Z)
  : res (value A) :=
  if float_index then raise IndexError
  else np_getitem m (IxTuple [SSeq nb; SSlice full_slice]).

(** [d[nb, :]] for [Dataset.data]. *)
Definition table_rows (d : table) (float_index : bool) (nb : list Z)
  : res (value A) :=
  match d with
  | Plain m => take_rows m float_index nb
  | Windowed w =>
      match process_all w with
      | Some true => take_rows (data w) float_index nb
      | _ => getitem w (IxTuple [SSeq nb; SSlice full_slice])
      end
  end.
End Datasets.

Arguments table : clear implicits.
Arguments Dataset : clear implicits.

(** ** [ExampleVisiting] *)

(** *** Doubles

    [dataset.num_examples / batch_size] divides two Python integers and
    gives a double.  A finite double is written as the dyadic number
    [mant * 2^expo] it stands for; the sign of a zero does not matter
    here. *)
Record double : Type := mkDouble { mant : Z; expo : Z }.

(** The integer nearest to [p / q] for [q > 0], the even one of the two
    when [p / q] is half-way between them. *)
Definition round_half_even (p q : Z) : Z :=
  let f := p / q in
  let r := p mod q in
  if 2 * r <? q then f
  else if q <? 2 * r then f + 1
  else if Z.even f then f else f + 1.

(** The exponent [e] with [2^e <= n / b < 2^(e+1)], for [n, b > 0]. *)
Definition quotient_log2 (n b : Z) : Z :=
  let e0 := Z.log2 n - Z.log2 b in
  if b * 2 ^ Z.max e0 0 <=? n * 2 ^ Z.max (- e0) 0 then e0 else e0 - 1.

(** [n / b] for two Python integers: the double nearest to the exact
    quotient, ties to even.  A double has 53 significant bits and its
    last bit is worth at least [2^-1074]; a quotient that rounds to
    [2^1024] or more raises [OverflowError]. *)
Definition py_true_div (n b : Z) : res double :=
  if b =? 0 then raise ZeroDivisionError
  else if n =? 0 then ok (mkDouble 0 0)
  else
    let e := quotient_log2 (Z.abs n) (Z.abs b) in
    let s := Z.max (e - 52) (-1074) in
    let m := round_half_even (Z.abs n * 2 ^ Z.max (- s) 0)
                             (Z.abs b * 2 ^ Z.max s 0) in
    if 2 ^ 1024 <=? m * 2 ^ Z.max s 0 then raise OverflowError
    else ok (mkDouble (Z.sgn n * Z.sgn b * m) s).

(** The exact ceiling of [n / b] for [b > 0]: the
    [ceil(num_examples / batch_size)] of the statements. *)
Definition ceil_div (n b : Z) : Z := - ((- n) / b).

(** [int(np.ceil(x))]. *)
Definition ceil_int (x : double) : Z :=
  if 0 <=? expo x then mant x * 2 ^ expo x
  else ceil_div (mant x) (2 ^ (- expo x)).

(** [int(x)]: the fractional part is dropped. *)
Definition trunc_int (x : double) : Z :=
  if 0 <=? expo x then mant x * 2 ^ expo x
  else Z.quot (mant x) (2 ^ (- expo x)).

(** Python truth value of an optional integer: [None] and [0] are false. *)
Definition truthy (e : option Z) : bool :=
  match e with
  | None => false
  | Some v => negb (v =? 0)
  end.

(** [e or 1]. *)
Definition or_one (e : option Z) : Z :=
  match e with
  | Some v => if v =? 0 then 1 else v
  | None => 1
  end.

Definition wraparound_warning : string :=
  "WARNING: End of the training scheme reached.Generating another scheme.".

Section Visiting.
Context {A : Type}.
(** Payloads of the additional feeds. *)
Context {P : Type}.
(** The state of numpy's global random generator, and
    [np.random.shuffle] as a function of it. *)
Context {rng : Type}.
Context (shuffle : rng -> list Z -> list Z * rng).

Record ExampleVisiting : Type := mkExampleVisiting {
  dataset : Dataset A;
  batch_size : Z;
  epochs : option Z;
  T : Z;
  training_schedule : option (list Z);
  iter_per_epoch : Z
}.

(** [ExampleVisiting.__init__]. *)
Definition ev_init (d : Dataset A) (batch_size0 : Z) (epochs0 : option Z)
  : res ExampleVisiting :=
  do q <- py_true_div (num_examples d) batch_size0;
  let t := ceil_int q in
  let t := if truthy epochs0 then t * default 0 epochs0 else t in
  do q' <- py_true_div (num_examples d) batch_size0;
  ok (mkExampleVisiting d batch_size0 epochs0 t None (trunc_int q')).

(** What a call of the supplier can read and change: the object, the
    random generator and the standard output. *)
Record world : Type := mkWorld {
  w_self : ExampleVisiting;
  w_rng : rng;
  w_out : list string
}.

Definition M (X : Type) : Type := world -> res X * world.

Definition mret {X} (x : X) : M X := fun w => (ok x, w).
Definition mfail {X} (e : exn) : M X := fun w => (raise e, w).
Definition mlift {X} (r : res X) : M X := fun w => (r, w).
Definition mbind {X Y} (m : M X) (k : X -> M Y) : M Y :=
  fun w =>
    match m w with
    | (inl e, w') => (inl e, w')
    | (inr x, w') => k x w'
    end.

Definition get_self : M ExampleVisiting := fun w => (ok (w_self w), w).
Definition print (s : string) : M unit :=
  fun w => (ok tt, mkWorld (w_self w) (w_rng w) (w_out w ++ [s])).
Definition set_training_schedule (s : list Z) : M unit :=
  fun w =>
    let self := w_self w in
    (ok tt,
     mkWorld (mkExampleVisiting (dataset self) (batch_size self)
                (epochs self) (T self) (Some s) (iter_per_epoch self))
             (w_rng w) (w_out w)).

(** [[all_indices_shuffled() for _ in range(k)]]: every call shuffles a
    fresh [list(range(num_examples))] and advances the generator. *)
Fixpoint shuffled_epochs (k : nat) (n : Z) (g : rng)
  : list (list Z) * rng :=
  match k with
  | O => ([], g)
  | S k' =>
      let (p, g1) := shuffle g (py_range 0 n 1) in
      let (ps, g2) := shuffled_epochs k' n g1 in
      (p :: ps, g2)
  end.

Definition all_epochs_shuffled (k : Z) (n : Z) : M (list (list Z)) :=
  fun w =>
    let (ps, g) := shuffled_epochs (Z.to_nat k) n (w_rng w) in
    (ok ps, mkWorld (w_self w) g (w_out w)).

Local Notation "'do' x <- m ; k" := (mbind m (fun x => k))
  (at level 20, x name, m at level 100, k at level 200, only parsing).

(** [ExampleVisiting.generate_visiting_scheme]. *)
Definition generate_visiting_scheme : M unit :=
  do self <- get_self;
  do perms <- all_epochs_shuffled (or_one (epochs self))
                (num_examples (dataset self));
  do s <- mlift (np_concatenate perms);
  set_training_schedule s.

(** [self.training_schedule[...]] needs a schedule: [None] is not
    subscriptable. *)
Definition get_schedule : M (list Z) :=
  do self <- get_self;
  match training_schedule self with
  | Some s => mret s
  | None => mfail TypeError
  end.

(** The values of a feed dictionary. *)
Inductive feed : Type :=
| FData (v : value A)
| FPayload (p : P).

(** The first statements of [_training_supplier]: the step is brought
    back below [T], with a new visiting scheme at every multiple of [T]. *)
Definition wrap_step (step : Z) : M Z :=
  do self <- get_self;
  if T self <=? step then
    if T self =? 0 then mfail ZeroDivisionError
    else
      do _ <- (if step mod T self =? 0 then
                 do _ <- (if truthy (epochs self)
                          then print wraparound_warning else mret tt);
                 generate_visiting_scheme
               else mret tt);
      mret (step mod T self)
  else mret step.

(** The rows of the batch: the local [nb] of [_training_supplier]. *)
Definition batch_indices (self : ExampleVisiting) (sched : list Z)
    (step : Z) : list Z :=
  py_slice2 sched (step * batch_size self)
    (Z.min ((step + 1) * batch_size self) (Z.of_nat (length sched))).

(** The last statements of [_training_supplier], from [bx = ...] on. *)
Definition feed_dict (x y : string) (other_feeds : gmap string P)
    (lambda_feeds : gmap string (list Z -> P))
    (self : ExampleVisiting) (sched nb : list Z)
  : res (gmap string feed) :=
  let float_index := bool_decide (sched = []) in
  (do bx <- table_rows (ds_data (dataset self)) float_index nb;
   do by_ <- take_rows (ds_target (dataset self)) float_index nb;
   let lambda_processed_feeds := (fun v => v nb) <$> lambda_feeds in
   ok ((FPayload <$> lambda_processed_feeds)
         ∪ ((FPayload <$> other_feeds)
              ∪ <[y := FData by_]> {[x := FData bx]})))%res.

(** The supplier returned by
    [ExampleVisiting.create_feed_dict_supplier(x, y, other_feeds,
    lambda_feeds)]; an absent dictionary is an empty one. *)
Definition _training_supplier (x y : string)
    (other_feeds : gmap string P)
    (lambda_feeds : gmap string (list Z -> P))
    (step : option Z) : M (gmap string feed) :=
  match step with
  | None => mfail TypeError
  | Some step =>
      do step <- wrap_step step;
      do self <- get_self;
      do _ <- (match training_schedule self with
               | None => generate_visiting_scheme
               | Some _ => mret tt
               end);
      do sched <- get_schedule;
      let nb := batch_indices self sched step in
      mlift (feed_dict x y other_feeds lambda_feeds self sched nb)
  end.
End Visiting.

Arguments ExampleVisiting : clear implicits.
Arguments world : clear implicits.
Arguments feed : clear implicits.

(** ** Quantities named in the statements *)

(** The entries [a .. b-1] of a sequence: the physical rows of a table,
    the positions of a visiting scheme. *)
Definition between {B} (l : list B) (a b : Z) : list B :=
  take (Z.to_nat (b - a)) (drop (Z.to_nat a) l).

Section Statements.
Context {A : Type}.

(** The number of leading and of trailing copies of the current row that
    [get_context] computes, for the interval [iv] it found. *)
Definition left_pad_of (self : WindowedData A) (iv : Interval) (item : Z)
  : Z :=
  Z.max (window self + iv_begin iv - item) 0.

Definition right_pad_of (self : WindowedData A) (iv : Interval) (item : Z)
  : Z :=
  Z.max 0 (window self - Z.min (iv_end iv) (wd_len self - 1) + item).

(** The row of a table at a position known to exist. *)
Definition row_of (rows : list (list A)) (i : Z) : list A :=
  default [] (rows !! Z.to_nat i).

(** The windowed row as the specification words it, for a row [i] of the
    segment [start, end_) of an [n]-row table: the right padding is
    measured from the last row [end_ - 1] of the segment. *)
Definition get_row_spec (rows : list (list A)) (n w start end_ i : Z)
  : list A :=
  let left_pad := Z.max 0 (w + start - i) in
  let right_pad := Z.max 0 (w - Z.min (end_ - 1) (n - 1) + i) in
  concat (replicate (Z.to_nat left_pad) (row_of rows i)
          ++ between rows (i - w + left_pad) (i + w + 1 - right_pad)
          ++ replicate (Z.to_nat right_pad) (row_of rows i)).

(** The windowed row of the specification's data model: the [2w+1] rows
    around [i], with a row of [d] zeros at every position outside the
    segment [start, end_). *)
Definition zero_filled_row_spec (zero : A) (rows : list (list A))
    (d w start end_ i : Z) : list A :=
  concat (map (fun p => if (start <=? p) && (p <? end_)
                        then row_of rows p
                        else replicate (Z.to_nat d) zero)
              (seqZ (i - w) (2 * w + 1))).

(** A result that is not an exception. *)
Definition succeeds {X} (r : res X) : Prop := exists x, r = ok x.

Definition is_ok {X} (r : res X) : bool :=
  match r with
  | inr _ => true
  | inl _ => false
  end.



(** The object [ev] after some calls of its supplier: only the visiting
    scheme changes. *)
Definition with_schedule (ev : ExampleVisiting A) (s : option (list Z))
  : ExampleVisiting A :=
  mkExampleVisiting (dataset ev) (batch_size ev) (epochs ev) (T ev) s
    (iter_per_epoch ev).


(** The number of permutations in a visiting scheme. *)
Definition permutations_of (e : option Z) : Z :=
  match e with
  | Some v => Z.max v 1
  | None => 1
  end.
End Statements.

(** ** Concrete tables used in the examples *)

(** The table with rows [[10k+1; 10k+2]], for [k < n]. *)
Definition table_of (n : nat) : ndarray2 Z :=
  Ndarray2 (map (fun k => [10 * Z.of_nat k + 1; 10 * Z.of_nat k + 2])
                (seq 0 n)) 2.

(** Five rows in one sentence, and ten rows in two sentences of five. *)
Definition bounds_one : list (Z * Z) := [(0, 4)].
Definition bounds_two : list (Z * Z) := [(0, 4); (5, 9)].

(** The two objects built from [table_of 5] with one sentence and a
    half-window of 2: rows created on demand, and all rows processed by the
    constructor. *)
Definition lazy_five : WindowedData Z :=
  mkWindowedData 2 (table_of 5) (5, 10) [mkInterval 0 5] (Some false).

Definition eager_five : WindowedData Z :=
  match init (table_of 5) bounds_one 2 true with
  | inr s => s
  | inl _ => lazy_five
  end.

(** A generator without state, whose shuffle reverses the list. *)
Definition rev_shuffle (g : unit) (l : list Z) : list Z * unit := (rev l, g).

Definition plain_dataset (n : nat) : Dataset Z :=
  mkDataset (Plain (table_of n)) (table_of n).

(** The object built by [ExampleVisiting(d, b, e)]. *)
Definition visiting (d : Dataset Z) (b : Z) (e : option Z)
  : ExampleVisiting Z :=
  match ev_init d b e with
  | inr ev => ev
  | inl _ => mkExampleVisiting d b e 0 None 0
  end.

(** Ten rows in one sentence, windowed on demand with a half-window of 1,
    as the data of a dataset. *)
Definition lazy_dataset : Dataset Z :=
  mkDataset
    (Windowed (mkWindowedData 1 (table_of 10) (10, 6) [mkInterval 0 10]
                 (Some false)))
    (table_of 10).

(** Ten examples, batches of 3, two epochs. *)
Definition visiting_10_3_2 : ExampleVisiting Z :=
  visiting (plain_dataset 10) 3 (Some 2).

(** A visiting scheme of two epochs over ten examples, and the world of
    an object that holds it. *)
Definition scheme_20 : list Z :=
  [9; 8; 7; 6; 5; 4; 3; 2; 1; 0; 9; 8; 7; 6; 5; 4; 3; 2; 1; 0].

Definition world_20 : world Z unit :=
  mkWorld (with_schedule visiting_10_3_2 (Some scheme_20)) tt [].

(** The world in which a supplier is first called. *)
Definition first_world {A rng : Type} (ev : ExampleVisiting A) (g : rng)
  : world A rng :=
  mkWorld ev g [].

(** ** One-hot targets: [to_one_hot_enc] and [test_if_balanced]

    Labels are integers of numpy's default type, [int64]; the entries
    [0.0] and [1.0] of the encoded rows are written [0] and [1]. *)

(** The result of an [int64] operation: numpy wraps it around. *)
Definition wrap_int64 (z : Z) : Z := (z + 2 ^ 63) mod 2 ^ 64 - 2 ^ 63.

(** [np.max(seq)]: an empty array has no maximum. *)
Definition np_max (seq : list Z) : res Z :=
  match seq with
  | [] => raise ValueError
  | x :: xs => ok (fold_left Z.max xs x)
  end.

(** [np.zeros(k)]: a negative dimension is refused. *)
Definition np_zeros (k : Z) : res (list Z) :=
  if k <? 0 then raise ValueError else ok (replicate (Z.to_nat k) 0).

(** [l[p] = v]: negative positions count from the end, a position outside
    [-len .. len-1] raises [IndexError]. *)
Definition py_setitem {B} (l : list B) (p : Z) (v : B) : res (list B) :=
  let len := Z.of_nat (length l) in
  let j := if p <? 0 then p + len else p in
  if (j <? 0) || (len <=? j) then raise IndexError
  else ok (<[Z.to_nat j := v]> l).

(** The local function [create_and_set] of [to_one_hot_enc]. *)
Definition create_and_set (da_max _p : Z) : res (list Z) :=
  do _tmp <- np_zeros da_max;
  py_setitem _tmp _p 1.

(** [to_one_hot_enc(seq, dimension)], as the list of the rows of its
    result; [dimension or np.max(seq) + 1] looks at [seq] only when
    [dimension] is [None] or 0, and adds 1 to an [int64]. *)
Definition to_one_hot_enc (seq : list Z) (dimension : option Z)
  : res (list (list Z)) :=
  do da_max <- (if truthy dimension then ok (default 0 dimension)
                else do m <- np_max seq; ok (wrap_int64 (m + 1)));
  rmap (create_and_set da_max) seq.

(** [np.argmax(l)]: the first position of the largest entry; an empty
    array has none. *)
Fixpoint argmax_from (l : list Z) (i best besti : Z) : Z :=
  match l with
  | [] => besti
  | x :: xs =>
      if best <? x then argmax_from xs (i + 1) x i
      else argmax_from xs (i + 1) best besti
  end.

Definition np_argmax (l : list Z) : res Z :=
  match l with
  | [] => raise ValueError
  | x :: xs => ok (argmax_from xs 1 x 0)
  end.

(** [for x in xs: acc = f(acc, x)] for an [f] that may raise. *)
Fixpoint rfold {X B} (f : B -> X -> res B) (xs : list X) (acc : B) : res B :=
  match xs with
  | [] => ok acc
  | x :: xs' => do acc' <- f acc x; rfold f xs' acc'
  end.

(** [class_counter[np.argmax(l)] += 1]. *)
Definition count_label (class_counter : list Z) (l : list Z)
  : res (list Z) :=
  do c <- np_argmax l;
  do old <- py_index class_counter c;
  py_setitem class_counter c (old + 1).

(** [test_if_balanced(dataset)], for the targets of the dataset: the value
    is the list [class_counter] that the function prints. *)
Definition test_if_balanced (labels : list (list Z)) : res (list Z) :=
  do first <- py_index labels 0;
  let n_classes := length first in
  rfold count_label labels (replicate n_classes 0).

(** ** [Datasets] *)

Section DatasetsClass.
Context {D : Type}.

(** A dataset or [None]. *)
Record Datasets : Type := mkDatasets {
  train : option D;
  validation : option D;
  test : option D;
  _lst : list (option D)
}.

(** [Datasets.__init__]. *)
Definition Datasets_init (train0 validation0 test0 : option D) : Datasets :=
  mkDatasets train0 validation0 test0 [train0; validation0; test0].

(** [Datasets.__getitem__]. *)
Definition Datasets_getitem (self : Datasets) (item : Z) : res (option D) :=
  py_index (_lst self) item.

(** [Datasets.__len__]. *)
Definition Datasets_len (self : Datasets) : Z :=
  Z.of_nat (length (List.filter (fun d => bool_decide (is_Some d))
                                (_lst self))).

(** What [Datasets.from_list] returns: an object, or the list it was
    given. *)
Inductive from_list_result : Type :=
| AsDatasets (ds : Datasets)
| AsList (l : list (option D)).

Definition too_many_datasets : string :=
  "There are more then 3 Datasets here...".

(** [Datasets.from_list(list_of_datasets)], with the lines it prints. *)
Definition from_list (list_of_datasets : list (option D))
  : res (from_list_result * list string) :=
  do train0 <- py_index list_of_datasets 0;
  let len := length list_of_datasets in
  if (3 <? len)%nat then ok (AsList list_of_datasets, [too_many_datasets])
  else
    do test0 <- (if (1 <? len)%nat then py_index list_of_datasets (-1)
                 else ok None);
    do valid0 <- (if (1 <? len)%nat && Nat.eqb len 3
                  then py_index list_of_datasets 1
                  else ok None);
    ok (AsDatasets (Datasets_init train0 valid0 test0), []).
End DatasetsClass.

Arguments Datasets : clear implicits.
Arguments from_list_result : clear implicits.

(** ** The partitions of [redivide_data]

    The proportions are floats; the sizes [int(N * prp)] computed from them
    are taken as they come. *)

(** [sum(v)]. *)
Definition py_sum (v : list Z) : Z := fold_left Z.add v 0.

(** [calculated_partitions]: the reduction over the sizes, then
    [calculated_partitions[-1] = N]. *)
Definition calculated_partitions (sizes : list Z) (N : Z) : list Z :=
  let cp := fold_left (fun v1 v2 => v1 ++ [py_sum v1 + v2]) sizes [0] in
  <[(length cp - 1)%nat := N]> cp.

(** [[all_data[d1:d2] for d1, d2 in zip(cp, cp[1:])]]: the rows of the new
    datasets when classes are not balanced. *)
Definition partition_rows {B} (all_data : list B) (cp : list Z)
  : list (list B) :=
  map (fun d => py_slice2 all_data (fst d) (snd d)) (zip cp (tail cp)).

(** ** Quantities named in the further statements *)

(** The row index [rows] selects at least one row of a table of [n] rows,
    all of them rows of the table: a slice whose range is not empty, or a
    non-empty list of row numbers. *)
Definition selects_rows (n : Z) (rows : sindex) : Prop :=
  match rows with
  | SInt _ => False
  | SSlice s => exists ixs, slice_range s n = ok ixs /\ ixs <> []
  | SSeq l => l <> [] /\ Forall (fun i => 0 <= i < n) l
  end.

(** The object [self] with the intervals of its tree listed as [t]:
    [list(self.tree[item])] lists a set, in an order that the bounds do
    not fix. *)
Definition with_tree {A} (self : WindowedData A) (t : list Interval)
  : WindowedData A :=
  mkWindowedData (window self) (data self) (shape self) t (process_all self).

(** A column index that is an integer or a slice. *)
Definition plain_columns (columns : sindex) : Prop :=
  match columns with
  | SSeq _ => False
  | _ => True
  end.

(** The bounds are ordered pairs of row numbers that cover the rows
    [0 .. n-1]. *)
Definition bounds_cover (bounds : list (Z * Z)) (n : Z) : Prop :=
  (forall e, In e bounds -> 0 <= fst e <= snd e) /\
  (forall i, 0 <= i < n -> exists e, In e bounds /\ fst e <= i <= snd e).

(** ** [Dataset.create_supplier] *)

Section DatasetSupplier.
Context {A P : Type}.

(** The values of the feed dictionary of [Dataset.create_supplier]: the
    attribute [data] as it is, an array or a [WindowedData] object, the
    targets, and the other feeds. *)
Inductive dataset_feed : Type :=
| DData (t : table A)
| DTarget (m : ndarray2 A)
| DPayload (p : P).

(** The supplier returned by [Dataset.create_supplier(x, y, other_feeds)],
    an absent dictionary being an empty one.  It does not look at [step],
    and the local [data] that receives the generated rows is not used. *)
Definition _supplier (self : Dataset A) (x y : string)
    (other_feeds : gmap string P) (step : option Z)
  : res (gmap string dataset_feed) :=
  do _ <- match ds_data self with
          | Windowed wd => do data0 <- generate_all wd; ok tt
          | Plain _ => ok tt
          end;
  ok ((DPayload <$> other_feeds)
        ∪ <[y := DTarget (ds_target self)]> {[x := DData (ds_data self)]}).
End DatasetSupplier.

Arguments dataset_feed : clear implicits.

(** ** Further objects of the instances *)

(** The feed dictionary of the batch [[9; 8; 7]] of [scheme_20], with one
    other feed. *)
Definition feed_20 : gmap string (feed Z unit) :=
  match feed_dict "x" "y" {["lr" := tt]} ∅ visiting_10_3_2 scheme_20 [9; 8; 7]
  with
  | inr fd => fd
  | inl _ => ∅
  end.

(** * Facts *)

(** ** Ranges, slices and indexing *)

Lemma py_range_1 (a b : Z) :
  py_range a b 1 = map (fun k => a + Z.of_nat k) (seq 0 (Z.to_nat (b - a))).
Proof.
  unfold py_range. simpl.
  replace ((b - a + 1 - 1) / 1) with (b - a) by (rewrite Z.div_1_r; lia).
  apply map_ext. intros k. lia.
Qed.

Lemma py_range_seqZ (n : Z) : py_range 0 n 1 = seqZ 0 n.
Proof.
  rewrite py_range_1, Z.sub_0_r. unfold seqZ.
  apply map_ext. intros k. lia.
Qed.

Lemma omap_lookup_range {B} (l : list B) (a : Z) (s m : nat) :
  0 <= a -> (Z.to_nat a + s + m <= length l)%nat ->
  omap (fun i => l !! Z.to_nat i) (map (fun k => a + Z.of_nat k) (seq s m))
  = take m (drop (Z.to_nat a + s) l).
Proof.
  intros Ha. revert s. induction m as [|m IH]; intros s Hle; [reflexivity|].
  destruct (lookup_lt_is_Some_2 l (Z.to_nat a + s)) as [x Hx]; [lia|].
  rewrite (drop_S _ _ _ Hx). cbn [seq map].
  change (omap ?f (?y :: ?ys)) with
    (match f y with Some z => z :: omap f ys | None => omap f ys end).
  cbv beta.
  replace (Z.to_nat (a + Z.of_nat s)) with (Z.to_nat a + s)%nat by lia.
  rewrite Hx. cbn [take]. f_equal.
  rewrite IH by lia. f_equal. f_equal. lia.
Qed.

(** [l[a:b]] for bounds that need no clamping from below. *)
Lemma py_slice2_take_drop {B} (l : list B) (a b : Z) :
  0 <= a -> 0 <= b <= Z.of_nat (length l) ->
  py_slice2 l a b = take (Z.to_nat (b - a)) (drop (Z.to_nat a) l).
Proof.
  intros Ha Hb. unfold py_slice2, clamp_bound.
  destruct (Z.ltb_spec a 0); [lia|]. destruct (Z.ltb_spec b 0); [lia|].
  rewrite py_range_1.
  destruct (Z.le_gt_cases a b) as [Hab|Hab].
  - rewrite !Z.min_l by lia.
    rewrite omap_lookup_range by lia.
    by rewrite Nat.add_0_r.
  - replace (Z.to_nat (Z.min b _ - Z.min a _)) with 0%nat by lia.
    replace (Z.to_nat (b - a)) with 0%nat by lia. reflexivity.
Qed.

(** [l[:]] is [l]. *)
Lemma py_slice_full {B} (l : list B) : py_slice l full_slice = ok l.
Proof.
  unfold py_slice, slice_range, slice_indices, full_slice. simpl.
  rewrite py_range_1, Z.sub_0_r, omap_lookup_range by lia.
  simpl. rewrite Nat2Z.id, drop_0, firstn_all. reflexivity.
Qed.

Lemma slice_range_full (n : Z) : slice_range full_slice n = ok (py_range 0 n 1).
Proof. reflexivity. Qed.

Lemma between_Forall {B} (Q : B -> Prop) (xs : list B) (a b : Z) :
  Forall Q xs -> Forall Q (between xs a b).
Proof. intros H. unfold between. by apply Forall_take, Forall_drop. Qed.

Lemma py_index_ok {B} (l : list B) (i : Z) (x : B) :
  0 <= i -> l !! Z.to_nat i = Some x -> py_index l i = ok x.
Proof.
  intros Hi Hx. unfold py_index.
  pose proof (lookup_lt_Some _ _ _ Hx) as Hlt.
  destruct (Z.ltb_spec i 0); [lia|].
  destruct (Z.ltb_spec i 0); [lia|].
  destruct (Z.leb_spec (Z.of_nat (length l)) i); [lia|].
  simpl. by rewrite Hx.
Qed.

(** A non-negative index that [l[i]] accepts is a position of [l]. *)
Lemma py_index_inv {B} (l : list B) (i : Z) (x : B) :
  0 <= i -> py_index l i = ok x ->
  i < Z.of_nat (length l) /\ l !! Z.to_nat i = Some x.
Proof.
  intros Hi. unfold py_index.
  destruct (Z.ltb_spec i 0); [lia|].
  destruct (Z.ltb_spec i 0); [lia|].
  destruct (Z.leb_spec (Z.of_nat (length l)) i); simpl; [discriminate|].
  destruct (l !! Z.to_nat i) eqn:E; [|discriminate].
  intros [= ->]. split; [lia|reflexivity].
Qed.

(** ** Comprehensions *)

Lemma rmap_ok_lookup {X Y} (f : X -> res Y) (xs : list X) (ys : list Y) :
  rmap f xs = ok ys ->
  length ys = length xs /\
  forall k x, xs !! k = Some x -> exists y, ys !! k = Some y /\ f x = ok y.
Proof.
  revert ys. induction xs as [|x xs IH]; intros ys; simpl.
  - intros [= <-]. split; [reflexivity|]. intros k x Hk. discriminate.
  - destruct (f x) as [e|y] eqn:Ef; simpl; [discriminate|].
    destruct (rmap f xs) as [e|ys'] eqn:Er; simpl; [discriminate|].
    intros [= <-]. destruct (IH ys' eq_refl) as [Hlen Hlk].
    split; [simpl; congruence|].
    intros [|k] x' Hk; simpl in *.
    + injection Hk as <-. eauto.
    + eauto.
Qed.

Lemma rmap_all_ok {X Y} (f : X -> res Y) (xs : list X) :
  Forall (fun x => succeeds (f x)) xs -> succeeds (rmap f xs).
Proof.
  induction 1 as [|x xs [y Hy] _ [ys Hys]]; simpl.
  - by exists [].
  - rewrite Hy, Hys. by eexists.
Qed.

(** ** [WindowedData] *)

Section WindowedFacts.
Context {A : Type}.
Implicit Types (self : WindowedData A) (row : list A) (d : ndarray2 A).

Lemma np_concatenate_ok (arrays : list (list A)) :
  arrays <> [] -> np_concatenate arrays = ok (concat arrays).
Proof. by destruct arrays. Qed.

Lemma pad_ok row (k : Z) :
  0 < k -> pad row k = ok (concat (replicate (Z.to_nat k) row)).
Proof.
  intros Hk. unfold pad. apply np_concatenate_ok.
  destruct (Z.to_nat k) eqn:E; [lia|discriminate].
Qed.

Lemma tree_at_head (t : list Interval) (p : Z) iv rest :
  tree_at t p = iv :: rest -> iv_begin iv <= p < iv_end iv.
Proof.
  intros H.
  assert (Hin : In iv (tree_at t p)) by (rewrite H; left; reflexivity).
  apply filter_In in Hin as [_ Hc]. unfold iv_contains in Hc.
  apply andb_true_iff in Hc as [H1 H2]. lia.
Qed.

(** What the constructor builds without [process_all]. *)
Lemma init_lazy_inv d bounds w self :
  init d bounds w false = ok self ->
  window self = w /\ data self = d /\ wd_len self = nd_len d /\
  process_all self = Some false /\
  tree self = map (fun e => mkInterval (fst e) (snd e + 1)) bounds.
Proof.
  unfold init, IntervalTree.
  destruct (existsb _ _); simpl; [discriminate|].
  intros [= <-]. repeat split.
Qed.

(** [get_context] as one expression: copies of the current row, the rows
    of the slice, copies of the current row. *)
Lemma get_context_eq self (i : Z) iv rest row :
  tree_at (tree self) i = iv :: rest ->
  wd_len self = nd_len (data self) ->
  0 <= window self -> 0 <= iv_begin iv -> i < wd_len self ->
  nd_rows (data self) !! Z.to_nat i = Some row ->
  let lp := left_pad_of self iv i in
  let rp := right_pad_of self iv i in
  get_context self i =
  ok (concat (replicate (Z.to_nat lp) row
              ++ between (nd_rows (data self))
                   (i - window self + lp) (i + window self + 1 - rp)
              ++ replicate (Z.to_nat rp) row)).
Proof.
  intros Ht Hlen Hw Hb Hi Hrow lp rp.
  pose proof (tree_at_head _ _ _ _ Ht) as [Hl Hr].
  unfold nd_len in Hlen.
  unfold get_context, between. rewrite Ht. cbn [first_of rbind ok].
  fold (left_pad_of self iv i) (right_pad_of self iv i). fold lp rp.
  assert (Hlp : lp = Z.max (window self + iv_begin iv - i) 0) by reflexivity.
  assert (Hrp : rp = Z.max 0 (window self
                              - Z.min (iv_end iv) (wd_len self - 1) + i))
    by reflexivity.
  clearbody lp rp.
  rewrite py_slice2_take_drop by lia.
  set (sl := take _ (drop _ _)).
  assert (Hsl : sl <> []).
  { intros E. apply (f_equal length) in E. subst sl.
    rewrite length_take, length_drop in E. simpl in E. lia. }
  rewrite (np_concatenate_ok sl Hsl). cbn [rbind ok].
  assert (Hi0 : 0 <= i) by lia.
  rewrite (py_index_ok _ _ _ Hi0 Hrow). cbn [rbind ok].
  rewrite !concat_app.
  destruct (Z.eqb_spec lp 0) as [E1|E1];
    destruct (Z.eqb_spec rp 0) as [E2|E2];
    cbn [rbind ok]; rewrite ?E1, ?E2;
    try rewrite (pad_ok row lp) by lia;
    try rewrite (pad_ok row rp) by lia;
    cbn [rbind ok np_concatenate concat replicate Z.to_nat];
    rewrite ?app_nil_r, <- ?app_assoc; reflexivity.
Qed.

Lemma row_of_lookup (rows : list (list A)) (i : Z) :
  0 <= i < Z.of_nat (length rows) ->
  rows !! Z.to_nat i = Some (row_of rows i).
Proof.
  intros Hi. unfold row_of.
  destruct (lookup_lt_is_Some_2 rows (Z.to_nat i)) as [r Hr]; [lia|].
  by rewrite Hr.
Qed.

(** On a sentence that reaches the end of the table, [get_context]
    computes the windowed row of the specification. *)
Lemma get_context_last_sentence d bounds w self i start end_ :
  init d bounds w false = ok self ->
  tree_at (tree self) i = [mkInterval start end_] ->
  0 <= w -> 0 <= start -> i < nd_len d -> nd_len d <= end_ ->
  get_context self i = ok (get_row_spec (nd_rows d) (nd_len d) w start end_ i).
Proof.
  intros Hinit Ht Hw Hs Hi He.
  destruct (init_lazy_inv _ _ _ _ Hinit) as (Ew & Ed & El & _ & _).
  pose proof (tree_at_head _ _ _ _ Ht) as [Hl _]. simpl in Hl.
  assert (Hrow := row_of_lookup (nd_rows d) i ltac:(unfold nd_len in Hi; lia)).
  rewrite (get_context_eq self i _ _ (row_of (nd_rows d) i) Ht);
    rewrite ?Ed, ?Ew, ?El; try (simpl; lia); [|exact Hrow].
  unfold get_row_spec, left_pad_of, right_pad_of. rewrite Ew, El. simpl.
  rewrite (Z.max_comm _ 0).
  replace (Z.min end_ (nd_len d - 1)) with (Z.min (end_ - 1) (nd_len d - 1))
    by lia.
  reflexivity.
Qed.

(** C2.  At the left edge of a sentence [start, end_), for a row [i] with
    [i < start + w] whose window still ends inside the sentence and the
    table, [get_context] returns [w + start - i] copies of row [i]
    followed by the physical rows [start .. i + w], flattened.  With one
    sentence [0, 5) and [w = 2], row 0 has a left padding of 2 and no
    right padding, and its windowed row is rows 0, 0, 0, 1, 2. *)
Theorem get_context_left_edge d bounds w self i start end_ :
  init d bounds w false = ok self ->
  tree_at (tree self) i = [mkInterval start end_] ->
  0 <= start -> i < start + w -> i + w < end_ -> i + w < nd_len d ->
  get_context self i =
    ok (concat (replicate (Z.to_nat (w + start - i)) (row_of (nd_rows d) i)
                ++ between (nd_rows d) start (i + w + 1)))
  /\ forall (r0 r1 r2 r3 r4 : list A) (c : Z),
      (do s <- init (Ndarray2 [r0; r1; r2; r3; r4] c) [(0, 4)] 2 false;
       do v <- get_context s 0;
       ok (left_pad_of s (mkInterval 0 5) 0,
           right_pad_of s (mkInterval 0 5) 0, v))
      = ok (2, 0, r0 ++ r0 ++ r0 ++ r1 ++ r2).
Proof.
  intros Hinit Ht Hs Hiw He Hn. split.
  - destruct (init_lazy_inv _ _ _ _ Hinit) as (Ew & Ed & El & _ & _).
    pose proof (tree_at_head _ _ _ _ Ht) as [Hl _]. simpl in Hl.
    assert (Hrow := row_of_lookup (nd_rows d) i
                      ltac:(unfold nd_len in Hn; lia)).
    rewrite (get_context_eq self i _ _ (row_of (nd_rows d) i) Ht);
      rewrite ?Ed, ?Ew, ?El; try (simpl; lia); [|exact Hrow].
    unfold left_pad_of, right_pad_of. rewrite Ew, El. simpl.
    rewrite (Z.max_l _ 0) by lia.
    rewrite (Z.max_l 0) by lia.
    rewrite app_nil_r. do 3 f_equal. f_equal; lia.
  - intros r0 r1 r2 r3 r4 c. cbv -[app].
    rewrite !app_nil_r, <- !app_assoc. reflexivity.
Qed.

(** C3, as the code has it.  For a row [i] of the sentence
    [start, end_), the windowed row is made of [2w+1] blocks, one for
    every position [p] of the window [i-w .. i+w].  The block of a
    position before the sentence ([p < start]), past its bound
    ([end_ < p]) or past the table is a copy of row [i], not a row of
    zeros; the block of a position inside the sentence is the physical
    row [p]. *)
Theorem get_context_pads_with_current_row d bounds w self i start end_ :
  init d bounds w false = ok self ->
  tree_at (tree self) i = [mkInterval start end_] ->
  0 <= w -> 0 <= start -> i < nd_len d ->
  exists blocks : list (list A),
    get_context self i = ok (concat blocks) /\
    Z.of_nat (length blocks) = 2 * w + 1 /\
    forall k, 0 <= k <= 2 * w ->
      let p := i - w + k in
      (p < start \/ end_ < p \/ nd_len d <= p ->
       blocks !! Z.to_nat k = Some (row_of (nd_rows d) i)) /\
      (start <= p < end_ -> p < nd_len d ->
       blocks !! Z.to_nat k = Some (row_of (nd_rows d) p)).
Proof.
  intros Hinit Ht Hw Hs Hn.
  destruct (init_lazy_inv _ _ _ _ Hinit) as (Ew & Ed & El & _ & _).
  pose proof (tree_at_head _ _ _ _ Ht) as [Hl Hr]. simpl in Hl, Hr.
  assert (Hlen : 0 <= i < Z.of_nat (length (nd_rows d)))
    by (unfold nd_len in Hn; lia).
  assert (Hrow := row_of_lookup (nd_rows d) i Hlen).
  rewrite (get_context_eq self i _ _ (row_of (nd_rows d) i) Ht);
    rewrite ?Ed, ?Ew, ?El; try (simpl; lia); [|exact Hrow].
  unfold left_pad_of, right_pad_of, between.
  rewrite Ew, El. cbn [iv_begin iv_end].
  set (lp := Z.max (w + start - i) 0).
  set (rp := Z.max 0 (w - Z.min end_ (nd_len d - 1) + i)).
  assert (Hlp : lp = Z.max (w + start - i) 0) by reflexivity.
  assert (Hrp : rp = Z.max 0 (w - Z.min end_ (nd_len d - 1) + i))
    by reflexivity.
  clearbody lp rp. unfold nd_len in *.
  eexists. split; [reflexivity|].
  assert (Hmid : length (take (Z.to_nat (i + w + 1 - rp - (i - w + lp)))
                           (drop (Z.to_nat (i - w + lp)) (nd_rows d)))
                 = Z.to_nat (2 * w + 1 - lp - rp)).
  { rewrite length_take, length_drop. lia. }
  split.
  { rewrite !length_app, !length_replicate, Hmid. lia. }
  intros k Hk. cbv zeta. set (p := i - w + k).
  assert (Hp0 : p = i - w + k) by reflexivity. clearbody p. split.
  - intros Hp.
    destruct (Z.lt_ge_cases p start) as [Hlt|Hge].
    + rewrite lookup_app_l by (rewrite length_replicate; lia).
      apply lookup_replicate_2. lia.
    + rewrite lookup_app_r by (rewrite length_replicate; lia).
      rewrite lookup_app_r by (rewrite length_replicate, Hmid; lia).
      apply lookup_replicate_2. rewrite length_replicate, Hmid. lia.
  - intros Hp Hpn.
    rewrite lookup_app_r by (rewrite length_replicate; lia).
    rewrite lookup_app_l by (rewrite length_replicate, Hmid; lia).
    rewrite length_replicate.
    rewrite lookup_take_lt by lia. rewrite lookup_drop.
    replace (Z.to_nat (i - w + lp) + (Z.to_nat k - Z.to_nat lp))%nat
      with (Z.to_nat p) by lia.
    apply row_of_lookup. lia.
Qed.

(** C8.  For a row that none of the sentence bounds covers, [get_context]
    raises [IndexError], the exception that plays the part of the
    specification's out-of-range error; so does [self[i]] on an
    instance that creates its rows on demand.  [get_context] is a function
    of the object: it leaves it as it was. *)
Theorem get_context_uncovered d bounds w pa self i :
  init d bounds w pa = ok self ->
  (forall e, In e bounds -> ~ (fst e <= i <= snd e)) ->
  get_context self i = raise IndexError /\
  (pa = false -> getitem self (IxS (SInt i)) = raise IndexError).
Proof.
  intros Hinit Hcov.
  assert (Ht : tree_at (tree self) i = []).
  { assert (Etree : tree self
                    = map (fun e => mkInterval (fst e) (snd e + 1)) bounds).
    { revert Hinit. unfold init, IntervalTree.
      destruct (existsb _ _); simpl; [discriminate|].
      destruct pa; simpl.
      - destruct (generate_all _) as [e|[a|v|m]]; simpl; try discriminate.
        by intros [= <-].
      - by intros [= <-]. }
    rewrite Etree. unfold tree_at. clear Etree Hinit.
    induction bounds as [|e bs IH]; [reflexivity|]. simpl.
    rewrite IH by (intros e' He'; apply Hcov; by right).
    assert (Hn := Hcov e (or_introl eq_refl)).
    unfold iv_contains. simpl.
    destruct (Z.leb_spec (fst e) i), (Z.ltb_spec i (snd e + 1));
      simpl; try reflexivity. lia. }
  assert (Hg : get_context self i = raise IndexError)
    by (unfold get_context; rewrite Ht; reflexivity).
  split; [exact Hg|]. intros ->.
  destruct (init_lazy_inv _ _ _ _ Hinit) as (_ & _ & _ & Hpa & _).
  unfold getitem. rewrite Hpa, Hg. reflexivity.
Qed.

(** C9.  On an instance that creates its rows on demand, a tuple index
    whose length is not 2 raises [TypeError], the exception that plays
    the part of the specification's unsupported-index error. *)
Theorem getitem_tuple_not_pair self (l : list sindex) :
  process_all self <> Some true ->
  length l <> 2%nat ->
  getitem self (IxTuple l) = raise TypeError.
Proof.
  intros Hpa Hl. unfold getitem.
  destruct (process_all self) as [[|]|]; [congruence| |];
    destruct l as [|r [|c [|x l]]]; simpl in *; congruence.
Qed.

(** *** Processing all rows at once *)

Lemma np_vstack_rows (ctxs : list (list A)) (m : ndarray2 A) :
  np_vstack ctxs = ok m -> nd_rows m = ctxs.
Proof.
  unfold np_vstack. destruct ctxs as [|r rs]; [discriminate|].
  destruct (forallb _ _); [|discriminate]. by intros [= <-].
Qed.

(** What the constructor builds with [process_all]: the contexts of the
    rows [0 .. n-1], computed on the table it was given, stacked. *)
Lemma init_eager_inv d bounds w eager :
  init d bounds w true = ok eager ->
  exists t ctxs,
    let self0 :=
      mkWindowedData w d (nd_len d, (2 * w + 1) * nd_cols d) t None in
    IntervalTree (map (fun e => mkInterval (fst e) (snd e + 1)) bounds)
      = ok t /\
    rmap (get_context self0) (py_range 0 (nd_len d) 1) = ok ctxs /\
    np_vstack ctxs = ok (data eager) /\
    process_all eager = Some true /\
    shape eager = shape self0.
Proof.
  unfold init.
  destruct (IntervalTree _) as [e|t]; [discriminate|]. cbn [rbind].
  unfold generate_all, getitem. cbn [process_all rows_of shape fst].
  rewrite slice_range_full. cbn [rbind ok]. unfold stack_contexts.
  destruct (rmap _ _) as [e|ctxs] eqn:Er; [discriminate|]. cbn [rbind].
  destruct (np_vstack ctxs) as [e|m] eqn:Ev; [discriminate|]. cbn [rbind ok].
  intros [= <-]. exists t, ctxs. repeat split; assumption.
Qed.

(** [get_context] does not look at [process_all]. *)
Lemma get_context_process_all w d sh t pa pa' i :
  get_context (mkWindowedData w d sh t pa) i
  = get_context (mkWindowedData w d sh t pa') i.
Proof. reflexivity. Qed.

(** A context exists for rows of the table only. *)
Lemma get_context_in_table self i v :
  wd_len self = nd_len (data self) -> 0 <= i ->
  get_context self i = ok v -> i < nd_len (data self).
Proof.
  intros Hlen Hi. unfold get_context.
  destruct (first_of _) as [e|iv]; [discriminate|]. cbn [rbind].
  set (lp := Z.max _ 0). set (rp := Z.max 0 _).
  assert (Hrp : rp = Z.max 0 (window self
                              - Z.min (iv_end iv) (wd_len self - 1) + i))
    by reflexivity.
  assert (Hlp : 0 <= lp) by (subst lp; lia).
  clearbody lp rp.
  destruct (Z.lt_ge_cases i (nd_len (data self))) as [|Hge]; [done|].
  assert (Hix : py_index (nd_rows (data self)) i = raise IndexError).
  { unfold py_index, nd_len in *.
    destruct (Z.ltb_spec i 0); [lia|].
    destruct (Z.ltb_spec i 0); [lia|].
    destruct (Z.leb_spec (Z.of_nat (length (nd_rows (data self)))) i);
      [reflexivity|lia]. }
  destruct (np_concatenate _) as [e|base] eqn:Ec; [discriminate|].
  cbn [rbind]. rewrite Hix.
  destruct (Z.eqb_spec lp 0) as [E1|E1]; [|discriminate].
  destruct (Z.eqb_spec rp 0) as [E2|E2]; [|discriminate].
  exfalso. revert Ec. unfold py_slice2, nd_len in *.
  set (n := Z.of_nat (length (nd_rows (data self)))) in *.
  assert (Hw : window self < 0) by lia.
  assert (Ha : clamp_bound n 0 n (i - window self + lp) = n)
    by (unfold clamp_bound; destruct (Z.ltb_spec (i - window self + lp) 0);
        lia).
  assert (Hb : clamp_bound n 0 n (i + window self + 1 - rp) <= n)
    by (unfold clamp_bound;
        destruct (Z.ltb_spec (i + window self + 1 - rp) 0); lia).
  rewrite Ha, py_range_1.
  replace (Z.to_nat (_ - n)) with 0%nat by lia. discriminate.
Qed.

Lemma concat_length_uniform (c : nat) (blocks : list (list A)) :
  Forall (fun r => length r = c) blocks ->
  length (concat blocks) = (length blocks * c)%nat.
Proof.
  induction 1 as [|r rs Hr _ IH]; simpl; [reflexivity|].
  rewrite length_app, Hr, IH. lia.
Qed.

(** The windowed row of a covered row of a well-formed table has
    [(2w+1) * nd_cols] entries. *)
Lemma get_context_length self (i : Z) iv rest :
  tree_at (tree self) i = iv :: rest ->
  wd_len self = nd_len (data self) -> nd_wf (data self) ->
  0 <= window self -> 0 <= iv_begin iv -> i < wd_len self ->
  exists v, get_context self i = ok v /\
            Z.of_nat (length v) = (2 * window self + 1) * nd_cols (data self).
Proof.
  intros Ht Hlen Hwf Hw Hb Hi.
  pose proof (tree_at_head _ _ _ _ Ht) as [Hl Hr].
  assert (Hin : 0 <= i < Z.of_nat (length (nd_rows (data self))))
    by (unfold nd_len in Hlen; lia).
  pose proof (row_of_lookup _ _ Hin) as Hrow.
  eexists. split;
    [apply (get_context_eq self i iv rest (row_of (nd_rows (data self)) i) Ht);
     assumption|].
  unfold nd_wf in Hwf.
  assert (Hc : 0 <= nd_cols (data self)).
  { apply list_elem_of_lookup_2 in Hrow.
    rewrite Forall_forall in Hwf. specialize (Hwf _ Hrow). lia. }
  rewrite (concat_length_uniform (Z.to_nat (nd_cols (data self)))).
  - unfold between, left_pad_of, right_pad_of, nd_len in *.
    rewrite !length_app, !length_replicate, length_take, length_drop. nia.
  - rewrite !Forall_app. repeat split.
    + apply Forall_replicate. apply list_elem_of_lookup_2 in Hrow.
      rewrite Forall_forall in Hwf. specialize (Hwf _ Hrow). lia.
    + apply between_Forall. eapply Forall_impl; [exact Hwf|].
      simpl. intros; lia.
    + apply Forall_replicate. apply list_elem_of_lookup_2 in Hrow.
      rewrite Forall_forall in Hwf. specialize (Hwf _ Hrow). lia.
Qed.

(** With a well-formed table, a non-negative half-window and bounds that
    are ordered pairs of row numbers covering every row, the constructor
    succeeds with [process_all]. *)
Lemma init_eager_succeeds d bounds w :
  nd_wf d -> 0 < nd_len d -> 0 <= w ->
  (forall e, In e bounds -> 0 <= fst e <= snd e) ->
  (forall i, 0 <= i < nd_len d ->
     exists e, In e bounds /\ fst e <= i <= snd e) ->
  succeeds (init d bounds w true).
Proof.
  intros Hwf Hn Hw Hord Hcov. unfold init, IntervalTree.
  set (t := map (fun e => mkInterval (fst e) (snd e + 1)) bounds).
  assert (Hnull : existsb iv_is_null t = false).
  { apply not_true_is_false. intros H.
    apply existsb_exists in H as (iv & Hiv & Hnull).
    apply in_map_iff in Hiv as (e & <- & He).
    specialize (Hord e He). unfold iv_is_null in Hnull. simpl in Hnull. lia. }
  rewrite Hnull. cbn [rbind ok].
  set (self0 := mkWindowedData w d (nd_len d, (2 * w + 1) * nd_cols d) t None).
  assert (Hctx : forall i, 0 <= i < nd_len d ->
            exists v, get_context self0 i = ok v /\
                      Z.of_nat (length v) = (2 * w + 1) * nd_cols d).
  { intros i Hi. destruct (Hcov i Hi) as (e & He & Hei).
    destruct (tree_at t i) as [|iv rest] eqn:Et.
    - exfalso.
      assert (Hin : In (mkInterval (fst e) (snd e + 1)) (tree_at t i)).
      { apply filter_In. split; [apply in_map_iff; eauto|].
        unfold iv_contains. simpl. apply andb_true_iff. lia. }
      rewrite Et in Hin. destruct Hin.
    - assert (Hiv : In iv (tree_at t i)) by (rewrite Et; by left).
      apply filter_In in Hiv as [Hiv _].
      apply in_map_iff in Hiv as (e' & <- & He').
      apply (get_context_length self0 i _ rest Et); simpl;
        try reflexivity; try assumption; try lia.
      + apply (Hord e' He').
      + unfold wd_len. simpl. lia. }
  unfold generate_all, getitem. cbn [process_all self0 rows_of shape fst].
  rewrite slice_range_full. cbn [rbind ok]. unfold stack_contexts.
  destruct (rmap_all_ok (get_context self0) (py_range 0 (nd_len d) 1))
    as [ctxs Hr].
  { rewrite py_range_seqZ. apply Forall_forall. intros i Hi.
    apply elem_of_seqZ in Hi. destruct (Hctx i) as (v & Hv & _); [lia|].
    by exists v. }
  rewrite Hr. cbn [rbind ok].
  destruct (rmap_ok_lookup _ _ _ Hr) as [Hlen Hlk].
  assert (Hall : Forall (fun v => Z.of_nat (length v) = (2 * w + 1) * nd_cols d)
                        ctxs).
  { apply Forall_lookup. intros k v Hk.
    destruct (lookup_lt_is_Some_2 (py_range 0 (nd_len d) 1) k) as [i Hi].
    { rewrite <- Hlen. by eapply lookup_lt_Some. }
    destruct (Hlk k i Hi) as (v' & Hv' & Hg).
    rewrite Hk in Hv'. injection Hv' as <-.
    rewrite py_range_seqZ in Hi. apply lookup_seqZ in Hi as [-> Hi].
    destruct (Hctx (0 + Z.of_nat k)) as (v' & Hg' & Hlv); [lia|].
    rewrite Hg in Hg'. injection Hg' as <-. exact Hlv. }
  unfold np_vstack. destruct ctxs as [|r rs].
  { rewrite py_range_seqZ, length_seqZ in Hlen. simpl in Hlen.
    unfold nd_len in *. lia. }
  inversion Hall as [|? ? Hr0 Hrs]; subst.
  assert (Hfb : forallb (fun r' => Nat.eqb (length r') (length r)) rs = true).
  { apply forallb_forall. intros r' Hr'. apply Nat.eqb_eq.
    rewrite Forall_forall in Hrs. apply list_elem_of_In in Hr'.
    specialize (Hrs r' Hr'). simpl in Hrs. lia. }
  rewrite Hfb. cbn [rbind ok]. by eexists.
Qed.

(** C4, as the code has it.  Let [eager] and [lazy] be built from the
    same table, bounds and window, with and without [process_all].  For
    every row [i] of the table, [0 <= i < n], [eager[i]] and [lazy[i]]
    are the vector that [get_context(i)] returns on [lazy]; whenever
    [get_context(i)] returns a vector on [lazy] for a non-negative [i],
    [eager[i]] is that vector; [generate_all] on [eager] returns the
    stored data unchanged, which is also what [generate_all] computes on
    [lazy].  Negative indices are left out: on [eager] they count from
    the end of the array, which [get_context] does not do. *)
Theorem process_all_preserves_rows d bounds w eager lazy :
  init d bounds w true = ok eager ->
  init d bounds w false = ok lazy ->
  (forall i, 0 <= i < nd_len d ->
     exists v, get_context lazy i = ok v /\
               getitem lazy (IxS (SInt i)) = ok (VVec v) /\
               getitem eager (IxS (SInt i)) = ok (VVec v)) /\
  (forall i v, 0 <= i -> get_context lazy i = ok v ->
     getitem eager (IxS (SInt i)) = ok (VVec v)) /\
  generate_all eager = ok (VMat (data eager)) /\
  generate_all lazy = ok (VMat (data eager)).
Proof.
  intros He Hl.
  destruct (init_eager_inv _ _ _ _ He) as (t & ctxs & Ht & Hr & Hv & Hpa & Hsh).
  pose proof (np_vstack_rows _ _ Hv) as Hrows.
  assert (Elazy : lazy = mkWindowedData w d
                           (nd_len d, (2 * w + 1) * nd_cols d) t (Some false)).
  { revert Hl. unfold init. rewrite Ht. cbn [rbind ok]. by intros [= <-]. }
  destruct (rmap_ok_lookup _ _ _ Hr) as [Hlen Hlk].
  assert (Hrow : forall i, 0 <= i < nd_len d ->
            exists v, get_context lazy i = ok v /\
                      getitem eager (IxS (SInt i)) = ok (VVec v)).
  { intros i Hi.
    destruct (Hlk (Z.to_nat i) i) as (v & Hv1 & Hv2).
    { rewrite py_range_seqZ. apply lookup_seqZ. lia. }
    exists v. split.
    - rewrite Elazy. erewrite get_context_process_all. exact Hv2.
    - unfold getitem. rewrite Hpa. cbn [np_getitem]. rewrite Hrows.
      assert (Hi0 : 0 <= i) by lia.
      rewrite (py_index_ok _ _ _ Hi0 Hv1). reflexivity. }
  split; [|split; [|split]].
  - intros i Hi. destruct (Hrow i Hi) as (v & Hv1 & Hv2).
    exists v. repeat split; [exact Hv1| |exact Hv2].
    revert Hv1. rewrite Elazy. unfold getitem. cbn [process_all].
    by intros ->.
  - intros i v Hi Hg.
    assert (Hin : i < nd_len d).
    { replace d with (data lazy) by (by rewrite Elazy).
      apply (get_context_in_table lazy i v); [|exact Hi|exact Hg].
      by rewrite Elazy. }
    destruct (Hrow i (conj Hi Hin)) as (v' & Hv1 & Hv2).
    rewrite Hg in Hv1. injection Hv1 as ->. exact Hv2.
  - unfold generate_all, getitem. rewrite Hpa. cbn [np_getitem np_rows].
    rewrite py_slice_full. cbn [rbind ok]. by destruct (data eager).
  - unfold generate_all, getitem. rewrite Elazy.
    cbn [process_all rows_of shape fst]. rewrite slice_range_full.
    cbn [rbind ok]. unfold stack_contexts.
    change (get_context (mkWindowedData w d ?sh t (Some false)))
      with (get_context (mkWindowedData w d sh t None)).
    rewrite Hr. cbn [rbind ok]. rewrite Hv. reflexivity.
Qed.
End WindowedFacts.

(** *** The windowed rows of concrete tables *)

(** C1.  Ten rows in two sentences [0, 5) and [5, 10), half-window 2.
    For row 4, the last row of the first sentence, the specification pads
    twice on the right and fetches rows 2 to 4.  [get_context] measures
    the right padding from the exclusive bound 5 of the interval: it pads
    once only and fetches rows 2 to 5, so that row 5, the first row of
    the next sentence, is part of the windowed row of row 4. *)
Theorem get_context_takes_row_of_next_sentence :
  (do s <- init (table_of 10) bounds_two 2 false;
   do v <- get_context s 4;
   ok (tree_at (tree s) 4, right_pad_of s (mkInterval 0 5) 4, v))
  = ok ([mkInterval 0 5], 1, [21; 22; 31; 32; 41; 42; 51; 52; 41; 42])
  /\ get_row_spec (nd_rows (table_of 10)) 10 2 0 5 4
     = [21; 22; 31; 32; 41; 42; 41; 42; 41; 42]
  /\ (do s <- init (table_of 10) bounds_two 2 false; get_context s 4)
     <> ok (get_row_spec (nd_rows (table_of 10)) 10 2 0 5 4).
Proof.
  split; [|split]; [vm_compute; reflexivity..|].
  vm_compute. discriminate.
Qed.

(** Row 0 of a five-row sentence, half-window 2: the two blocks before the
    sentence are copies of row 0, [[1; 2]], where the data model of the
    specification has rows of zeros. *)
Lemma get_context_padding_is_not_zero :
  (do s <- init (table_of 5) bounds_one 2 false; get_context s 0)
  = ok [1; 2; 1; 2; 1; 2; 11; 12; 21; 22]
  /\ zero_filled_row_spec 0 (nd_rows (table_of 5)) 2 2 0 5 0
     = [0; 0; 0; 0; 1; 2; 11; 12; 21; 22]
  /\ (do s <- init (table_of 5) bounds_one 2 false; get_context s 0)
     <> ok (zero_filled_row_spec 0 (nd_rows (table_of 5)) 2 2 0 5 0).
Proof.
  split; [|split]; [vm_compute; reflexivity..|].
  vm_compute. discriminate.
Qed.

(** A negative index.  On the processed object [self[-1]] is numpy's
    [data[-1]], the windowed last row; on the object that is not
    processed [get_context(-1)] finds no sentence and raises
    [IndexError].  With a bound that covers negative rows both return a
    vector, but not the same: [self[-3]] is the window of row 2, rows 1,
    2, 3, and [get_context(-3)] is row 2, row 2, row 3. *)
Lemma negative_index_after_processing :
  (getitem eager_five (IxS (SInt (-1)))
   = ok (VVec [21; 22; 31; 32; 41; 42; 41; 42; 41; 42])
   /\ get_context lazy_five (-1) = raise IndexError
   /\ getitem lazy_five (IxS (SInt (-1))) = raise IndexError)
  /\
  ((do e <- init (table_of 5) [(-3, -1); (0, 4)] 1 true;
    getitem e (IxS (SInt (-3))))
   = ok (VVec [11; 12; 21; 22; 31; 32])
   /\ (do s <- init (table_of 5) [(-3, -1); (0, 4)] 1 false;
       get_context s (-3))
      = ok [21; 22; 21; 22; 31; 32]).
Proof.
  repeat split; vm_compute; reflexivity.
Qed.

Lemma init_lazy_five : init (table_of 5) bounds_one 2 false = ok lazy_five.
Proof. vm_compute. reflexivity. Qed.

Lemma init_eager_five : init (table_of 5) bounds_one 2 true = ok eager_five.
Proof. vm_compute. reflexivity. Qed.

Lemma init_lazy_dataset :
  (do w <- init (table_of 10) [(0, 9)] 1 false; ok (Windowed w))
  = ok (ds_data lazy_dataset).
Proof. vm_compute. reflexivity. Qed.

Lemma get_context_left_edge_witness :
  get_context lazy_five 1 =
    ok (concat (replicate (Z.to_nat (2 + 0 - 1))
                          (row_of (nd_rows (table_of 5)) 1)
                ++ between (nd_rows (table_of 5)) 0 (1 + 2 + 1)))
  /\ forall (r0 r1 r2 r3 r4 : list Z) (c : Z),
      (do s <- init (Ndarray2 [r0; r1; r2; r3; r4] c) [(0, 4)] 2 false;
       do v <- get_context s 0;
       ok (left_pad_of s (mkInterval 0 5) 0,
           right_pad_of s (mkInterval 0 5) 0, v))
      = ok (2, 0, r0 ++ r0 ++ r0 ++ r1 ++ r2).
Proof.
  apply (get_context_left_edge (table_of 5) bounds_one 2 lazy_five 1 0 5);
    [vm_compute; reflexivity | vm_compute; reflexivity
    | lia | lia | lia | vm_compute; reflexivity].
Defined.

Lemma get_context_pads_with_current_row_witness :
  exists blocks : list (list Z),
    get_context lazy_five 0 = ok (concat blocks) /\
    Z.of_nat (length blocks) = 2 * 2 + 1 /\
    forall k, 0 <= k <= 2 * 2 ->
      let p := 0 - 2 + k in
      (p < 0 \/ 5 < p \/ nd_len (table_of 5) <= p ->
       blocks !! Z.to_nat k = Some (row_of (nd_rows (table_of 5)) 0)) /\
      (0 <= p < 5 -> p < nd_len (table_of 5) ->
       blocks !! Z.to_nat k = Some (row_of (nd_rows (table_of 5)) p)).
Proof.
  apply (get_context_pads_with_current_row
           (table_of 5) bounds_one 2 lazy_five 0 0 5);
    [vm_compute; reflexivity | vm_compute; reflexivity
    | lia | lia | vm_compute; reflexivity].
Defined.

Lemma get_context_uncovered_witness :
  get_context lazy_five 7 = raise IndexError /\
  (false = false -> getitem lazy_five (IxS (SInt 7)) = raise IndexError).
Proof.
  apply (get_context_uncovered (table_of 5) bounds_one 2 false lazy_five 7).
  - vm_compute. reflexivity.
  - intros e [<-|[]]. simpl. lia.
Defined.

Lemma getitem_tuple_not_pair_witness :
  getitem lazy_five (IxTuple [SInt 0; SInt 1; SInt 2]) = raise TypeError.
Proof.
  apply (getitem_tuple_not_pair lazy_five [SInt 0; SInt 1; SInt 2]).
  - simpl. discriminate.
  - simpl. lia.
Defined.

Lemma process_all_preserves_rows_witness :
  (forall i, 0 <= i < nd_len (table_of 5) ->
     exists v, get_context lazy_five i = ok v /\
               getitem lazy_five (IxS (SInt i)) = ok (VVec v) /\
               getitem eager_five (IxS (SInt i)) = ok (VVec v)) /\
  (forall i v, 0 <= i -> get_context lazy_five i = ok v ->
     getitem eager_five (IxS (SInt i)) = ok (VVec v)) /\
  generate_all eager_five = ok (VMat (data eager_five)) /\
  generate_all lazy_five = ok (VMat (data eager_five)).
Proof.
  apply (process_all_preserves_rows (table_of 5) bounds_one 2).
  - vm_compute. reflexivity.
  - vm_compute. reflexivity.
Defined.

(** ** [ExampleVisiting] *)

Lemma ceil_div_bounds (n b : Z) :
  0 < b -> (ceil_div n b - 1) * b < n <= ceil_div n b * b.
Proof.
  intros Hb. unfold ceil_div.
  pose proof (Z.div_mod (- n) b ltac:(lia)) as Hdm.
  pose proof (Z.mod_pos_bound (- n) b Hb) as Hm.
  nia.
Qed.


(** *** The double quotient of [ExampleVisiting.__init__] *)

Lemma ceil_div_unique (n b c : Z) :
  0 < b -> (c - 1) * b < n <= c * b -> ceil_div n b = c.
Proof.
  intros Hb Hc. pose proof (ceil_div_bounds n b Hb). nia.
Qed.

(** The rounded quotient is within one half of the exact one. *)
Lemma round_half_even_near (p q : Z) :
  0 < q ->
  2 * p - q <= 2 * round_half_even p q * q <= 2 * p + q.
Proof.
  intros Hq. unfold round_half_even.
  pose proof (Z.div_mod p q ltac:(lia)) as Hdm.
  pose proof (Z.mod_pos_bound p q Hq) as Hm.
  destruct (Z.ltb_spec (2 * (p mod q)) q); [nia|].
  destruct (Z.ltb_spec q (2 * (p mod q))); [nia|].
  destruct (Z.even (p / q)); nia.
Qed.

Lemma quotient_log2_spec (n b : Z) :
  0 < n -> 0 < b ->
  let e := quotient_log2 n b in
  b * 2 ^ Z.max e 0 <= n * 2 ^ Z.max (- e) 0 /\
  Z.log2 n - Z.log2 b - 1 <= e <= Z.log2 n - Z.log2 b.
Proof.
  intros Hn Hb. unfold quotient_log2.
  set (ln := Z.log2 n). set (lb := Z.log2 b). set (e0 := ln - lb).
  destruct (Z.leb_spec (b * 2 ^ Z.max e0 0) (n * 2 ^ Z.max (- e0) 0))
    as [Hle|Hgt]; cbv zeta.
  { split; [exact Hle|lia]. }
  split; [|lia].
  destruct (Z.log2_spec n Hn) as [Hn1 Hn2]. fold ln in Hn1, Hn2.
  destruct (Z.log2_spec b Hb) as [Hb1 Hb2]. fold lb in Hb1, Hb2.
  pose proof (Z.log2_nonneg n) as Hln. fold ln in Hln.
  pose proof (Z.log2_nonneg b) as Hlb. fold lb in Hlb.
  destruct (Z.le_gt_cases 1 e0) as [He|He].
  - rewrite (Z.max_l (e0 - 1) 0), (Z.max_r (- (e0 - 1)) 0) by lia.
    rewrite Z.pow_0_r, Z.mul_1_r.
    assert (E : 2 ^ ln = 2 ^ Z.succ lb * 2 ^ (e0 - 1)).
    { rewrite <- Z.pow_add_r by lia. f_equal. lia. }
    assert (0 < 2 ^ (e0 - 1)) by (apply Z.pow_pos_nonneg; lia).
    nia.
  - rewrite (Z.max_r (e0 - 1) 0), (Z.max_l (- (e0 - 1)) 0) by lia.
    rewrite Z.pow_0_r, Z.mul_1_r.
    assert (E : 2 ^ Z.succ lb = 2 ^ ln * 2 ^ (- (e0 - 1))).
    { rewrite <- Z.pow_add_r by lia. f_equal. lia. }
    assert (0 < 2 ^ (- (e0 - 1))) by (apply Z.pow_pos_nonneg; lia).
    nia.
Qed.

(** Below [2^53] the ceiling of the double is the ceiling of the exact
    quotient. *)
Lemma py_true_div_ceil (n b : Z) :
  0 <= n < 2 ^ 53 -> 0 < b < 2 ^ 53 ->
  exists q, py_true_div n b = ok q /\ ceil_int q = ceil_div n b.
Proof.
  intros Hn Hb. unfold py_true_div.
  destruct (Z.eqb_spec b 0); [lia|].
  destruct (Z.eqb_spec n 0) as [->|Hn0].
  { eexists. split; [reflexivity|]. unfold ceil_int, ceil_div.
    cbn [expo mant]. change (- 0) with 0. by rewrite Zdiv_0_l. }
  rewrite (Z.abs_eq n), (Z.abs_eq b) by lia.
  rewrite (Z.sgn_pos n), (Z.sgn_pos b) by lia.
  destruct (quotient_log2_spec n b ltac:(lia) ltac:(lia)) as [He Hr].
  set (e := quotient_log2 n b) in *.
  pose proof (Z.log2_nonneg n) as Hln0.
  pose proof (Z.log2_nonneg b) as Hlb0.
  assert (Hln : Z.log2 n < 53) by (apply Z.log2_lt_pow2; lia).
  assert (Hlb : Z.log2 b < 53) by (apply Z.log2_lt_pow2; lia).
  set (K := 52 - e).
  assert (HK : 0 <= K <= 105) by lia.
  rewrite (Z.max_l (e - 52) (-1074)) by lia.
  rewrite (Z.max_l (- (e - 52)) 0), (Z.max_r (e - 52) 0) by lia.
  replace (- (e - 52)) with K by lia.
  rewrite Z.pow_0_r, !Z.mul_1_r.
  set (m := round_half_even (n * 2 ^ K) b).
  pose proof (round_half_even_near (n * 2 ^ K) b ltac:(lia)) as Hm.
  fold m in Hm.
  pose proof (ceil_div_bounds n b ltac:(lia)) as Hc.
  set (c := ceil_div n b) in *.
  assert (HP : 0 < 2 ^ K) by (apply Z.pow_pos_nonneg; lia).
  assert (Hb2 : b < 2 * 2 ^ K).
  { destruct (Z.le_gt_cases 0 e) as [He0|He0].
    - rewrite (Z.max_l e 0), (Z.max_r (- e) 0) in He by lia.
      rewrite Z.pow_0_r, Z.mul_1_r in He.
      assert (E : 2 ^ 53 = 2 ^ e * (2 * 2 ^ K)).
      { replace (2 * 2 ^ K) with (2 ^ (K + 1))
          by (rewrite Z.pow_add_r by lia; lia).
        rewrite <- Z.pow_add_r by lia. f_equal. lia. }
      assert (0 < 2 ^ e) by (apply Z.pow_pos_nonneg; lia).
      nia.
    - rewrite (Z.max_r e 0), (Z.max_l (- e) 0) in He by lia.
      rewrite Z.pow_0_r, Z.mul_1_r in He.
      assert (E : 2 * 2 ^ K = 2 ^ 53 * 2 ^ (- e)).
      { replace (2 * 2 ^ K) with (2 ^ (K + 1))
          by (rewrite Z.pow_add_r by lia; lia).
        rewrite <- Z.pow_add_r by lia. f_equal. lia. }
      assert (0 < 2 ^ (- e)) by (apply Z.pow_pos_nonneg; lia).
      nia. }
  assert (Hlo : (c - 1) * 2 ^ K < m) by nia.
  assert (Hhi : m <= c * 2 ^ K) by nia.
  assert (Hcn : c <= n) by nia.
  assert (Hsmall : m < 2 ^ 1024).
  { assert (2 ^ K <= 2 ^ 105) by (apply Z.pow_le_mono_r; lia).
    assert (E : 2 ^ 53 * 2 ^ 105 = 2 ^ 158) by (rewrite <- Z.pow_add_r; lia).
    assert (2 ^ 158 < 2 ^ 1024) by (apply Z.pow_lt_mono_r; lia).
    nia. }
  destruct (Z.leb_spec (2 ^ 1024) m); [lia|].
  eexists. split; [reflexivity|].
  unfold ceil_int. cbn [expo mant]. rewrite Z.mul_1_l.
  destruct (Z.leb_spec 0 (e - 52)).
  - assert (K = 0) by lia.
    replace (e - 52) with 0 by lia.
    replace (2 ^ K) with 1 in * by (replace K with 0 by lia; reflexivity).
    rewrite Z.pow_0_r. lia.
  - replace (- (e - 52)) with K by lia.
    apply ceil_div_unique; [exact HP|lia].
Qed.

(** Without examples the quotient is [0.0], whatever the batch size. *)
Lemma py_true_div_zero (b : Z) :
  b <> 0 -> py_true_div 0 b = ok (mkDouble 0 0).
Proof.
  intros Hb. unfold py_true_div.
  destruct (Z.eqb_spec b 0); [contradiction|reflexivity].
Qed.

(** A quotient of at most [2^-1075] is rounded to [0.0]. *)
Lemma py_true_div_underflow (n b : Z) :
  0 < n -> n * 2 ^ 1075 <= b ->
  py_true_div n b = ok (mkDouble 0 (-1074)).
Proof.
  intros Hn Hb.
  assert (HP : 0 < 2 ^ 1075) by (apply Z.pow_pos_nonneg; lia).
  assert (Hb0 : 0 < b) by nia.
  unfold py_true_div.
  destruct (Z.eqb_spec b 0); [lia|].
  destruct (Z.eqb_spec n 0); [lia|].
  rewrite (Z.abs_eq n), (Z.abs_eq b) by lia.
  rewrite (Z.sgn_pos n), (Z.sgn_pos b) by lia.
  destruct (quotient_log2_spec n b Hn Hb0) as [He _].
  set (e := quotient_log2 n b) in *.
  assert (Hlow : e <= - 1075).
  { destruct (Z.le_gt_cases 0 e) as [He0|He0].
    - rewrite (Z.max_l e 0), (Z.max_r (- e) 0) in He by lia.
      assert (0 < 2 ^ e) by (apply Z.pow_pos_nonneg; lia). nia.
    - rewrite (Z.max_r e 0), (Z.max_l (- e) 0), Z.pow_0_r in He by lia.
      destruct (Z.le_gt_cases 1075 (- e)) as [|Hlt]; [lia|].
      assert (2 ^ (- e) < 2 ^ 1075) by (apply Z.pow_lt_mono_r; lia).
      nia. }
  rewrite (Z.max_r (e - 52) (-1074)) by lia.
  change (Z.max (- -1074) 0) with 1074. change (Z.max (-1074) 0) with 0.
  rewrite Z.pow_0_r, !Z.mul_1_r.
  assert (E : 2 ^ 1075 = 2 * 2 ^ 1074)
    by (change 1075 with (1 + 1074); rewrite Z.pow_add_r by lia; lia).
  assert (HQ : 0 < 2 ^ 1074) by (apply Z.pow_pos_nonneg; lia).
  assert (Hm : round_half_even (n * 2 ^ 1074) b = 0).
  { unfold round_half_even.
    assert (Hlt : n * 2 ^ 1074 < b) by nia.
    rewrite (Z.div_small (n * 2 ^ 1074) b), (Z.mod_small (n * 2 ^ 1074) b)
      by nia.
    destruct (Z.ltb_spec (2 * (n * 2 ^ 1074)) b); [reflexivity|].
    destruct (Z.ltb_spec b (2 * (n * 2 ^ 1074))); [nia|reflexivity]. }
  rewrite Hm. rewrite Z.mul_0_r.
  destruct (Z.leb_spec (2 ^ 1024) 0) as [Hle|]; [|reflexivity].
  assert (0 < 2 ^ 1024) by (apply Z.pow_pos_nonneg; lia). lia.
Qed.

(** From [2^53 + 1] on the double is not the quotient: [(2^53 + 1) / 1]
    is rounded to [2^53]. *)
Lemma py_true_div_rounds :
  (do q <- py_true_div (2 ^ 53 + 1) 1; ok (ceil_int q)) = ok (2 ^ 53)
  /\ ceil_div (2 ^ 53 + 1) 1 = 2 ^ 53 + 1.
Proof. split; vm_compute; reflexivity. Qed.

Section VisitingFacts.
Context {A P rng : Type}.
Context (shuffle : rng -> list Z -> list Z * rng).
Implicit Types (ev self : ExampleVisiting A) (w : world A rng)
  (d : Dataset A) (o : gmap string P) (l : gmap string (list Z -> P)).

(** C10.  Called without a step, the supplier raises [TypeError] at the
    comparison [step >= self.T]: no batch is made, and the object, the
    random generator and the output are as they were. *)
Theorem supplier_without_step (x y : string) o l w :
  _training_supplier shuffle x y o l None w = (raise TypeError, w).
Proof. reflexivity. Qed.

(** What [ev_init] stores. *)
Lemma ev_init_inv d b e ev :
  ev_init d b e = ok ev ->
  b <> 0 /\ dataset ev = d /\ batch_size ev = b /\ epochs ev = e /\
  training_schedule ev = None /\
  exists q, py_true_div (num_examples d) b = ok q /\
            T ev = (if truthy e then ceil_int q * default 0 e
                    else ceil_int q).
Proof.
  unfold ev_init.
  destruct (py_true_div (num_examples d) b) as [x|q] eqn:Hq; [discriminate|].
  cbn [rbind]. intros [= <-]. split.
  { intros ->. unfold py_true_div in Hq. discriminate. }
  repeat split. by exists q.
Qed.

Lemma ev_init_T d b e ev :
  ev_init d b e = ok ev ->
  0 <= num_examples d < 2 ^ 53 -> 0 < b < 2 ^ 53 ->
  match e with Some v => 0 <= v | None => True end ->
  T ev = ceil_div (num_examples d) b * permutations_of e.
Proof.
  intros Hi Hn Hb He.
  destruct (ev_init_inv _ _ _ _ Hi) as (_ & _ & _ & _ & _ & q & Hq & ->).
  destruct (py_true_div_ceil _ _ Hn Hb) as (q' & Hq' & <-).
  rewrite Hq in Hq'. injection Hq' as <-.
  destruct e as [v|]; simpl; [|lia].
  destruct (Z.eqb_spec v 0) as [->|Hv]; simpl; [lia|].
  rewrite Z.max_l by lia. reflexivity.
Qed.

(** Beyond the bounds [T] need not be the ceiling of the exact quotient.
    A quotient of at most [2^-1075] is the double [0.0]: with a batch
    size of [n * 2^1075] or more [T] is 0, where the ceiling is 1. *)
Lemma ev_init_T_underflow d b e ev :
  0 < num_examples d -> num_examples d * 2 ^ 1075 <= b ->
  ev_init d b e = ok ev -> T ev = 0 /\ ceil_div (num_examples d) b = 1.
Proof.
  intros Hn Hb Hi.
  destruct (ev_init_inv _ _ _ _ Hi) as (_ & _ & _ & _ & _ & q & Hq & ->).
  rewrite (py_true_div_underflow _ _ Hn Hb) in Hq. injection Hq as <-.
  assert (HP : 0 < 2 ^ 1075) by (apply Z.pow_pos_nonneg; lia).
  split.
  - assert (E : ceil_int (mkDouble 0 (-1074)) = 0).
    { unfold ceil_int, ceil_div. cbn [expo mant]. change (- 0) with 0.
      by rewrite Zdiv_0_l. }
    rewrite E. by destruct (truthy e).
  - apply ceil_div_unique; nia.
Qed.

Lemma or_one_permutations (e : option Z) :
  match e with Some v => 0 <= v | None => True end ->
  or_one e = permutations_of e /\ 1 <= permutations_of e.
Proof.
  destruct e as [v|]; simpl; [|lia].
  destruct (Z.eqb_spec v 0); lia.
Qed.

Section Shuffled.
Hypothesis shuffle_perm :
  forall g xs, Permutation (fst (shuffle g xs)) xs.

Lemma shuffled_epochs_spec (k : nat) (n : Z) (g : rng) :
  length (fst (shuffled_epochs shuffle k n g)) = k /\
  Forall (fun p => Permutation p (seqZ 0 n))
         (fst (shuffled_epochs shuffle k n g)).
Proof.
  revert g. induction k as [|k IH]; intros g; simpl.
  - split; [reflexivity|constructor].
  - pose proof (shuffle_perm g (py_range 0 n 1)) as Hp.
    destruct (shuffle g (py_range 0 n 1)) as [p g1]. simpl in Hp.
    specialize (IH g1).
    destruct (shuffled_epochs shuffle k n g1) as [ps g2]. simpl in *.
    destruct IH as [Hl Hf]. split; [congruence|].
    constructor; [|exact Hf]. by rewrite <- py_range_seqZ.
Qed.

Lemma concat_perms_length (n : Z) (ps : list (list Z)) :
  0 <= n -> Forall (fun p => Permutation p (seqZ 0 n)) ps ->
  Z.of_nat (length (concat ps)) = Z.of_nat (length ps) * n.
Proof.
  intros Hn. induction 1 as [|p ps Hp _ IH]; simpl; [lia|].
  rewrite length_app, (Permutation_length Hp), length_seqZ. lia.
Qed.


(** [generate_visiting_scheme] stores the concatenation of the
    permutations drawn one after the other; the output is not touched. *)
Lemma generate_visiting_scheme_run w :
  match epochs (w_self w) with Some v => 0 <= v | None => True end ->
  let k := permutations_of (epochs (w_self w)) in
  let r := shuffled_epochs shuffle (Z.to_nat k)
             (num_examples (dataset (w_self w))) (w_rng w) in
  generate_visiting_scheme shuffle w =
  (ok tt, mkWorld (with_schedule (w_self w) (Some (concat (fst r))))
            (snd r) (w_out w)).
Proof.
  intros He k r.
  destruct (or_one_permutations _ He) as [Hk1 Hk2]. fold k in Hk1, Hk2.
  unfold generate_visiting_scheme, mbind, get_self, all_epochs_shuffled.
  unfold ok. cbn iota beta. rewrite Hk1.
  pose proof (shuffled_epochs_spec (Z.to_nat k)
                (num_examples (dataset (w_self w))) (w_rng w)) as [Hl _].
  fold r in Hl. subst r.
  destruct (shuffled_epochs _ _ _ _) as [ps g]. simpl in *.
  unfold mlift. destruct ps as [|p ps]; [simpl in Hl; lia|]. reflexivity.
Qed.

(** C5, as the code has it.  For a dataset of [n < 2^53] examples, a
    batch size [0 < b < 2^53] and [epochs] either [None] or [E >= 0],
    write [k = max(E, 1)] ([k = 1] for [None]) and [c] for the ceiling
    of [n / b]; below [2^53] the ceiling of the double [n / b] is [c].
    Then [T = c * k]; [generate_visiting_scheme] succeeds and
    stores the concatenation of [k] lists, each a permutation of
    [0 .. n-1] drawn by its own call of the shuffle, of total length
    [k * n].  For [E >= 1] these are [c * E] and [E * n]; [epochs = 0]
    is treated as [None]. *)
Theorem visiting_scheme_shape d b e ev (g : rng) (out : list string) :
  0 < b < 2 ^ 53 -> 0 <= num_examples d < 2 ^ 53 ->
  match e with Some v => 0 <= v | None => True end ->
  ev_init d b e = ok ev ->
  let n := num_examples d in
  let k := permutations_of e in
  exists (c : Z) (perms : list (list Z)) (g' : rng),
    (c - 1) * b < n <= c * b /\
    T ev = c * k /\
    generate_visiting_scheme shuffle (mkWorld ev g out)
      = (ok tt, mkWorld (with_schedule ev (Some (concat perms))) g' out) /\
    shuffled_epochs shuffle (Z.to_nat k) n g = (perms, g') /\
    Z.of_nat (length perms) = k /\
    Forall (fun p => Permutation p (seqZ 0 n)) perms /\
    Z.of_nat (length (concat perms)) = k * n.
Proof.
  intros Hb53 Hn53 He Hi n k.
  pose proof (proj1 Hb53) as Hb. pose proof (proj1 Hn53) as Hn.
  destruct (ev_init_inv _ _ _ _ Hi) as (_ & Hd & _ & Hep & _ & _).
  destruct (or_one_permutations _ He) as [_ Hk]. fold k in Hk.
  pose proof (shuffled_epochs_spec (Z.to_nat k) n g) as [Hl Hf].
  exists (ceil_div n b), (fst (shuffled_epochs shuffle (Z.to_nat k) n g)),
    (snd (shuffled_epochs shuffle (Z.to_nat k) n g)).
  split; [apply ceil_div_bounds; exact Hb|].
  split; [apply (ev_init_T _ _ _ _ Hi Hn53 Hb53 He)|].
  split.
  { rewrite generate_visiting_scheme_run; cbn [w_self w_rng w_out];
      rewrite ?Hep, ?Hd; [reflexivity|exact He]. }
  split; [by destruct (shuffled_epochs _ _ _ _)|].
  split; [lia|]. split; [exact Hf|].
  rewrite (concat_perms_length n _ Hn Hf). lia.
Qed.

(** *** The supplier *)

Lemma mbind_ok {X Y} (m : M (A:=A) (rng:=rng) X) (k : X -> M Y)
    w a w' :
  m w = (ok a, w') -> mbind m k w = k a w'.
Proof. unfold mbind. by intros ->. Qed.

Lemma batch_indices_between self (sched : list Z) (step : Z) :
  0 <= step -> 0 < batch_size self ->
  batch_indices self sched step
  = between sched (step * batch_size self)
      (Z.min ((step + 1) * batch_size self) (Z.of_nat (length sched))).
Proof.
  intros Hs Hb. unfold batch_indices, between.
  apply py_slice2_take_drop; nia.
Qed.

(** The steps of the supplier after [wrap_step], for an object that has
    a visiting scheme. *)
Lemma supplier_tail (x y : string) o l w (sched : list Z) (step : Z) :
  training_schedule (w_self w) = Some sched ->
  mbind get_self
    (fun self =>
       mbind (match training_schedule self with
              | None => generate_visiting_scheme shuffle
              | Some _ => mret tt
              end)
         (fun _ =>
            mbind get_schedule
              (fun sched =>
                 mlift (feed_dict x y o l self sched
                          (batch_indices self sched step))))) w
  = (feed_dict x y o l (w_self w) sched
       (batch_indices (w_self w) sched step), w).
Proof.
  intros Hs. unfold get_schedule. unfold mbind, get_self, mret, mlift, ok.
  cbn iota beta. rewrite Hs. cbn iota beta. rewrite ?Hs. reflexivity.
Qed.

(** C6.  With a visiting scheme [sched] in place and
    [0 <= step < T], the supplier changes nothing and feeds exactly the
    rows [sched[step*b : min((step+1)*b, len(sched))]], at most [b] of
    them.  For 10 examples, batches of 3 and 2 epochs, [T] is 8, the
    visiting scheme has 20 entries, and the first call, at step 3, feeds
    the three entries at positions 9, 10 and 11 of the scheme. *)
Theorem supplier_selects_slice (x y : string) o l w
    (sched : list Z) (step : Z) :
  training_schedule (w_self w) = Some sched ->
  0 < batch_size (w_self w) ->
  0 <= step < T (w_self w) ->
  let self := w_self w in
  let nb := between sched (step * batch_size self)
              (Z.min ((step + 1) * batch_size self)
                     (Z.of_nat (length sched))) in
  batch_indices self sched step = nb /\
  Z.of_nat (length nb) <= batch_size self /\
  _training_supplier shuffle x y o l (Some step) w
    = (feed_dict x y o l self sched nb, w) /\
  forall d (g : rng) (out : list string),
    num_examples d = 10 ->
    exists ev s g' s9 s10 s11,
      ev_init d 3 (Some 2) = ok ev /\ T ev = 8 /\
      length s = 20%nat /\
      s !! 9%nat = Some s9 /\ s !! 10%nat = Some s10 /\
      s !! 11%nat = Some s11 /\
      _training_supplier shuffle x y o l (Some 3) (mkWorld ev g out)
        = (feed_dict x y o l ev s [s9; s10; s11],
           mkWorld (with_schedule ev (Some s)) g' out).
Proof.
  intros Hs Hb Hstep self nb. subst self.
  assert (Hnb : batch_indices (w_self w) sched step = nb)
    by (apply batch_indices_between; [lia|exact Hb]).
  split; [exact Hnb|]. split.
  { subst nb. unfold between. rewrite length_take. nia. }
  split.
  - unfold _training_supplier.
    assert (Hw : wrap_step shuffle step w = (ok step, w)).
    { unfold wrap_step, mbind, get_self, ok. cbn iota beta.
      destruct (Z.leb_spec (T (w_self w)) step); [lia|reflexivity]. }
    rewrite (mbind_ok _ _ _ _ _ Hw).
    rewrite (supplier_tail x y o l w sched step Hs). by rewrite Hnb.
  - intros d g out Hd.
    destruct (ev_init d 3 (Some 2)) as [e|ev] eqn:Hi.
    { unfold ev_init in Hi. rewrite Hd in Hi. discriminate. }
    destruct (ev_init_inv _ _ _ _ Hi) as (_ & Ed & Eb & Ee & Es & q & Hq & ET).
    rewrite Hd in Hq. injection Hq as <-. change (T ev = 8) in ET.
    pose (r := shuffled_epochs shuffle 2 10 g).
    pose proof (shuffled_epochs_spec 2 10 g) as [Hl Hf]. fold r in Hl, Hf.
    assert (Hlen : length (concat (fst r)) = 20%nat).
    { pose proof (concat_perms_length 10 _ ltac:(lia) Hf). lia. }
    set (s := concat (fst r)) in *.
    destruct (lookup_lt_is_Some_2 s 9) as [s9 H9]; [lia|].
    destruct (lookup_lt_is_Some_2 s 10) as [s10 H10]; [lia|].
    destruct (lookup_lt_is_Some_2 s 11) as [s11 H11]; [lia|].
    exists ev, s, (snd r), s9, s10, s11.
    split; [reflexivity|]. split; [exact ET|]. split; [exact Hlen|].
    do 3 (split; [assumption|]).
    unfold _training_supplier.
    assert (Hw : wrap_step shuffle 3 (mkWorld ev g out)
                 = (ok 3, mkWorld ev g out)).
    { unfold wrap_step, mbind, get_self, ok. cbn iota beta.
      cbn [w_self]. rewrite ET. reflexivity. }
    rewrite (mbind_ok _ _ _ _ _ Hw).
    assert (Hg : generate_visiting_scheme shuffle (mkWorld ev g out)
                 = (ok tt, mkWorld (with_schedule ev (Some s))
                             (snd r) out)).
    { rewrite generate_visiting_scheme_run;
        cbn [w_self w_rng w_out]; rewrite ?Ee, ?Ed, ?Hd; [|simpl; lia].
      reflexivity. }
    unfold mbind at 1. unfold get_self at 1. unfold ok at 1.
    cbn iota beta. cbn [w_self]. rewrite Es.
    rewrite (mbind_ok _ _ _ _ _ Hg).
    unfold get_schedule. unfold mbind, get_self, mret, mlift, ok.
    cbn iota beta. cbn [w_self with_schedule training_schedule].
    f_equal. f_equal.
    rewrite batch_indices_between by lia. rewrite Eb, Hlen.
    unfold between.
    change (Z.to_nat (Z.min ((3 + 1) * 3) (Z.of_nat 20) - 3 * 3))
      with 3%nat.
    change (Z.to_nat (3 * 3)) with 9%nat.
    rewrite (drop_S _ _ _ H9), (drop_S _ _ _ H10), (drop_S _ _ _ H11).
    reflexivity.
Qed.

(** *** Feeding rows of an array in memory *)

Lemma py_take_ok {B} (xs : list B) (nb : list Z) :
  Forall (fun i => 0 <= i < Z.of_nat (length xs)) nb ->
  succeeds (py_take xs nb).
Proof.
  intros H. apply rmap_all_ok. eapply Forall_impl; [exact H|].
  intros i Hi. simpl in Hi.
  destruct (lookup_lt_is_Some_2 xs (Z.to_nat i)) as [x Hx]; [lia|].
  exists x. apply py_index_ok; [lia|exact Hx].
Qed.

Lemma take_rows_ok (m : ndarray2 A) (nb : list Z) :
  Forall (fun i => 0 <= i < nd_len m) nb ->
  succeeds (take_rows m false nb).
Proof.
  intros H. unfold take_rows, np_getitem, np_getitem2, np_rows.
  destruct (py_take_ok (nd_rows m) nb H) as [rows ->]. cbn [rbind ok].
  unfold np_columns, np_positions. rewrite slice_range_full.
  cbn [rbind ok]. by eexists.
Qed.



(** *** Steps beyond [T] *)


End Shuffled.
End VisitingFacts.

(** *** Concrete runs of the supplier *)

Lemma rev_shuffle_perm (g : unit) (xs : list Z) :
  Permutation (fst (rev_shuffle g xs)) xs.
Proof. simpl. symmetry. apply Permutation_rev. Qed.

(** With [epochs = 0], ten examples and batches of 3: [T] is 4, not
    [4 * 0], and the visiting scheme has the 10 entries of one
    permutation, not [0 * 10] entries. *)
Lemma zero_epochs_count_as_none :
  ev_init (plain_dataset 10) 3 (Some 0)
    = ok (visiting (plain_dataset 10) 3 (Some 0))
  /\ T (visiting (plain_dataset 10) 3 (Some 0)) = 4
  /\ T (visiting (plain_dataset 10) 3 (Some 0)) <> ceil_div 10 3 * 0
  /\ (let (r, w') := generate_visiting_scheme rev_shuffle
                       (first_world (visiting (plain_dataset 10) 3 (Some 0)) tt)
      in (r, training_schedule (w_self w')))
     = (ok tt, Some [9; 8; 7; 6; 5; 4; 3; 2; 1; 0])
  /\ Z.of_nat (length [9; 8; 7; 6; 5; 4; 3; 2; 1; 0]) <> 0 * 10.
Proof.
  repeat split; try (vm_compute; reflexivity); vm_compute; discriminate.
Qed.


Lemma visiting_scheme_shape_witness :
  exists (c : Z) (perms : list (list Z)) (g' : unit),
    (c - 1) * 3 < num_examples (plain_dataset 10) <= c * 3 /\
    T (visiting (plain_dataset 10) 3 (Some 2)) = c * permutations_of (Some 2) /\
    generate_visiting_scheme rev_shuffle
      (mkWorld (visiting (plain_dataset 10) 3 (Some 2)) tt [])
      = (ok tt, mkWorld (with_schedule (visiting (plain_dataset 10) 3 (Some 2))
                           (Some (concat perms))) g' []) /\
    shuffled_epochs rev_shuffle (Z.to_nat (permutations_of (Some 2)))
      (num_examples (plain_dataset 10)) tt = (perms, g') /\
    Z.of_nat (length perms) = permutations_of (Some 2) /\
    Forall (fun p => Permutation p (seqZ 0 (num_examples (plain_dataset 10))))
           perms /\
    Z.of_nat (length (concat perms))
      = permutations_of (Some 2) * num_examples (plain_dataset 10).
Proof.
  apply (visiting_scheme_shape rev_shuffle rev_shuffle_perm
           (plain_dataset 10) 3 (Some 2)
           (visiting (plain_dataset 10) 3 (Some 2)) tt []).
  - lia.
  - vm_compute. split; [discriminate|reflexivity].
  - simpl. lia.
  - vm_compute. reflexivity.
Defined.

Lemma supplier_selects_slice_witness :
  let self := w_self world_20 in
  let nb := between scheme_20 (3 * batch_size self)
              (Z.min ((3 + 1) * batch_size self)
                     (Z.of_nat (length scheme_20))) in
  batch_indices self scheme_20 3 = nb /\
  Z.of_nat (length nb) <= batch_size self /\
  _training_supplier (P:=unit) rev_shuffle "x" "y" ∅ ∅ (Some 3) world_20
    = (feed_dict "x" "y" ∅ ∅ self scheme_20 nb, world_20) /\
  forall (d : Dataset Z) (g : unit) (out : list string),
    num_examples d = 10 ->
    exists ev s g' s9 s10 s11,
      ev_init d 3 (Some 2) = ok ev /\ T ev = 8 /\
      length s = 20%nat /\
      s !! 9%nat = Some s9 /\ s !! 10%nat = Some s10 /\
      s !! 11%nat = Some s11 /\
      _training_supplier (P:=unit) rev_shuffle "x" "y" ∅ ∅ (Some 3)
        (mkWorld ev g out)
        = (feed_dict "x" "y" ∅ ∅ ev s [s9; s10; s11],
           mkWorld (with_schedule ev (Some s)) g' out).
Proof.
  apply (supplier_selects_slice rev_shuffle rev_shuffle_perm
           "x" "y" ∅ ∅ world_20 scheme_20 3).
  - vm_compute. reflexivity.
  - vm_compute. reflexivity.
  - vm_compute. split; [discriminate|reflexivity].
Defined.


(** * Further facts *)

(** ** Slices *)

Lemma py_range_bounds (start stop step : Z) (i : Z) :
  step <> 0 -> In i (py_range start stop step) ->
  if 0 <? step then start <= i < stop else stop < i <= start.
Proof.
  intros Hs Hin. unfold py_range in Hin.
  apply in_map_iff in Hin as (k & <- & Hk). apply in_seq in Hk.
  destruct (Z.ltb_spec 0 step) as [Hp|Hn].
  - destruct (Z.gtb_spec step 0) as [_|]; [|lia].
    set (q := (stop - start + step - 1) / step) in *.
    assert (Hq : Z.of_nat k < q) by lia.
    pose proof (Z.div_mod (stop - start + step - 1) step ltac:(lia)) as Hdm.
    pose proof (Z.mod_pos_bound (stop - start + step - 1) step Hp) as Hm.
    fold q in Hdm. nia.
  - destruct (Z.gtb_spec step 0) as [|_]; [lia|].
    set (q := (start - stop - step - 1) / (- step)) in *.
    assert (Hq : Z.of_nat k < q) by lia.
    pose proof (Z.div_mod (start - stop - step - 1) (- step) ltac:(lia)) as Hdm.
    pose proof (Z.mod_pos_bound (start - stop - step - 1) (- step)
                  ltac:(lia)) as Hm.
    fold q in Hdm. nia.
Qed.

(** The positions of a slice are positions of the sequence. *)
Lemma slice_range_in_bounds (s : pyslice) (len : Z) (ixs : list Z) :
  0 <= len -> slice_range s len = ok ixs ->
  Forall (fun i => 0 <= i < len) ixs.
Proof.
  intros Hlen. unfold slice_range, slice_indices.
  destruct (Z.eqb_spec (default 1 (sl_step s)) 0) as [|Hs]; [discriminate|].
  cbn [rbind ok]. intros [= <-]. apply Forall_forall. intros i Hi.
  apply list_elem_of_In in Hi.
  pose proof (py_range_bounds _ _ _ i Hs Hi) as Hb.
  set (step := default 1 (sl_step s)) in *.
  unfold clamp_bound in Hb.
  destruct (Z.ltb_spec 0 step), (Z.ltb_spec step 0); try lia;
    destruct (sl_start s) as [a|], (sl_stop s) as [b|];
    repeat match type of Hb with
           | context [?x <? 0] => destruct (Z.ltb_spec x 0)
           end; lia.
Qed.

Lemma py_take_lookup {B} (xs : list B) (ixs : list Z) :
  Forall (fun i => 0 <= i < Z.of_nat (length xs)) ixs ->
  py_take xs ixs = ok (omap (fun i => xs !! Z.to_nat i) ixs).
Proof.
  induction 1 as [|i ixs Hi _ IH]; [reflexivity|].
  unfold py_take in *. cbn [rmap].
  destruct (lookup_lt_is_Some_2 xs (Z.to_nat i)) as [x Hx]; [lia|].
  rewrite (py_index_ok _ _ _ (proj1 Hi) Hx), IH. cbn [rbind ok].
  change (omap ?f (?y :: ?ys)) with
    (match f y with Some z => z :: omap f ys | None => omap f ys end).
  cbv beta. by rewrite Hx.
Qed.

Lemma rmap_ext_Forall {X Y} (f g : X -> res Y) (xs : list X) :
  Forall (fun x => f x = g x) xs -> rmap f xs = rmap g xs.
Proof.
  induction 1 as [|x xs Hx _ IH]; [reflexivity|].
  cbn [rmap]. by rewrite Hx, IH.
Qed.

Lemma rmap_length {X Y} (f : X -> res Y) (xs : list X) (ys : list Y) :
  rmap f xs = ok ys -> length ys = length xs.
Proof. intros H. by destruct (rmap_ok_lookup _ _ _ H). Qed.

(** ** More on [WindowedData] *)

Section WindowedMore.
Context {A : Type}.
Implicit Types (self eager lazy : WindowedData A) (d : ndarray2 A).

Lemma np_vstack_inv (ctxs : list (list A)) (m : ndarray2 A) :
  np_vstack ctxs = ok m ->
  nd_rows m = ctxs /\ ctxs <> [] /\ nd_wf m.
Proof.
  unfold np_vstack. destruct ctxs as [|r rs]; [discriminate|].
  destruct (forallb _ rs) eqn:Hf; [|discriminate]. intros [= <-].
  split; [reflexivity|]. split; [discriminate|].
  unfold nd_wf. simpl. constructor; [reflexivity|].
  apply Forall_forall. intros r' Hr'. apply list_elem_of_In in Hr'.
  rewrite forallb_forall in Hf. specialize (Hf r' Hr').
  apply Nat.eqb_eq in Hf. lia.
Qed.

Lemma np_vstack_wf (rows : list (list A)) (c : Z) :
  rows <> [] -> Forall (fun r => Z.of_nat (length r) = c) rows ->
  np_vstack rows = ok (Ndarray2 rows c).
Proof.
  intros Hne Hf. unfold np_vstack. destruct rows as [|r rs]; [done|].
  inversion Hf as [|? ? Hr Hrs]; subst.
  assert (Hfb : forallb (fun r' => Nat.eqb (length r') (length r)) rs = true).
  { apply forallb_forall. intros r' Hr'. apply Nat.eqb_eq.
    rewrite Forall_forall in Hrs. apply list_elem_of_In in Hr'.
    specialize (Hrs r' Hr'). simpl in Hrs. lia. }
  by rewrite Hfb.
Qed.

(** The rows stored by the constructor with [process_all] are the contexts
    that the instance without it computes. *)
Lemma eager_rows d bounds w eager lazy :
  init d bounds w true = ok eager ->
  init d bounds w false = ok lazy ->
  nd_len (data eager) = nd_len d /\ nd_wf (data eager) /\
  shape eager = shape lazy /\ process_all eager = Some true /\
  forall i, 0 <= i < nd_len d ->
    get_context lazy i = py_index (nd_rows (data eager)) i /\
    succeeds (get_context lazy i).
Proof.
  intros He Hl.
  destruct (init_eager_inv _ _ _ _ He) as (t & ctxs & Ht & Hr & Hv & Hpa & Hsh).
  destruct (np_vstack_inv _ _ Hv) as (Hrows & _ & Hwf).
  assert (Elazy : lazy = mkWindowedData w d
                           (nd_len d, (2 * w + 1) * nd_cols d) t (Some false)).
  { revert Hl. unfold init. rewrite Ht. cbn [rbind ok]. by intros [= <-]. }
  destruct (rmap_ok_lookup _ _ _ Hr) as [Hlen Hlk].
  rewrite py_range_seqZ, length_seqZ in Hlen.
  split; [unfold nd_len in *; rewrite Hrows; lia|].
  split; [exact Hwf|]. split; [by rewrite Hsh, Elazy|]. split; [exact Hpa|].
  intros i Hi.
  destruct (Hlk (Z.to_nat i) i) as (v & Hv1 & Hv2).
  { rewrite py_range_seqZ. apply lookup_seqZ. lia. }
  rewrite Hrows. assert (Hi0 : 0 <= i) by lia.
  rewrite (py_index_ok _ _ _ Hi0 Hv1), Elazy.
  erewrite get_context_process_all. rewrite Hv2.
  split; [reflexivity|by exists v].
Qed.

(** Stacking contexts of rows of the table on the lazy instance gives the
    rows that the eager instance stores. *)
Lemma stack_contexts_eager d bounds w eager lazy (nb : list Z) :
  init d bounds w true = ok eager ->
  init d bounds w false = ok lazy ->
  nb <> [] -> Forall (fun i => 0 <= i < nd_len d) nb ->
  exists sel,
    py_take (nd_rows (data eager)) nb = ok sel /\
    sel = omap (fun i => nd_rows (data eager) !! Z.to_nat i) nb /\
    stack_contexts lazy nb = ok (Ndarray2 sel (nd_cols (data eager))).
Proof.
  intros He Hl Hne Hnb.
  destruct (eager_rows _ _ _ _ _ He Hl) as (Hn & Hwf & _ & _ & Hrow).
  assert (Hin : Forall (fun i => 0 <= i
                                < Z.of_nat (length (nd_rows (data eager)))) nb).
  { eapply Forall_impl; [exact Hnb|].
    intros i Hi. unfold nd_len in *. simpl in *. lia. }
  eexists. split; [apply py_take_lookup; exact Hin|]. split; [reflexivity|].
  unfold stack_contexts.
  rewrite (rmap_ext_Forall (get_context lazy)
             (py_index (nd_rows (data eager))) nb).
  2:{ eapply Forall_impl; [exact Hnb|]. intros i Hi. apply (Hrow i Hi). }
  fold (py_take (nd_rows (data eager)) nb).
  rewrite (py_take_lookup _ _ Hin). cbn [rbind ok].
  apply np_vstack_wf.
  - destruct nb as [|i nb]; [done|].
    inversion Hin as [|? ? Hi _]; subst.
    destruct (lookup_lt_is_Some_2 (nd_rows (data eager)) (Z.to_nat i))
      as [x Hx]; [lia|].
    change (omap ?f (?y :: ?ys)) with
      (match f y with Some z => z :: omap f ys | None => omap f ys end).
    cbv beta. by rewrite Hx.
  - apply Forall_forall. intros r Hr.
    apply list_elem_of_omap in Hr as (i & _ & Hi).
    apply list_elem_of_lookup_2 in Hi.
    unfold nd_wf in Hwf. rewrite Forall_forall in Hwf. by apply Hwf.
Qed.

(** The rows selected by a slice or by a list of row numbers: the lazy
    instance stacks what the eager instance reads. *)
Lemma rows_agree d bounds w eager lazy (rows : sindex) :
  init d bounds w true = ok eager ->
  init d bounds w false = ok lazy ->
  selects_rows (nd_len d) rows ->
  (do rs <- rows_of lazy rows; stack_contexts lazy rs)
  = (do sel <- np_rows (data eager) rows;
     ok (Ndarray2 sel (nd_cols (data eager)))).
Proof.
  intros He Hl Hsel.
  destruct (eager_rows _ _ _ _ _ He Hl) as (Hn & _ & Hsh & _ & _).
  destruct (init_lazy_inv _ _ _ _ Hl) as (_ & _ & Hlen & _ & _).
  unfold wd_len in Hlen.
  destruct rows as [i|s|nb]; [destruct Hsel| |].
  - unfold rows_of, np_rows, py_slice. rewrite Hlen.
    replace (Z.of_nat (length (nd_rows (data eager)))) with (nd_len d)
      by (unfold nd_len in *; lia).
    destruct Hsel as (ixs & Hs & Hne). rewrite Hs. cbn [rbind ok].
    pose proof (slice_range_in_bounds s (nd_len d) ixs
                  ltac:(unfold nd_len; lia) Hs) as Hin.
    destruct (stack_contexts_eager _ _ _ _ _ ixs He Hl Hne Hin)
      as (sel & _ & -> & ->). reflexivity.
  - destruct Hsel as [Hne Hin]. unfold rows_of, np_rows. cbn [rbind ok].
    destruct (stack_contexts_eager _ _ _ _ _ nb He Hl Hne Hin)
      as (sel & -> & _ & ->). reflexivity.
Qed.

(** X1.  A row [i] whose whole window [i-w .. i+w] lies inside its
    sentence and inside the table gets no padding: its windowed row is
    the [2w+1] physical rows [i-w .. i+w], flattened. *)
Theorem get_context_interior d bounds w self i start end_ :
  init d bounds w false = ok self ->
  tree_at (tree self) i = [mkInterval start end_] ->
  0 <= w -> 0 <= start -> start + w <= i -> i + w < end_ ->
  i + w < nd_len d ->
  get_context self i = ok (concat (between (nd_rows d) (i - w) (i + w + 1)))
  /\ Z.of_nat (length (between (nd_rows d) (i - w) (i + w + 1))) = 2 * w + 1.
Proof.
  intros Hinit Ht Hw Hs Hl Hr Hn.
  destruct (init_lazy_inv _ _ _ _ Hinit) as (Ew & Ed & El & _ & _).
  assert (Hrow := row_of_lookup (nd_rows d) i
                    ltac:(unfold nd_len in Hn; lia)).
  split.
  - rewrite (get_context_eq self i _ _ (row_of (nd_rows d) i) Ht);
      rewrite ?Ed, ?Ew, ?El; try (simpl; lia); [|exact Hrow].
    unfold left_pad_of, right_pad_of. rewrite Ew, El. simpl.
    rewrite (Z.max_r _ 0) by lia. rewrite (Z.max_l 0) by lia.
    simpl. rewrite app_nil_r. do 3 f_equal; lia.
  - unfold between, nd_len in *. rewrite length_take, length_drop. lia.
Qed.

(** X2.  On a well-formed table with [d] columns, take a row [i] of the
    table that at least one sentence covers, every sentence that covers
    it starting at a row [>= 0].  Whichever of these sentences
    [list(self.tree[item])[0]] yields, that is for every order [t] of the
    intervals of the tree, the windowed row of [i] has exactly
    [(2w+1) * d] entries, the width that [self.shape] announces. *)
Theorem get_context_width d bounds w self i (t : list Interval) :
  init d bounds w false = ok self ->
  nd_wf d -> 0 <= w ->
  Permutation (tree self) t ->
  tree_at (tree self) i <> [] ->
  Forall (fun iv => 0 <= iv_begin iv) (tree_at (tree self) i) ->
  i < nd_len d ->
  exists v, get_context (with_tree self t) i = ok v /\
            Z.of_nat (length v) = snd (shape self) /\
            snd (shape self) = (2 * w + 1) * nd_cols d.
Proof.
  intros Hinit Hwf Hw Hp Hne Hb Hi.
  destruct (init_lazy_inv _ _ _ _ Hinit) as (Ew & Ed & El & _ & _).
  assert (Hsh : snd (shape self) = (2 * w + 1) * nd_cols d).
  { revert Hinit. unfold init. destruct (IntervalTree _); [discriminate|].
    cbn [rbind ok]. by intros [= <-]. }
  set (self' := with_tree self t).
  assert (Hl : wd_len self' = nd_len (data self')) by (by cbn; rewrite Ed).
  assert (Hwf' : nd_wf (data self')) by (by cbn; rewrite Ed).
  assert (Hw' : 0 <= window self') by (by cbn; rewrite Ew).
  assert (Hi' : i < wd_len self') by (by unfold wd_len in *; cbn; rewrite El).
  assert (Hsub : forall iv,
            In iv (tree_at t i) -> In iv (tree_at (tree self) i)).
  { intros iv Hin. unfold tree_at in *. apply filter_In in Hin as [Hin Hc].
    apply filter_In. split; [|exact Hc].
    by apply (Permutation_in _ (Permutation_sym Hp)). }
  destruct (tree_at t i) as [|iv rest] eqn:Ht.
  { destruct (tree_at (tree self) i) as [|iv0 rest0] eqn:Ht0; [done|].
    assert (Hin : In iv0 (tree_at t i)).
    { assert (Hin0 : In iv0 (tree_at (tree self) i))
        by (rewrite Ht0; by left).
      unfold tree_at in *. apply filter_In in Hin0 as [Hin0 Hc].
      apply filter_In. split; [|exact Hc].
      by apply (Permutation_in _ Hp). }
    rewrite Ht in Hin. destruct Hin. }
  assert (Hiv : 0 <= iv_begin iv).
  { rewrite List.Forall_forall in Hb. apply Hb, Hsub. by left. }
  destruct (get_context_length self' i iv rest Ht Hl Hwf' Hw' Hiv Hi')
    as (v & Hv & Hlen).
  exists v. rewrite Hsh. subst self'. cbn in Hlen. rewrite Ew, Ed in Hlen.
  by repeat split.
Qed.

(** X3.  On a well-formed table with at least one row, a non-negative
    half-window and bounds that cover the rows, the constructor with
    [process_all] succeeds, and the data it stores is a well-formed array
    with the dimensions of [self.shape]: one row per row of the table,
    [(2w+1) * d] columns. *)
Theorem init_eager_shape d bounds w :
  nd_wf d -> 0 < nd_len d -> 0 <= w ->
  bounds_cover bounds (nd_len d) ->
  exists eager,
    init d bounds w true = ok eager /\
    shape eager = (nd_len d, (2 * w + 1) * nd_cols d) /\
    nd_len (data eager) = fst (shape eager) /\
    nd_cols (data eager) = snd (shape eager) /\
    nd_wf (data eager).
Proof.
  intros Hwf Hn Hw [Hord Hcov].
  destruct (init_eager_succeeds d bounds w Hwf Hn Hw Hord Hcov) as [eager He].
  exists eager. split; [exact He|].
  destruct (init_eager_inv _ _ _ _ He) as (t & ctxs & Ht & Hr & Hv & Hpa & Hsh).
  destruct (np_vstack_inv _ _ Hv) as (Hrows & Hne & Hwf').
  pose proof (rmap_length _ _ _ Hr) as Hlen.
  rewrite py_range_seqZ, length_seqZ in Hlen.
  rewrite Hsh. cbn [shape fst snd].
  split; [reflexivity|]. split; [unfold nd_len in *; rewrite Hrows; lia|].
  split; [|exact Hwf'].
  (* the width is the width of the first context *)
  destruct (rmap_ok_lookup _ _ _ Hr) as [_ Hlk].
  destruct (Hlk 0%nat 0) as (v & Hv1 & Hv2).
  { rewrite py_range_seqZ. apply lookup_seqZ. lia. }
  assert (Hc : Z.of_nat (length v) = nd_cols (data eager)).
  { unfold nd_wf in Hwf'. rewrite Forall_forall in Hwf'. apply Hwf'.
    rewrite Hrows. by eapply list_elem_of_lookup_2. }
  rewrite <- Hc.
  destruct (Hcov 0 ltac:(lia)) as (e & He0 & Hcov0).
  set (self0 := mkWindowedData w d (nd_len d, (2 * w + 1) * nd_cols d) t None)
    in *.
  assert (Et : tree self0
               = map (fun e => mkInterval (fst e) (snd e + 1)) bounds).
  { revert Ht. unfold IntervalTree. destruct (existsb _ _); [discriminate|].
    by intros [= <-]. }
  destruct (tree_at (tree self0) 0) as [|iv rest] eqn:Eat.
  { exfalso.
    assert (Hin : In (mkInterval (fst e) (snd e + 1)) (tree_at (tree self0) 0)).
    { apply filter_In. split; [rewrite Et; apply in_map_iff; eauto|].
      unfold iv_contains. simpl. apply andb_true_iff. lia. }
    rewrite Eat in Hin. destruct Hin. }
  assert (Hiv : In iv (tree_at (tree self0) 0)) by (rewrite Eat; by left).
  apply filter_In in Hiv as [Hiv _]. rewrite Et in Hiv.
  apply in_map_iff in Hiv as (e' & <- & He').
  assert (Hb0 : 0 <= iv_begin (mkInterval (fst e') (snd e' + 1)))
    by apply (Hord e' He').
  destruct (get_context_length self0 0 _ rest Eat eq_refl Hwf Hw Hb0 Hn)
    as (v' & Hg & Hlv).
  rewrite Hv2 in Hg. injection Hg as <-. exact Hlv.
Qed.

Lemma rbind_assoc {X Y Z'} (m : res X) (f : X -> res Y) (g : Y -> res Z') :
  (do y <- (do x <- m; f x); g y) = (do x <- m; do y <- f x; g y).
Proof. by destruct m. Qed.

(** The same for [self[rows, columns]] with an integer or a slice for the
    columns. *)
Lemma getitem_rows_columns_agree d bounds w eager lazy (rows columns : sindex) :
  init d bounds w true = ok eager ->
  init d bounds w false = ok lazy ->
  selects_rows (nd_len d) rows -> plain_columns columns ->
  getitem lazy (IxTuple [rows; columns])
  = getitem eager (IxTuple [rows; columns]).
Proof.
  intros He Hl Hsel Hc.
  pose proof (rows_agree _ _ _ _ _ rows He Hl Hsel) as Hag.
  destruct (eager_rows _ _ _ _ _ He Hl) as (_ & _ & _ & Hpa & _).
  destruct (init_lazy_inv _ _ _ _ Hl) as (_ & _ & _ & Hpl & _).
  unfold getitem. rewrite Hpa, Hpl.
  cbn [np_getitem]. unfold np_getitem2.
  destruct rows as [i|s|nb]; [destruct Hsel| |];
    destruct columns as [c|sc|cs]; try destruct Hc;
    rewrite <- rbind_assoc, Hag, rbind_assoc; reflexivity.
Qed.

(** X4.  Let [eager] and [lazy] be built from the same arguments, with and
    without [process_all].  For a row index that selects at least one row
    of the table (a slice with a non-empty range, or a non-empty list of
    row numbers), [lazy[rows]] returns what [eager[rows]] returns, and so
    do [lazy[rows, columns]] and [eager[rows, columns]] when [columns] is
    an integer or a slice. *)
Theorem lazy_rows_as_eager d bounds w eager lazy (rows : sindex) :
  init d bounds w true = ok eager ->
  init d bounds w false = ok lazy ->
  selects_rows (nd_len d) rows ->
  succeeds (getitem lazy (IxS rows)) /\
  getitem lazy (IxS rows) = getitem eager (IxS rows) /\
  forall columns, plain_columns columns ->
    getitem lazy (IxTuple [rows; columns])
    = getitem eager (IxTuple [rows; columns]).
Proof.
  intros He Hl Hsel.
  pose proof (rows_agree _ _ _ _ _ rows He Hl Hsel) as Hag.
  destruct (eager_rows _ _ _ _ _ He Hl) as (_ & _ & _ & Hpa & _).
  destruct (init_lazy_inv _ _ _ _ Hl) as (_ & _ & _ & Hpl & _).
  assert (Hok : succeeds (do rs <- rows_of lazy rows; stack_contexts lazy rs)).
  { destruct rows as [i|s|nb]; [destruct Hsel| |].
    - destruct Hsel as (ixs & Hs & Hne).
      destruct (init_lazy_inv _ _ _ _ Hl) as (_ & _ & Hlen & _ & _).
      unfold wd_len in Hlen. unfold rows_of. rewrite Hlen, Hs. cbn [rbind ok].
      pose proof (slice_range_in_bounds s (nd_len d) ixs
                    ltac:(unfold nd_len; lia) Hs) as Hin.
      destruct (stack_contexts_eager _ _ _ _ _ ixs He Hl Hne Hin)
        as (sel & _ & _ & ->). by eexists.
    - destruct Hsel as [Hne Hin]. unfold rows_of. cbn [rbind ok].
      destruct (stack_contexts_eager _ _ _ _ _ nb He Hl Hne Hin)
        as (sel & _ & _ & ->). by eexists. }
  assert (Hitem : getitem lazy (IxS rows) = getitem eager (IxS rows)).
  { unfold getitem. rewrite Hpa, Hpl.
    destruct rows as [i|s|nb]; [destruct Hsel| |];
      rewrite <- rbind_assoc, Hag, rbind_assoc; reflexivity. }
  split; [|split; [exact Hitem|]].
  - unfold getitem. rewrite Hpl.
    destruct Hok as [m Hm].
    destruct rows as [i|s|nb]; [destruct Hsel| |];
      rewrite <- rbind_assoc, Hm; by eexists.
  - intros columns Hc. by eapply getitem_rows_columns_agree.
Qed.

(** X5.  A row index that selects no row at all, an empty slice such as
    [self[3:3]] or the empty list, raises [ValueError] on the lazy
    instance, which has nothing to stack, and gives an array without
    rows on the eager one. *)
Theorem lazy_empty_selection d bounds w eager lazy :
  init d bounds w true = ok eager ->
  init d bounds w false = ok lazy ->
  (forall s, slice_range s (nd_len d) = ok [] ->
     getitem lazy (IxS (SSlice s)) = raise ValueError /\
     getitem eager (IxS (SSlice s))
     = ok (VMat (Ndarray2 [] (nd_cols (data eager))))) /\
  getitem lazy (IxS (SSeq [])) = raise ValueError /\
  getitem eager (IxS (SSeq []))
  = ok (VMat (Ndarray2 [] (nd_cols (data eager)))).
Proof.
  intros He Hl.
  destruct (eager_rows _ _ _ _ _ He Hl) as (Hn & _ & _ & Hpa & _).
  destruct (init_lazy_inv _ _ _ _ Hl) as (_ & _ & Hlen & Hpl & _).
  unfold wd_len in Hlen.
  split; [|split].
  - intros s Hs. unfold getitem. rewrite Hpa, Hpl. split.
    + unfold rows_of. rewrite Hlen, Hs. reflexivity.
    + cbn [np_getitem np_rows]. unfold py_slice.
      replace (Z.of_nat (length (nd_rows (data eager)))) with (nd_len d)
        by (unfold nd_len in *; lia).
      rewrite Hs. reflexivity.
  - unfold getitem. by rewrite Hpl.
  - unfold getitem. by rewrite Hpa.
Qed.

(** X6.  For a row [r] of the table and any column [c], [lazy[r, c]] is
    [eager[r, c]]: the same entry, or [IndexError] on both when [c] is not
    a column of the windowed row. *)
Theorem lazy_entry_as_eager d bounds w eager lazy (r c : Z) :
  init d bounds w true = ok eager ->
  init d bounds w false = ok lazy ->
  0 <= r < nd_len d ->
  getitem lazy (IxTuple [SInt r; SInt c])
  = getitem eager (IxTuple [SInt r; SInt c]).
Proof.
  intros He Hl Hr.
  destruct (eager_rows _ _ _ _ _ He Hl) as (Hn & Hwf & _ & Hpa & Hrow).
  destruct (init_lazy_inv _ _ _ _ Hl) as (_ & _ & _ & Hpl & _).
  destruct (Hrow r Hr) as [Hg [v Hv]].
  unfold getitem. rewrite Hpa, Hpl. cbn [np_getitem]. unfold np_getitem2.
  rewrite <- Hg, Hv. cbn [rbind ok].
  assert (Hc : Z.of_nat (length v) = nd_cols (data eager)).
  { rewrite Hv in Hg. symmetry in Hg.
    apply py_index_inv in Hg as [_ Hlk]; [|lia].
    unfold nd_wf in Hwf. rewrite Forall_forall in Hwf. apply Hwf.
    by eapply list_elem_of_lookup_2. }
  unfold py_index, np_positions. rewrite Hc.
  set (j := if c <? 0 then c + nd_cols (data eager) else c).
  destruct ((j <? 0) || (nd_cols (data eager) <=? j)) eqn:Hj; [reflexivity|].
  cbn [rbind ok]. apply orb_false_iff in Hj as [Hj1 Hj2].
  destruct (lookup_lt_is_Some_2 v (Z.to_nat j)) as [a Ha]; [lia|].
  rewrite Ha. unfold row_at.
  change (omap ?f [?y]) with
    (match f y with Some z => [z] | None => [] end).
  cbv beta. by rewrite Ha.
Qed.

(** X7.  No instance returns a row for an index at or beyond the number
    of rows of the table, even when a sentence bound covers the index:
    [get_context] and [self[i]] raise on the lazy instance, and [self[i]]
    raises [IndexError] on the eager one. *)
Theorem no_row_beyond_table d bounds w eager lazy (i : Z) :
  init d bounds w true = ok eager ->
  init d bounds w false = ok lazy ->
  nd_len d <= i ->
  is_ok (get_context lazy i) = false /\
  is_ok (getitem lazy (IxS (SInt i))) = false /\
  getitem eager (IxS (SInt i)) = raise IndexError.
Proof.
  intros He Hl Hi.
  destruct (eager_rows _ _ _ _ _ He Hl) as (Hn & _ & _ & Hpa & _).
  destruct (init_lazy_inv _ _ _ _ Hl) as (_ & Ed & Hlen & Hpl & _).
  assert (Hg : is_ok (get_context lazy i) = false).
  { destruct (get_context lazy i) as [e|v] eqn:Hg; [reflexivity|]. exfalso.
    pose proof (get_context_in_table lazy i v) as Hin.
    rewrite Ed in Hin. specialize (Hin Hlen). unfold nd_len in *.
    specialize (Hin ltac:(lia) Hg). lia. }
  split; [exact Hg|]. split.
  - unfold getitem. rewrite Hpl. by destruct (get_context lazy i).
  - unfold getitem. rewrite Hpa. cbn [np_getitem]. unfold py_index, nd_len in *.
    destruct (Z.ltb_spec i 0); [lia|].
    destruct (Z.ltb_spec i 0); [lia|].
    destruct (Z.leb_spec (Z.of_nat (length (nd_rows (data eager)))) i);
      [reflexivity|lia].
Qed.
End WindowedMore.

(** ** More on [ExampleVisiting] *)

Section VisitingMore.
Context {A P rng : Type}.
Context (shuffle : rng -> list Z -> list Z * rng).
Implicit Types (ev self : ExampleVisiting A) (w : world A rng)
  (d : Dataset A) (o : gmap string P) (l : gmap string (list Z -> P)).

Lemma with_schedule_same self :
  with_schedule self (training_schedule self) = self.
Proof. by destruct self. Qed.

(** The batches of the steps [0 .. m-1], one after the other, are the
    first [m * b] entries of the visiting scheme. *)
Lemma batches_concat self (sched : list Z) (m : nat) :
  0 < batch_size self ->
  concat (map (batch_indices self sched) (seqZ 0 (Z.of_nat m)))
  = take (Z.to_nat (Z.of_nat m * batch_size self)) sched.
Proof.
  intros Hb. induction m as [|m IH]; [reflexivity|].
  rewrite seqZ_S, map_app, concat_app, IH. cbn [map concat].
  rewrite app_nil_r, Z.add_0_l.
  rewrite batch_indices_between by lia. unfold between.
  rewrite Nat2Z.inj_succ.
  set (b := batch_size self) in *. set (k := Z.of_nat m) in *.
  destruct (Z.le_gt_cases (Z.of_nat (length sched)) (k * b)) as [Hle|Hgt].
  - rewrite (take_ge sched (Z.to_nat (k * b))) by lia.
    rewrite (take_ge sched (Z.to_nat (Z.succ k * b))) by lia.
    replace (Z.to_nat (Z.min _ _ - k * b)) with 0%nat by lia.
    by rewrite take_0, app_nil_r.
  - rewrite take_take_drop.
    destruct (Z.le_gt_cases ((k + 1) * b) (Z.of_nat (length sched))).
    + f_equal. lia.
    + rewrite !take_ge by lia. reflexivity.
Qed.

Lemma batch_indices_length self (sched : list Z) (step : Z) :
  0 <= step -> 0 < batch_size self ->
  Z.of_nat (length (batch_indices self sched step))
  = Z.max 0 (Z.min (batch_size self)
                   (Z.of_nat (length sched) - step * batch_size self)).
Proof.
  intros Hs Hb. rewrite batch_indices_between by lia.
  unfold between. rewrite length_take, length_drop. nia.
Qed.

(** What [generate_visiting_scheme] can change. *)
Lemma generate_frame w r w1 :
  generate_visiting_scheme shuffle w = (r, w1) ->
  (exists s, w_self w1 = with_schedule (w_self w) s) /\ w_out w1 = w_out w.
Proof.
  unfold generate_visiting_scheme, mbind, get_self, all_epochs_shuffled,
    mlift, set_training_schedule, ok.
  cbn iota beta.
  destruct (shuffled_epochs _ _ _ _) as [ps g]. cbn iota beta.
  destruct (np_concatenate ps) as [e|s]; intros [= <- <-]; cbn [w_self w_out].
  - split; [|reflexivity]. eexists. symmetry. apply with_schedule_same.
  - split; [|reflexivity]. by eexists.
Qed.

(** What the first statements of the supplier can change. *)
Lemma wrap_step_frame (st : Z) w r w1 :
  wrap_step shuffle st w = (r, w1) ->
  (exists s, w_self w1 = with_schedule (w_self w) s) /\
  (w_out w1 = w_out w \/ w_out w1 = w_out w ++ [wraparound_warning]).
Proof.
  assert (Hsame : exists s, w_self w = with_schedule (w_self w) s)
    by (eexists; symmetry; apply with_schedule_same).
  unfold wrap_step. unfold mbind at 1. unfold get_self at 1.
  unfold ok at 1. cbn iota beta.
  destruct (T (w_self w) <=? st); [|intros [= <- <-]; auto].
  destruct (T (w_self w) =? 0); [intros [= <- <-]; auto|].
  destruct (st mod T (w_self w) =? 0);
    [|intros [= <- <-]; auto].
  destruct (truthy (epochs (w_self w))).
  - unfold mbind at 1. unfold mbind at 1. unfold print at 1.
    unfold ok at 1. cbn iota beta.
    set (w0 := mkWorld (w_self w) (w_rng w) (w_out w ++ [wraparound_warning])).
    destruct (generate_visiting_scheme shuffle w0) as [[e|[]] w2] eqn:Hg;
      destruct (generate_frame _ _ _ Hg) as [[s Hs] Ho];
      intros [= <- <-]; split; eauto.
  - unfold mbind at 1. unfold mbind at 1. unfold mret at 1.
    unfold ok at 1. cbn iota beta.
    destruct (generate_visiting_scheme shuffle w) as [[e|[]] w2] eqn:Hg;
      destruct (generate_frame _ _ _ Hg) as [[s Hs] Ho];
      intros [= <- <-]; split; eauto.
Qed.

(** X9.  Whatever the step and whatever the outcome, a call of the
    supplier changes nothing of the object but its visiting scheme: the
    dataset, the batch size, the epochs and [T] stay; and it prints
    nothing, or the one wraparound warning. *)
Theorem supplier_frame (x y : string) o l (step : option Z) w :
  let w' := snd (_training_supplier shuffle x y o l step w) in
  (exists s, w_self w' = with_schedule (w_self w) s) /\
  (w_out w' = w_out w \/ w_out w' = w_out w ++ [wraparound_warning]).
Proof.
  assert (Hsame : exists s, w_self w = with_schedule (w_self w) s)
    by (eexists; symmetry; apply with_schedule_same).
  intros w'. subst w'.
  destruct (_training_supplier shuffle x y o l step w) as [r w'] eqn:Hrun.
  cbn [snd]. revert Hrun.
  destruct step as [st|]; [|intros [= <- <-]; auto].
  unfold _training_supplier. unfold mbind at 1.
  destruct (wrap_step shuffle st w) as [[e|st'] w1] eqn:Hw;
    destruct (wrap_step_frame _ _ _ _ Hw) as [[s1 Hs1] Ho1];
    [intros [= <- <-]; eauto|].
  unfold mbind at 1. unfold get_self at 1. unfold ok at 1. cbn iota beta.
  unfold mbind at 1.
  assert (Hens : forall r2 w2,
            match training_schedule (w_self w1) with
            | None => generate_visiting_scheme shuffle
            | Some _ => mret tt
            end w1 = (r2, w2) ->
            (exists s, w_self w2 = with_schedule (w_self w) s) /\
            w_out w2 = w_out w1).
  { intros r2 w2. destruct (training_schedule (w_self w1)).
    - intros [= <- <-]. eauto.
    - intros Hg. destruct (generate_frame _ _ _ Hg) as [[s Hs] Ho].
      split; [|exact Ho]. exists s. rewrite Hs, Hs1. reflexivity. }
  destruct (match training_schedule (w_self w1) with
            | None => generate_visiting_scheme shuffle
            | Some _ => mret tt
            end w1) as [[e|u] w2] eqn:Hens';
    destruct (Hens _ _ eq_refl) as [[s2 Hs2] Ho2].
  { intros [= <- <-]. split; [eauto|by rewrite Ho2]. }
  unfold get_schedule. unfold mbind, get_self, mret, mfail, mlift, ok.
  cbn iota beta.
  destruct (training_schedule (w_self w2)); intros [= <- <-];
    (split; [eauto|by rewrite Ho2]).
Qed.

(** X10.  With a negative number of epochs the object can be built, but
    its supplier never returns a batch: [generate_visiting_scheme] has no
    permutation to concatenate and raises [ValueError] without touching
    the object or the random generator, and every call of the supplier
    ends in an exception. *)
Theorem negative_epochs_never_feed (x y : string) o l d (b E : Z) ev w :
  ev_init d b (Some E) = ok ev -> E < 0 ->
  w_self w = ev ->
  generate_visiting_scheme shuffle w = (raise ValueError, w) /\
  forall step, is_ok (fst (_training_supplier shuffle x y o l step w)) = false.
Proof.
  intros Hi HE Hw.
  destruct (ev_init_inv _ _ _ _ Hi) as (_ & _ & _ & Ee & Es & _).
  assert (Hgen : forall w0, w_self w0 = ev ->
            generate_visiting_scheme shuffle w0 = (raise ValueError, w0)).
  { intros w0 Hw0.
    unfold generate_visiting_scheme, mbind, get_self, all_epochs_shuffled, ok.
    cbn iota beta. rewrite Hw0, Ee. cbn [or_one].
    destruct (Z.eqb_spec E 0); [lia|].
    replace (Z.to_nat E) with 0%nat by lia. cbn. rewrite <- Hw0.
    by destruct w0. }
  split; [by apply Hgen|].
  intros [st|]; [|reflexivity].
  unfold _training_supplier. unfold mbind at 1. unfold wrap_step.
  unfold mbind at 1. unfold get_self at 1. unfold ok at 1. cbn iota beta.
  assert (Htail : forall st' w0, w_self w0 = ev ->
            is_ok (fst (mbind get_self
              (fun self =>
                 mbind (match training_schedule self with
                        | None => generate_visiting_scheme shuffle
                        | Some _ => mret tt
                        end)
                   (fun _ =>
                      mbind get_schedule
                        (fun sched =>
                           mlift (feed_dict x y o l self sched
                                    (batch_indices self sched st'))))) w0))
            = false).
  { intros st' w0 Hw0. unfold mbind at 1. unfold get_self at 1.
    unfold ok at 1. cbn iota beta. rewrite Hw0, Es.
    unfold mbind at 1. by rewrite (Hgen w0 Hw0). }
  destruct (T (w_self w) <=? st); [|by apply Htail].
  destruct (T (w_self w) =? 0); [reflexivity|].
  destruct (st mod T (w_self w) =? 0).
  - rewrite Hw, Ee. cbn [truthy]. destruct (Z.eqb_spec E 0); [lia|].
    cbn [negb]. unfold mbind at 1. unfold mbind at 1. unfold print at 1.
    unfold ok at 1. cbn iota beta. rewrite Hgen by exact Hw. reflexivity.
  - unfold mbind at 1. unfold mret at 1. unfold ok at 1. cbn iota beta.
    unfold mret at 1. unfold ok at 1. cbn iota beta. by apply Htail.
Qed.

(** X11.  For a dataset without examples [T] is 0, and at every step
    [>= 0] the supplier raises [ZeroDivisionError] at [step % self.T],
    leaving the object, the random generator and the output as they
    were. *)
Theorem empty_dataset_never_feeds (x y : string) o l d (b : Z)
    (e : option Z) ev w (step : Z) :
  num_examples d = 0 -> ev_init d b e = ok ev ->
  (exists s, w_self w = with_schedule ev s) -> 0 <= step ->
  T ev = 0 /\
  _training_supplier shuffle x y o l (Some step) w
  = (raise ZeroDivisionError, w).
Proof.
  intros Hn Hi [s Hw] Hstep.
  destruct (ev_init_inv _ _ _ _ Hi) as (Hb & _ & _ & _ & _ & q & Hq & ET).
  assert (HT : T ev = 0).
  { rewrite Hn, (py_true_div_zero b Hb) in Hq. injection Hq as <-.
    rewrite ET. by destruct (truthy e). }
  split; [exact HT|].
  unfold _training_supplier. unfold mbind at 1. unfold wrap_step.
  unfold mbind at 1. unfold get_self at 1. unfold ok at 1. cbn iota beta.
  rewrite Hw. cbn [with_schedule T]. rewrite HT.
  destruct (Z.leb_spec 0 step); [|lia]. reflexivity.
Qed.

(** X12.  The feed dictionary is [{x: bx, y: by}] overridden by
    [other_feeds], overridden by the lambda feeds applied to the rows of
    the batch: a key of [lambda_feeds] gets [v(nb)], any other key of
    [other_feeds] gets its payload, and only then [y] gets the target
    rows and [x] the data rows. *)
Theorem feed_dict_lookup (x y : string) o l self (sched nb : list Z)
    (fd : gmap string (feed A P)) :
  feed_dict x y o l self sched nb = ok fd ->
  exists bx by_,
    table_rows (ds_data (dataset self)) (bool_decide (sched = [])) nb = ok bx /\
    take_rows (ds_target (dataset self)) (bool_decide (sched = [])) nb
      = ok by_ /\
    forall k : string,
      fd !! k =
      match l !! k with
      | Some v => Some (FPayload (v nb))
      | None =>
          match o !! k with
          | Some p => Some (FPayload p)
          | None =>
              if decide (k = y) then Some (FData by_)
              else if decide (k = x) then Some (FData bx)
              else None
          end
      end.
Proof.
  unfold feed_dict.
  destruct (table_rows _ _ _) as [e|bx]; [discriminate|]. cbn [rbind].
  destruct (take_rows _ _ _) as [e|by_]; [discriminate|]. cbn [rbind ok].
  intros [= <-]. exists bx, by_. split; [reflexivity|]. split; [reflexivity|].
  intros k. rewrite lookup_union, !lookup_fmap, lookup_union, lookup_fmap.
  destruct (l !! k) as [v|]; simpl.
  { by destruct (o !! k), (<[y:=FData by_]> {[x := FData bx]} !! k). }
  destruct (o !! k) as [p|]; simpl.
  { by destruct (<[y:=FData by_]> {[x := FData bx]} !! k). }
  destruct (decide (k = y)) as [->|Hy].
  { by rewrite lookup_insert_eq. }
  rewrite lookup_insert_ne by done.
  destruct (decide (k = x)) as [->|Hx].
  { by rewrite lookup_singleton_eq. }
  by rewrite lookup_singleton_ne.
Qed.

Section ShuffledMore.
Hypothesis shuffle_perm :
  forall g xs, Permutation (fst (shuffle g xs)) xs.

Lemma concat_perms_replicate (n : Z) (ps : list (list Z)) :
  Forall (fun p => Permutation p (seqZ 0 n)) ps ->
  Permutation (concat ps) (concat (replicate (length ps) (seqZ 0 n))).
Proof.
  induction 1 as [|p ps Hp _ IH]; [reflexivity|].
  simpl. by rewrite Hp, IH.
Qed.

(** X8.  For [n < 2^53] examples, a batch size [0 < b < 2^53] and
    [epochs] either [None] or [E >= 0]: the batches of the steps
    [0 .. T-1], taken one after the other, are exactly the visiting
    scheme that [generate_visiting_scheme] stored, so that over these
    [T] steps every example is fed exactly [max(E, 1)] times. *)
Theorem batches_cover_scheme d (b : Z) (e : option Z) ev (g : rng)
    (out : list string) :
  0 < b < 2 ^ 53 -> 0 <= num_examples d < 2 ^ 53 ->
  match e with Some v => 0 <= v | None => True end ->
  ev_init d b e = ok ev ->
  exists sched w',
    generate_visiting_scheme shuffle (mkWorld ev g out) = (ok tt, w') /\
    training_schedule (w_self w') = Some sched /\
    concat (map (batch_indices ev sched) (seqZ 0 (T ev))) = sched /\
    Permutation sched
      (concat (replicate (Z.to_nat (permutations_of e))
                         (seqZ 0 (num_examples d)))).
Proof.
  intros Hb53 Hn53 He Hi.
  pose proof (proj1 Hb53) as Hb. pose proof (proj1 Hn53) as Hn.
  destruct (ev_init_inv _ _ _ _ Hi) as (_ & Ed & Eb & Ee & _ & _).
  pose proof (ev_init_T _ _ _ _ Hi Hn53 Hb53 He) as ET.
  destruct (or_one_permutations _ He) as [_ Hk].
  set (k := permutations_of e) in *. set (n := num_examples d) in *.
  pose proof (shuffled_epochs_spec shuffle shuffle_perm (Z.to_nat k) n g)
    as [Hl Hf].
  set (r := shuffled_epochs shuffle (Z.to_nat k) n g) in *.
  exists (concat (fst r)), (mkWorld (with_schedule ev (Some (concat (fst r))))
                            (snd r) out).
  split.
  { rewrite (generate_visiting_scheme_run shuffle shuffle_perm);
      cbn [w_self w_rng w_out]; rewrite ?Ee, ?Ed; [reflexivity|exact He]. }
  split; [reflexivity|]. split.
  - pose proof (ceil_div_bounds n b Hb) as Hc.
    pose proof (concat_perms_length n _ Hn Hf) as Hlen.
    assert (HT : 0 <= T ev) by (rewrite ET; nia).
    rewrite <- (Z2Nat.id (T ev)) by exact HT.
    rewrite batches_concat by lia.
    apply take_ge. rewrite Z2Nat.id by exact HT. rewrite Eb, ET. nia.
  - rewrite <- Hl. by apply concat_perms_replicate.
Qed.
End ShuffledMore.
End VisitingMore.

(** ** The partitions of [redivide_data] *)

Section Partitions.
Context {B : Type}.
Implicit Types (all_data : list B) (acc sizes : list Z).

Lemma py_sum_snoc acc (m : Z) : py_sum (acc ++ [m]) = py_sum acc + m.
Proof. unfold py_sum. by rewrite fold_left_app. Qed.

Lemma py_slice2_clip all_data (a b : Z) :
  0 <= a -> 0 <= b ->
  let N := Z.of_nat (length all_data) in
  py_slice2 all_data a b = between all_data (Z.min a N) (Z.min b N).
Proof.
  intros Ha Hb N. unfold between.
  rewrite <- py_slice2_take_drop by lia.
  unfold py_slice2, clamp_bound. fold N.
  destruct (Z.ltb_spec a 0), (Z.ltb_spec b 0); try lia.
  destruct (Z.ltb_spec (Z.min a N) 0), (Z.ltb_spec (Z.min b N) 0); try lia.
  replace (Z.min (Z.min a N) N) with (Z.min a N) by lia.
  replace (Z.min (Z.min b N) N) with (Z.min b N) by lia.
  reflexivity.
Qed.

Lemma between_app all_data (x y z : Z) :
  0 <= x <= y -> y <= z ->
  between all_data x y ++ between all_data y z = between all_data x z.
Proof.
  intros Hxy Hyz. unfold between.
  replace (drop (Z.to_nat y) all_data)
    with (drop (Z.to_nat (y - x)) (drop (Z.to_nat x) all_data))
    by (rewrite drop_drop; f_equal; lia).
  rewrite take_take_drop. f_equal. lia.
Qed.

Lemma between_all all_data :
  between all_data 0 (Z.of_nat (length all_data)) = all_data.
Proof.
  unfold between. rewrite Z.sub_0_r, Nat2Z.id. simpl. apply firstn_all.
Qed.

Lemma partition_rows_snoc all_data acc (x m : Z) :
  last acc = Some x ->
  partition_rows all_data (acc ++ [m])
  = partition_rows all_data acc ++ [py_slice2 all_data x m].
Proof.
  unfold partition_rows. induction acc as [|a [|a' v'] IH]; intros Hl.
  - discriminate.
  - injection Hl as ->. reflexivity.
  - specialize (IH Hl). cbn [app tail zip zip_with map] in *.
    by rewrite IH.
Qed.

Lemma partition_rows_length all_data acc :
  length (partition_rows all_data acc) = pred (length acc).
Proof.
  unfold partition_rows. rewrite length_map, length_zip.
  destruct acc; cbn [tail length]; lia.
Qed.

(** The list under construction in the reduction: it ends in a
    non-negative boundary that its sum dominates, and its slices, taken
    one after the other, are the rows up to that boundary. *)
Lemma reduction_invariant all_data sizes :
  Forall (fun s => 0 <= s) sizes ->
  let v := fold_left (fun v1 v2 => v1 ++ [py_sum v1 + v2]) sizes [0] in
  let N := Z.of_nat (length all_data) in
  length v = S (length sizes) /\
  exists x, last v = Some x /\ 0 <= x <= py_sum v /\
    concat (partition_rows all_data v) = between all_data 0 (Z.min x N).
Proof.
  intros Hs. cbv zeta.
  induction sizes as [|s sizes IH] using rev_ind.
  - split; [reflexivity|]. exists 0. repeat split; try reflexivity.
    unfold between. simpl. by rewrite Z.min_l by lia.
  - apply Forall_app in Hs as [Hs Hs1]. inversion Hs1 as [|? ? Hs0 _]; subst.
    destruct (IH Hs) as (Hlen & x & Hl & Hx & Hc). clear IH.
    rewrite fold_left_app. cbn [fold_left].
    set (v := fold_left _ sizes [0]) in *.
    split; [rewrite !length_app; simpl; lia|].
    exists (py_sum v + s). split; [apply last_snoc|].
    split; [rewrite py_sum_snoc; lia|].
    rewrite (partition_rows_snoc _ _ x _ Hl), concat_app, Hc.
    cbn [concat]. rewrite app_nil_r.
    rewrite py_slice2_clip by lia. apply between_app; lia.
Qed.

(** X13.  For sizes that are not negative, whatever they are, the rows
    of the new datasets taken one after the other are the rows of
    [all_data]: no example is lost and none is repeated, and there is one
    dataset per size. *)
Theorem partition_rows_cover all_data sizes :
  sizes <> [] -> Forall (fun s => 0 <= s) sizes ->
  let N := Z.of_nat (length all_data) in
  concat (partition_rows all_data (calculated_partitions sizes N)) = all_data
  /\ length (partition_rows all_data (calculated_partitions sizes N))
     = length sizes.
Proof.
  intros Hne Hs N. unfold calculated_partitions.
  destruct (exists_last Hne) as (sizes' & s & ->).
  apply Forall_app in Hs as [Hs _].
  destruct (reduction_invariant all_data sizes' Hs)
    as (Hlen & x & Hl & Hx & Hc).
  rewrite fold_left_app. cbn [fold_left].
  set (v := fold_left _ sizes' [0]) in *.
  replace (length (v ++ [(py_sum v + s)%Z]) - 1)%nat with (length v + 0)%nat
    by (rewrite length_app; simpl; lia).
  rewrite insert_app_r. cbn [list_insert insert].
  split.
  - rewrite (partition_rows_snoc _ _ x _ Hl), concat_app, Hc.
    cbn [concat]. rewrite app_nil_r.
    rewrite py_slice2_clip by lia. fold N. rewrite Z.min_id.
    rewrite between_app by lia. apply between_all.
  - rewrite partition_rows_length, !length_app. simpl. lia.
Qed.

(** X14.  Each boundary is the sum of all boundaries before it plus the
    next size, not the previous boundary plus the next size.  With three
    sizes [a, b, c] the datasets have [a], [b] and the remaining rows;
    with four sizes [a, b, c, e] the third dataset has [a + c] rows, not
    [c], when they fit. *)
Theorem partition_rows_sizes all_data (a b c e : Z) :
  0 <= a -> 0 <= b -> 0 <= c ->
  let N := Z.of_nat (length all_data) in
  (a + b <= N ->
   calculated_partitions [a; b; c] N = [0; a; a + b; N] /\
   map (fun p => Z.of_nat (length p))
       (partition_rows all_data (calculated_partitions [a; b; c] N))
   = [a; b; N - (a + b)]) /\
  (2 * a + b + c <= N ->
   calculated_partitions [a; b; c; e] N = [0; a; a + b; 2 * a + b + c; N] /\
   map (fun p => Z.of_nat (length p))
       (partition_rows all_data (calculated_partitions [a; b; c; e] N))
   = [a; b; a + c; N - (2 * a + b + c)]).
Proof.
  intros Ha Hb Hc N.
  assert (Hlen : forall x y, 0 <= x <= y -> y <= N ->
            Z.of_nat (length (py_slice2 all_data x y)) = y - x).
  { intros x y Hx Hy. rewrite py_slice2_take_drop by (fold N; lia).
    rewrite length_take, length_drop. fold N. lia. }
  split; intros Hfit.
  - assert (E : calculated_partitions [a; b; c] N = [0; a; a + b; N]).
    { unfold calculated_partitions, py_sum. cbn.
      repeat (apply (f_equal2 cons); [lia|]). reflexivity. }
    split; [exact E|]. rewrite E. unfold partition_rows. cbn.
    rewrite !Hlen by lia.
    repeat (apply (f_equal2 cons); [lia|]). reflexivity.
  - assert (E : calculated_partitions [a; b; c; e] N
                = [0; a; a + b; 2 * a + b + c; N]).
    { unfold calculated_partitions, py_sum. cbn.
      repeat (apply (f_equal2 cons); [lia|]). reflexivity. }
    split; [exact E|]. rewrite E. unfold partition_rows. cbn.
    rewrite !Hlen by lia.
    repeat (apply (f_equal2 cons); [lia|]). reflexivity.
Qed.
End Partitions.

(** ** One-hot targets *)

Lemma create_and_set_ok (d v : Z) :
  0 <= v < d ->
  create_and_set d v
  = ok (replicate (Z.to_nat v) 0 ++ 1 :: replicate (Z.to_nat (d - v - 1)) 0).
Proof.
  intros Hv. unfold create_and_set, np_zeros, py_setitem.
  destruct (Z.ltb_spec d 0); [lia|]. cbn [rbind ok].
  rewrite length_replicate, Z2Nat.id by lia.
  destruct (Z.ltb_spec v 0); [lia|].
  destruct (Z.ltb_spec v 0); [lia|].
  destruct (Z.leb_spec d v); [lia|]. cbn [orb].
  rewrite insert_replicate_lt by lia.
  replace (Z.to_nat d - S (Z.to_nat v))%nat with (Z.to_nat (d - v - 1)) by lia.
  reflexivity.
Qed.

(** Negative labels count from the last class. *)
Lemma create_and_set_wrap (d v : Z) :
  - d <= v < 0 -> create_and_set d v = create_and_set d (v + d).
Proof.
  intros Hv. unfold create_and_set, np_zeros, py_setitem.
  destruct (Z.ltb_spec d 0); [lia|]. cbn [rbind ok].
  rewrite length_replicate, Z2Nat.id by lia.
  destruct (Z.ltb_spec v 0); [|lia].
  destruct (Z.ltb_spec (v + d) 0); [lia|].
  destruct (Z.ltb_spec (v + d) 0); [lia|]. reflexivity.
Qed.

Lemma create_and_set_out_of_range (d v : Z) :
  0 <= d -> v < - d \/ d <= v -> create_and_set d v = raise IndexError.
Proof.
  intros Hd Hv. unfold create_and_set, np_zeros, py_setitem.
  destruct (Z.ltb_spec d 0); [lia|]. cbn [rbind ok].
  rewrite length_replicate, Z2Nat.id by lia.
  destruct (Z.ltb_spec v 0).
  - destruct (Z.ltb_spec (v + d) 0); [reflexivity|lia].
  - destruct (Z.ltb_spec v 0); [lia|].
    destruct (Z.leb_spec d v); [reflexivity|lia].
Qed.

Lemma argmax_from_zeros (k : nat) (rest : list Z) (i best besti : Z) :
  0 <= best ->
  argmax_from (replicate k 0 ++ rest) i best besti
  = argmax_from rest (i + Z.of_nat k) best besti.
Proof.
  intros Hb. revert i. induction k as [|k IH]; intros i; simpl.
  - f_equal. lia.
  - destruct (Z.ltb_spec best 0); [lia|]. rewrite IH. f_equal. lia.
Qed.

Lemma np_argmax_one_hot (d v : Z) :
  0 <= v < d ->
  np_argmax
    (replicate (Z.to_nat v) 0 ++ 1 :: replicate (Z.to_nat (d - v - 1)) 0)
  = ok v.
Proof.
  intros Hv. destruct (Z.to_nat v) as [|k] eqn:Ek.
  - cbn [replicate app np_argmax].
    rewrite <- (app_nil_r (replicate _ 0)), argmax_from_zeros by lia.
    simpl. f_equal. lia.
  - cbn [replicate app np_argmax]. rewrite argmax_from_zeros by lia.
    cbn [argmax_from]. destruct (Z.ltb_spec 0 1); [|lia].
    rewrite <- (app_nil_r (replicate _ 0)), argmax_from_zeros by lia.
    simpl. f_equal. lia.
Qed.

Lemma np_max_ge (seq : list Z) (m : Z) :
  np_max seq = ok m -> Forall (fun v => v <= m) seq.
Proof.
  destruct seq as [|x xs]; [discriminate|]. simpl. intros [= <-].
  assert (H : forall acc, acc <= fold_left Z.max xs acc /\
                          Forall (fun v => v <= fold_left Z.max xs acc) xs).
  { induction xs as [|y ys IH]; intros acc; simpl; [split; [lia|constructor]|].
    destruct (IH (Z.max acc y)) as [H1 H2]. split; [lia|].
    constructor; [lia|exact H2]. }
  destruct (H x) as [H1 H2]. by constructor.
Qed.

(** The encoding of labels that are classes, and its decoding. *)
Lemma one_hot_rows (da_max : Z) (seq : list Z) :
  Forall (fun v => 0 <= v < da_max) seq ->
  exists rows,
    rmap (create_and_set da_max) seq = ok rows /\
    rows = map (fun v => replicate (Z.to_nat v) 0
                         ++ 1 :: replicate (Z.to_nat (da_max - v - 1)) 0) seq /\
    rmap np_argmax rows = ok seq.
Proof.
  induction 1 as [|v seq Hv _ (rows & Hr & Hrows & Ha)].
  - by exists [].
  - eexists. cbn [rmap]. rewrite (create_and_set_ok _ _ Hv), Hr.
    cbn [rbind ok]. split; [reflexivity|]. split; [by rewrite Hrows|].
    cbn [rmap]. rewrite (np_argmax_one_hot _ _ Hv), Ha. reflexivity.
Qed.

(** X15.  With a dimension [d > 0] and labels that are classes
    [0 .. d-1], [to_one_hot_enc] returns one row per label, of [d]
    entries, with a 1 at the label and 0 everywhere else. *)
Theorem to_one_hot_enc_rows (seq : list Z) (d : Z) :
  0 < d -> Forall (fun v => 0 <= v < d) seq ->
  exists rows,
    to_one_hot_enc seq (Some d) = ok rows /\
    length rows = length seq /\
    forall (k : nat) (v : Z), seq !! k = Some v ->
      exists row, rows !! k = Some row /\
        Z.of_nat (length row) = d /\
        forall j, 0 <= j < d ->
          row !! Z.to_nat j = Some (if decide (j = v) then 1 else 0).
Proof.
  intros Hd Hseq. destruct (one_hot_rows d seq Hseq) as (rows & Hr & Hrows & _).
  exists rows. unfold to_one_hot_enc. cbn [truthy default].
  destruct (Z.eqb_spec d 0); [lia|]. cbn [negb rbind ok].
  split; [exact Hr|]. split; [by rewrite Hrows, length_map|].
  intros k v Hk. rewrite Forall_forall in Hseq.
  pose proof (Hseq v (list_elem_of_lookup_2 _ _ _ Hk)) as Hv.
  eexists. split; [rewrite Hrows; rewrite list_lookup_fmap, Hk; reflexivity|].
  split.
  { rewrite length_app, length_replicate. simpl.
    rewrite length_replicate. lia. }
  intros j Hj. destruct (decide (j = v)) as [->|Hne].
  - rewrite lookup_app_r by (rewrite length_replicate; lia).
    rewrite length_replicate, Nat.sub_diag. reflexivity.
  - destruct (Z.lt_ge_cases j v).
    + rewrite lookup_app_l by (rewrite length_replicate; lia).
      apply lookup_replicate_2. lia.
    + rewrite lookup_app_r by (rewrite length_replicate; lia).
      rewrite length_replicate.
      destruct (Z.to_nat j - Z.to_nat v)%nat as [|i] eqn:Ei; [lia|].
      simpl. apply lookup_replicate_2. lia.
Qed.

(** The largest label is one of the labels. *)
Lemma np_max_in (seq : list Z) (m : Z) : np_max seq = ok m -> In m seq.
Proof.
  destruct seq as [|x xs]; [discriminate|]. simpl. intros [= <-].
  revert x. induction xs as [|y ys IH]; intros x; simpl; [by left|].
  destruct (IH (Z.max x y)) as [E|Hin]; [|by right; right].
  destruct (Z.max_spec x y) as [[_ Hm]|[_ Hm]]; rewrite Hm in *.
  - right. by left.
  - by left.
Qed.

Lemma wrap_int64_id (z : Z) :
  - 2 ^ 63 <= z < 2 ^ 63 -> wrap_int64 z = z.
Proof.
  intros Hz. unfold wrap_int64.
  change (2 ^ 64) with (2 ^ 63 + 2 ^ 63). rewrite Z.mod_small; lia.
Qed.

(** X16.  Encoding then decoding gives the labels back: for labels that
    are not negative and below [2^63 - 1], and no dimension given,
    [np.argmax] of every row of [to_one_hot_enc(seq)] is the label of the
    row; the same holds with a dimension above the labels.  When the
    largest label is [2^63 - 1] and no dimension is given,
    [np.max(seq) + 1] wraps around to [-2^63] and [np.zeros] raises
    [ValueError]. *)
Theorem to_one_hot_enc_argmax (seq : list Z) :
  seq <> [] -> Forall (fun v => 0 <= v) seq ->
  (Forall (fun v => v < 2 ^ 63 - 1) seq ->
   exists rows, to_one_hot_enc seq None = ok rows /\
                rmap np_argmax rows = ok seq) /\
  (forall d, Forall (fun v => v < d) seq ->
     exists rows, to_one_hot_enc seq (Some d) = ok rows /\
                  rmap np_argmax rows = ok seq) /\
  (np_max seq = ok (2 ^ 63 - 1) ->
   to_one_hot_enc seq None = raise ValueError).
Proof.
  intros Hne Hpos. split; [|split].
  - intros Hbound. unfold to_one_hot_enc. cbn [truthy].
    destruct (np_max seq) as [e|m] eqn:Hm; [by destruct seq|].
    cbn [rbind ok]. pose proof (np_max_ge _ _ Hm) as Hle.
    pose proof (np_max_in _ _ Hm) as Hin.
    rewrite List.Forall_forall in Hpos, Hbound.
    pose proof (Hpos m Hin) as Hm0. pose proof (Hbound m Hin) as Hm1.
    cbv beta in Hm0, Hm1.
    assert (0 < 2 ^ 63) by (apply Z.pow_pos_nonneg; lia).
    rewrite wrap_int64_id by lia.
    destruct (one_hot_rows (m + 1) seq) as (rows & Hr & _ & Ha).
    { apply Forall_forall. intros v Hv. rewrite Forall_forall in Hle.
      specialize (Hle v Hv). apply list_elem_of_In in Hv.
      specialize (Hpos v Hv). simpl in *. lia. }
    by exists rows.
  - intros d Hd.
    assert (Hin : Forall (fun v => 0 <= v < d) seq).
    { apply Forall_forall. intros v Hv. rewrite Forall_forall in Hpos, Hd.
      specialize (Hpos v Hv). specialize (Hd v Hv). simpl in *. lia. }
    assert (Hd0 : 0 < d).
    { destruct seq as [|v seq]; [done|]. inversion Hin; subst. lia. }
    destruct (one_hot_rows d seq Hin) as (rows & Hr & _ & Ha).
    exists rows. unfold to_one_hot_enc. cbn [truthy default].
    destruct (Z.eqb_spec d 0); [lia|]. by cbn [negb rbind ok].
  - intros Hm. unfold to_one_hot_enc. cbn [truthy]. rewrite Hm.
    cbn [rbind ok].
    replace (wrap_int64 (2 ^ 63 - 1 + 1)) with (- 2 ^ 63)
      by (vm_compute; reflexivity).
    destruct seq as [|v seq]; [done|]. reflexivity.
Qed.

(** X17.  With a dimension [d > 0], a label in [-d .. -1] is encoded as
    the class [v + d], so that the encoding of labels in [-d .. d-1]
    depends on them modulo [d] only; a label outside [-d .. d-1] raises
    [IndexError]. *)
Theorem to_one_hot_enc_wraps (seq : list Z) (d : Z) :
  0 < d ->
  (Forall (fun v => - d <= v < d) seq ->
   to_one_hot_enc seq (Some d)
   = to_one_hot_enc (map (fun v => v mod d) seq) (Some d)) /\
  (Exists (fun v => v < - d \/ d <= v) seq ->
   to_one_hot_enc seq (Some d) = raise IndexError).
Proof.
  intros Hd. unfold to_one_hot_enc. change (default 0 (Some d)) with d.
  cbn [truthy]. destruct (Z.eqb_spec d 0); [lia|]. cbn [negb rbind ok].
  split.
  - induction 1 as [|v seq Hv _ IH]; [reflexivity|].
    cbn [map rmap]. rewrite IH. simpl in Hv.
    replace (create_and_set d (v mod d)) with (create_and_set d v);
      [reflexivity|].
    destruct (Z.lt_ge_cases v 0).
    + rewrite create_and_set_wrap by lia. f_equal.
      apply Z.mod_unique with (-1); lia.
    + f_equal. symmetry. apply Z.mod_small. lia.
  - intros Hex.
    assert (Hall : forall v, - d <= v < d -> succeeds (create_and_set d v)).
    { intros v Hv. destruct (Z.lt_ge_cases v 0).
      - rewrite create_and_set_wrap by lia.
        rewrite create_and_set_ok by lia. by eexists.
      - rewrite create_and_set_ok by lia. by eexists. }
    induction seq as [|v seq IH]; [by apply Exists_nil in Hex|].
    cbn [rmap].
    destruct (Z.lt_ge_cases v (- d)) as [|Hlo];
      [by rewrite create_and_set_out_of_range by lia|].
    destruct (Z.le_gt_cases d v) as [|Hhi];
      [by rewrite create_and_set_out_of_range by lia|].
    destruct (Hall v ltac:(lia)) as [row ->]. cbn [rbind ok].
    apply Exists_cons in Hex as [Hex|Hex]; [lia|].
    by rewrite (IH Hex).
Qed.

(** ** Counting the examples of each class *)

Lemma py_setitem_ok {B} (xs : list B) (i : Z) (x : B) :
  0 <= i < Z.of_nat (length xs) ->
  py_setitem xs i x = ok (<[Z.to_nat i := x]> xs).
Proof.
  intros Hi. unfold py_setitem.
  destruct (Z.ltb_spec i 0); [lia|].
  destruct (Z.ltb_spec i 0); [lia|].
  destruct (Z.leb_spec (Z.of_nat (length xs)) i); [lia|]. reflexivity.
Qed.

(** Counting one-hot rows adds, for every class, the number of labels
    of that class. *)
Lemma rfold_count_label (d : Z) (seq : list Z) :
  Forall (fun v => 0 <= v < d) seq ->
  forall counter : list Z,
    Z.of_nat (length counter) = d ->
    exists counter',
      rfold count_label
        (map (fun v => replicate (Z.to_nat v) 0
                       ++ 1 :: replicate (Z.to_nat (d - v - 1)) 0) seq)
        counter = ok counter' /\
      Z.of_nat (length counter') = d /\
      forall c x, 0 <= c < d -> counter !! Z.to_nat c = Some x ->
        counter' !! Z.to_nat c
        = Some (x + Z.of_nat (count_occ Z.eq_dec seq c)).
Proof.
  induction 1 as [|v seq Hv _ IH]; intros counter Hlen.
  - exists counter. split; [reflexivity|]. split; [exact Hlen|].
    intros c x _ Hx. simpl. by rewrite Z.add_0_r.
  - cbn [map rfold]. unfold count_label at 1.
    rewrite (np_argmax_one_hot _ _ Hv). cbn [rbind ok].
    destruct (lookup_lt_is_Some_2 counter (Z.to_nat v)) as [old Hold]; [lia|].
    rewrite (py_index_ok _ _ _ (proj1 Hv) Hold). cbn [rbind ok].
    rewrite py_setitem_ok by lia. cbn [rbind ok].
    destruct (IH (<[Z.to_nat v := old + 1]> counter))
      as (counter' & Hr & Hl & Hc).
    { by rewrite length_insert. }
    exists counter'. split; [exact Hr|]. split; [exact Hl|].
    intros c x Hc0 Hx. destruct (decide (v = c)) as [->|Hne].
    + rewrite (Hc c (old + 1) Hc0).
      * rewrite count_occ_cons_eq by reflexivity.
        rewrite Hold in Hx. injection Hx as <-. f_equal. lia.
      * apply list_lookup_insert_eq. lia.
    + rewrite (Hc c x Hc0).
      * by rewrite count_occ_cons_neq.
      * rewrite list_lookup_insert_ne by lia. exact Hx.
Qed.

(** X18.  For one-hot targets, [test_if_balanced] prints, for every
    class, the number of labels of that class: with a dimension [d > 0]
    and at least one label, all of them classes [0 .. d-1], the list it
    prints has [d] entries and its entry [c] is the number of occurrences
    of [c] among the labels.  Without any target it raises [IndexError]. *)
Theorem test_if_balanced_counts (seq : list Z) (d : Z) :
  0 < d -> seq <> [] -> Forall (fun v => 0 <= v < d) seq ->
  (exists rows counts,
     to_one_hot_enc seq (Some d) = ok rows /\
     test_if_balanced rows = ok counts /\
     Z.of_nat (length counts) = d /\
     forall c, 0 <= c < d ->
       counts !! Z.to_nat c = Some (Z.of_nat (count_occ Z.eq_dec seq c)))
  /\ test_if_balanced [] = raise IndexError.
Proof.
  intros Hd Hne Hseq. split; [|reflexivity].
  destruct (one_hot_rows d seq Hseq) as (rows & Hr & Hrows & _).
  destruct (rfold_count_label d seq Hseq (replicate (Z.to_nat d) 0))
    as (counts & Hc & Hl & Hcount).
  { rewrite length_replicate. lia. }
  exists rows, counts. split.
  { unfold to_one_hot_enc. change (default 0 (Some d)) with d. cbn [truthy].
    destruct (Z.eqb_spec d 0); [lia|]. by cbn [negb rbind ok]. }
  split.
  - unfold test_if_balanced. rewrite Hrows.
    destruct seq as [|v seq]; [done|]. pose proof (Forall_inv Hseq) as Hv.
    simpl in Hv.
    cbn [map] in *.
    rewrite (py_index_ok (_ :: _) 0 _ (Z.le_refl 0) eq_refl).
    cbn [rbind ok].
    replace (length (replicate (Z.to_nat v) 0
                     ++ 1 :: replicate (Z.to_nat (d - v - 1)) 0))
      with (Z.to_nat d)
      by (rewrite length_app, length_replicate; simpl;
          rewrite length_replicate; lia).
    exact Hc.
  - split; [exact Hl|]. intros c Hc0.
    rewrite (Hcount c 0 Hc0); [by rewrite Z.add_0_l|].
    apply lookup_replicate_2. lia.
Qed.

(** ** [Datasets.from_list] *)

Section DatasetsFacts.
Context {D : Type}.
Implicit Types (ds : Datasets D) (lst : list (option D)).

(** X19.  From one, two or three datasets, [from_list] builds an object
    without printing: the first dataset is [train], the last one is
    [test] when there are at least two, the middle one is [validation]
    when there are three.  Its entries that are not [None], in the order
    of indexing, are the datasets it was given, [len] counts them, and
    the indices 0, 1 and 2 give [train], [validation] and [test]. *)
Theorem from_list_round_trip lst :
  (1 <= length lst <= 3)%nat -> Forall is_Some lst ->
  exists ds,
    from_list lst = ok (AsDatasets ds, []) /\
    List.filter (fun d => bool_decide (is_Some d)) (_lst ds) = lst /\
    Datasets_len ds = Z.of_nat (length lst) /\
    Some (train ds) = lst !! 0%nat /\
    ((1 < length lst)%nat -> Some (test ds) = last lst) /\
    (length lst = 3%nat -> Some (validation ds) = lst !! 1%nat) /\
    (length lst <> 3%nat -> validation ds = None) /\
    Datasets_getitem ds 0 = ok (train ds) /\
    Datasets_getitem ds 1 = ok (validation ds) /\
    Datasets_getitem ds 2 = ok (test ds).
Proof.
  intros Hlen Hsome.
  destruct lst as [|a [|b [|c [|e lst]]]]; simpl in Hlen; try lia.
  - inversion Hsome as [|? ? [a' ->] _]; subst.
    eexists. split; [reflexivity|]. unfold Datasets_len. cbn.
    repeat split; try done; lia.
  - inversion Hsome as [|? ? [a' ->] Hs1]; subst.
    inversion Hs1 as [|? ? [b' ->] _]; subst.
    eexists. split; [reflexivity|]. unfold Datasets_len. cbn.
    repeat split; try done; lia.
  - inversion Hsome as [|? ? [a' ->] Hs1]; subst.
    inversion Hs1 as [|? ? [b' ->] Hs2]; subst.
    inversion Hs2 as [|? ? [c' ->] _]; subst.
    eexists. split; [reflexivity|]. unfold Datasets_len. cbn.
    repeat split; try done; lia.
Qed.

(** X20.  [from_list] builds no object from an empty list, where
    [list_of_datasets[0]] raises [IndexError], nor from more than three
    datasets, where it prints a message and returns the list it was
    given. *)
Theorem from_list_other_lengths lst :
  (3 < length lst)%nat ->
  from_list lst = ok (AsList lst, [too_many_datasets]) /\
  from_list (D:=D) [] = raise IndexError.
Proof.
  intros Hlen. split; [|reflexivity].
  destruct lst as [|a [|b [|c [|e lst]]]]; simpl in Hlen; try lia.
  reflexivity.
Qed.
End DatasetsFacts.

(** ** Batches over windowed data *)

Section WindowedBatches.
Context {A P : Type}.

(** X21.  A batch is the same whether the windowed rows are created on
    demand or were processed by the constructor: for two objects whose
    datasets differ in that only, a visiting scheme that is not empty and
    a batch of at least one row of the table, the feed dictionaries are
    equal. *)
Theorem feed_dict_lazy_as_eager (x y : string) (o : gmap string P)
    (l : gmap string (list Z -> P)) (d : ndarray2 A) bounds (w : Z)
    (eager lazy : WindowedData A) (target : ndarray2 A)
    (ev_lazy ev_eager : ExampleVisiting A) (sched nb : list Z) :
  init d bounds w true = ok eager ->
  init d bounds w false = ok lazy ->
  dataset ev_lazy = mkDataset (Windowed lazy) target ->
  dataset ev_eager = mkDataset (Windowed eager) target ->
  sched <> [] -> nb <> [] -> Forall (fun i => 0 <= i < nd_len d) nb ->
  feed_dict x y o l ev_lazy sched nb = feed_dict x y o l ev_eager sched nb /\
  succeeds (table_rows (ds_data (dataset ev_lazy)) false nb).
Proof.
  intros He Hl Hdl Hde Hs Hne Hnb.
  destruct (eager_rows _ _ _ _ _ He Hl) as (_ & _ & _ & Hpa & _).
  destruct (init_lazy_inv _ _ _ _ Hl) as (_ & _ & _ & Hpl & _).
  assert (Hsel : selects_rows (nd_len d) (SSeq nb)) by (by split).
  assert (Hrows : table_rows (Windowed lazy) false nb
                  = table_rows (Windowed eager) false nb).
  { unfold table_rows, take_rows. rewrite Hpa, Hpl.
    rewrite (getitem_rows_columns_agree _ _ _ _ _ _ (SSlice full_slice)
               He Hl Hsel I).
    unfold getitem. by rewrite Hpa. }
  split.
  - unfold feed_dict. rewrite Hdl, Hde. cbn [ds_data ds_target].
    rewrite bool_decide_eq_false_2 by exact Hs. by rewrite Hrows.
  - rewrite Hdl. cbn [ds_data]. rewrite Hrows.
    unfold table_rows. rewrite Hpa.
    destruct (eager_rows _ _ _ _ _ He Hl) as (Hn & _).
    apply take_rows_ok. by rewrite Hn.
Qed.
End WindowedBatches.

(** ** The supplier of a [Dataset] *)

Section DatasetSupplierFacts.
Context {A P : Type}.

(** The rows do not depend on the attribute [process_all] unless it
    is [True]. *)
Lemma generate_all_process_all (w : Z) (d : ndarray2 A) sh t :
  generate_all (mkWindowedData w d sh t (Some false))
  = generate_all (mkWindowedData w d sh t None).
Proof. reflexivity. Qed.

(** X22.  For data windowed on demand, the supplier of
    [Dataset.create_supplier] generates all the windowed rows at every
    call and drops them: it returns a dictionary exactly when the
    constructor of [WindowedData] with [process_all=True] would succeed on
    the same arguments, and what the dictionary holds for [x] is the
    [WindowedData] object itself, unless [y] or another feed has the
    same key. *)
Theorem supplier_generates_and_drops (d : ndarray2 A) bounds (w : Z)
    (lazy : WindowedData A) (target : ndarray2 A) (x y : string)
    (o : gmap string P) (step : option Z) :
  init d bounds w false = ok lazy ->
  let self := mkDataset (Windowed lazy) target in
  is_ok (_supplier self x y o step) = is_ok (init d bounds w true) /\
  forall fd, _supplier self x y o step = ok fd ->
    (forall k, fd !! k =
       match o !! k with
       | Some p => Some (DPayload p)
       | None =>
           if decide (k = y) then Some (DTarget target)
           else if decide (k = x) then Some (DData (Windowed lazy))
           else None
       end).
Proof.
  intros Hl self. split.
  - revert Hl. unfold _supplier, init. cbn [ds_data self].
    destruct (IntervalTree _) as [e|t]; [discriminate|]. cbn [rbind ok].
    intros [= <-]. rewrite generate_all_process_all.
    unfold generate_all, getitem. cbn [process_all].
    destruct (rows_of _ _) as [e|rs]; [reflexivity|]. cbn [rbind ok].
    destruct (stack_contexts _ _) as [e|m]; reflexivity.
  - intros fd. unfold _supplier. cbn [ds_data ds_target self].
    destruct (generate_all lazy) as [e|v]; [discriminate|].
    cbn [rbind ok]. intros [= <-] k.
    rewrite lookup_union, lookup_fmap.
    destruct (o !! k) as [p|]; simpl.
    { by destruct (<[y:=DTarget target]> {[x := DData (Windowed lazy)]}
                     !! k). }
    destruct (decide (k = y)) as [->|Hy].
    { by rewrite lookup_insert_eq. }
    rewrite lookup_insert_ne by done.
    destruct (decide (k = x)) as [->|Hx].
    { by rewrite lookup_singleton_eq. }
    by rewrite lookup_singleton_ne.
Qed.
End DatasetSupplierFacts.

(** * Instances of the further facts *)

Lemma get_context_interior_witness :
  get_context lazy_five 2
  = ok (concat (between (nd_rows (table_of 5)) (2 - 2) (2 + 2 + 1)))
  /\ Z.of_nat (length (between (nd_rows (table_of 5)) (2 - 2) (2 + 2 + 1)))
     = 2 * 2 + 1.
Proof.
  apply (get_context_interior (table_of 5) bounds_one 2 lazy_five 2 0 5);
    [vm_compute; reflexivity | vm_compute; reflexivity
    | lia | lia | lia | lia | vm_compute; reflexivity].
Defined.

Lemma get_context_width_witness :
  let self :=
    mkWindowedData 2 (table_of 10) (10, 10)
      [mkInterval 0 5; mkInterval 2 10] (Some false) in
  exists v, get_context
              (with_tree self [mkInterval 2 10; mkInterval 0 5]) 3 = ok v /\
            Z.of_nat (length v) = snd (shape self) /\
            snd (shape self) = (2 * 2 + 1) * nd_cols (table_of 10).
Proof.
  apply (get_context_width (table_of 10) [(0, 4); (2, 9)] 2
           (mkWindowedData 2 (table_of 10) (10, 10)
              [mkInterval 0 5; mkInterval 2 10] (Some false))
           3 [mkInterval 2 10; mkInterval 0 5]).
  - vm_compute. reflexivity.
  - repeat constructor.
  - lia.
  - apply perm_swap.
  - vm_compute. discriminate.
  - vm_compute. repeat constructor; discriminate.
  - vm_compute. reflexivity.
Defined.

Lemma init_eager_shape_witness :
  exists eager,
    init (table_of 5) bounds_one 2 true = ok eager /\
    shape eager = (nd_len (table_of 5), (2 * 2 + 1) * nd_cols (table_of 5)) /\
    nd_len (data eager) = fst (shape eager) /\
    nd_cols (data eager) = snd (shape eager) /\
    nd_wf (data eager).
Proof.
  apply (init_eager_shape (table_of 5) bounds_one 2).
  - repeat constructor.
  - vm_compute. reflexivity.
  - lia.
  - split.
    + intros e [<-|[]]. simpl. lia.
    + intros i Hi. exists (0, 4). split; [left; reflexivity|].
      change (nd_len (table_of 5)) with 5 in Hi. simpl. lia.
Defined.

Lemma lazy_rows_as_eager_witness :
  succeeds (getitem lazy_five (IxS (SSeq [1; 3]))) /\
  getitem lazy_five (IxS (SSeq [1; 3]))
  = getitem eager_five (IxS (SSeq [1; 3])) /\
  forall columns, plain_columns columns ->
    getitem lazy_five (IxTuple [SSeq [1; 3]; columns])
    = getitem eager_five (IxTuple [SSeq [1; 3]; columns]).
Proof.
  apply (lazy_rows_as_eager (table_of 5) bounds_one 2 eager_five lazy_five
           (SSeq [1; 3])).
  - vm_compute. reflexivity.
  - vm_compute. reflexivity.
  - split; [discriminate|].
    change (nd_len (table_of 5)) with 5. repeat constructor; lia.
Defined.

Lemma lazy_empty_selection_witness :
  (forall s, slice_range s (nd_len (table_of 5)) = ok [] ->
     getitem lazy_five (IxS (SSlice s)) = raise ValueError /\
     getitem eager_five (IxS (SSlice s))
     = ok (VMat (Ndarray2 [] (nd_cols (data eager_five))))) /\
  getitem lazy_five (IxS (SSeq [])) = raise ValueError /\
  getitem eager_five (IxS (SSeq []))
  = ok (VMat (Ndarray2 [] (nd_cols (data eager_five)))).
Proof.
  apply (lazy_empty_selection (table_of 5) bounds_one 2 eager_five lazy_five).
  - vm_compute. reflexivity.
  - vm_compute. reflexivity.
Defined.

Lemma lazy_entry_as_eager_witness :
  getitem lazy_five (IxTuple [SInt 1; SInt 3])
  = getitem eager_five (IxTuple [SInt 1; SInt 3]).
Proof.
  apply (lazy_entry_as_eager (table_of 5) bounds_one 2 eager_five lazy_five
           1 3).
  - vm_compute. reflexivity.
  - vm_compute. reflexivity.
  - change (nd_len (table_of 5)) with 5. lia.
Defined.

Lemma no_row_beyond_table_witness :
  is_ok (get_context lazy_five 5) = false /\
  is_ok (getitem lazy_five (IxS (SInt 5))) = false /\
  getitem eager_five (IxS (SInt 5)) = raise IndexError.
Proof.
  apply (no_row_beyond_table (table_of 5) bounds_one 2 eager_five lazy_five
           5).
  - vm_compute. reflexivity.
  - vm_compute. reflexivity.
  - change (nd_len (table_of 5)) with 5. lia.
Defined.

Lemma batches_cover_scheme_witness :
  exists sched w',
    generate_visiting_scheme rev_shuffle
      (mkWorld visiting_10_3_2 tt []) = (ok tt, w') /\
    training_schedule (w_self w') = Some sched /\
    concat (map (batch_indices visiting_10_3_2 sched)
                (seqZ 0 (T visiting_10_3_2))) = sched /\
    Permutation sched
      (concat (replicate (Z.to_nat (permutations_of (Some 2)))
                         (seqZ 0 (num_examples (plain_dataset 10))))).
Proof.
  apply (batches_cover_scheme rev_shuffle rev_shuffle_perm
           (plain_dataset 10) 3 (Some 2) visiting_10_3_2 tt []).
  - lia.
  - vm_compute. split; [discriminate|reflexivity].
  - lia.
  - vm_compute. reflexivity.
Defined.

Lemma negative_epochs_never_feed_witness :
  generate_visiting_scheme rev_shuffle
    (first_world (visiting (plain_dataset 10) 3 (Some (-1))) tt)
  = (raise ValueError,
     first_world (visiting (plain_dataset 10) 3 (Some (-1))) tt) /\
  forall step,
    is_ok (fst (_training_supplier (P:=unit) rev_shuffle "x" "y" ∅ ∅ step
                  (first_world (visiting (plain_dataset 10) 3 (Some (-1)))
                     tt)))
    = false.
Proof.
  apply (negative_epochs_never_feed rev_shuffle "x" "y" ∅ ∅
           (plain_dataset 10) 3 (-1)
           (visiting (plain_dataset 10) 3 (Some (-1)))
           (first_world (visiting (plain_dataset 10) 3 (Some (-1))) tt)).
  - vm_compute. reflexivity.
  - lia.
  - reflexivity.
Defined.

Lemma empty_dataset_never_feeds_witness :
  T (visiting (plain_dataset 0) 3 (Some 2)) = 0 /\
  _training_supplier (P:=unit) rev_shuffle "x" "y" ∅ ∅ (Some 4)
    (first_world (visiting (plain_dataset 0) 3 (Some 2)) tt)
  = (raise ZeroDivisionError,
     first_world (visiting (plain_dataset 0) 3 (Some 2)) tt).
Proof.
  apply (empty_dataset_never_feeds rev_shuffle "x" "y" ∅ ∅
           (plain_dataset 0) 3 (Some 2)
           (visiting (plain_dataset 0) 3 (Some 2))
           (first_world (visiting (plain_dataset 0) 3 (Some 2)) tt) 4).
  - vm_compute. reflexivity.
  - vm_compute. reflexivity.
  - exists None. vm_compute. reflexivity.
  - lia.
Defined.

Lemma feed_dict_lookup_witness :
  exists bx by_,
    table_rows (ds_data (dataset visiting_10_3_2))
      (bool_decide (scheme_20 = [])) [9; 8; 7] = ok bx /\
    take_rows (ds_target (dataset visiting_10_3_2))
      (bool_decide (scheme_20 = [])) [9; 8; 7] = ok by_ /\
    forall k : string,
      feed_20 !! k =
      match (∅ : gmap string (list Z -> unit)) !! k with
      | Some v => Some (FPayload (v [9; 8; 7]))
      | None =>
          match ({["lr" := tt]} : gmap string unit) !! k with
          | Some p => Some (FPayload p)
          | None =>
              if decide (k = "y") then Some (FData by_)
              else if decide (k = "x") then Some (FData bx)
              else None
          end
      end.
Proof.
  apply (feed_dict_lookup "x" "y" {["lr" := tt]} ∅ visiting_10_3_2
           scheme_20 [9; 8; 7] feed_20).
  vm_compute. reflexivity.
Defined.

Lemma partition_rows_cover_witness :
  let N := Z.of_nat (length [1; 2; 3; 4; 5; 6; 7; 8; 9; 10]) in
  concat (partition_rows [1; 2; 3; 4; 5; 6; 7; 8; 9; 10]
            (calculated_partitions [6; 2; 1] N))
  = [1; 2; 3; 4; 5; 6; 7; 8; 9; 10]
  /\ length (partition_rows [1; 2; 3; 4; 5; 6; 7; 8; 9; 10]
               (calculated_partitions [6; 2; 1] N))
     = length [6; 2; 1].
Proof.
  apply (partition_rows_cover [1; 2; 3; 4; 5; 6; 7; 8; 9; 10] [6; 2; 1]).
  - discriminate.
  - repeat constructor; lia.
Defined.

Lemma partition_rows_sizes_witness :
  let all_data := [1; 2; 3; 4; 5; 6; 7; 8; 9; 10] in
  let N := Z.of_nat (length all_data) in
  (6 + 2 <= N ->
   calculated_partitions [6; 2; 1] N = [0; 6; 6 + 2; N] /\
   map (fun p => Z.of_nat (length p))
       (partition_rows all_data (calculated_partitions [6; 2; 1] N))
   = [6; 2; N - (6 + 2)]) /\
  (2 * 6 + 2 + 1 <= N ->
   calculated_partitions [6; 2; 1; 1] N
   = [0; 6; 6 + 2; 2 * 6 + 2 + 1; N] /\
   map (fun p => Z.of_nat (length p))
       (partition_rows all_data (calculated_partitions [6; 2; 1; 1] N))
   = [6; 2; 6 + 1; N - (2 * 6 + 2 + 1)]).
Proof.
  apply (partition_rows_sizes [1; 2; 3; 4; 5; 6; 7; 8; 9; 10] 6 2 1 1);
    lia.
Defined.

Lemma to_one_hot_enc_rows_witness :
  exists rows,
    to_one_hot_enc [0; 2; 1] (Some 3) = ok rows /\
    length rows = length [0; 2; 1] /\
    forall (k : nat) (v : Z), [0; 2; 1] !! k = Some v ->
      exists row, rows !! k = Some row /\
        Z.of_nat (length row) = 3 /\
        forall j, 0 <= j < 3 ->
          row !! Z.to_nat j = Some (if decide (j = v) then 1 else 0).
Proof.
  apply (to_one_hot_enc_rows [0; 2; 1] 3).
  - lia.
  - repeat constructor; lia.
Defined.

Lemma to_one_hot_enc_argmax_witness :
  (Forall (fun v => v < 2 ^ 63 - 1) [0; 2; 1] ->
   exists rows, to_one_hot_enc [0; 2; 1] None = ok rows /\
                rmap np_argmax rows = ok [0; 2; 1]) /\
  (forall d, Forall (fun v => v < d) [0; 2; 1] ->
     exists rows, to_one_hot_enc [0; 2; 1] (Some d) = ok rows /\
                  rmap np_argmax rows = ok [0; 2; 1]) /\
  (np_max [0; 2; 1] = ok (2 ^ 63 - 1) ->
   to_one_hot_enc [0; 2; 1] None = raise ValueError).
Proof.
  apply (to_one_hot_enc_argmax [0; 2; 1]).
  - discriminate.
  - repeat constructor; lia.
Defined.

Lemma to_one_hot_enc_wraps_witness :
  (Forall (fun v => - 3 <= v < 3) [-1; 2] ->
   to_one_hot_enc [-1; 2] (Some 3)
   = to_one_hot_enc (map (fun v => v mod 3) [-1; 2]) (Some 3)) /\
  (Exists (fun v => v < - 3 \/ 3 <= v) [-1; 2] ->
   to_one_hot_enc [-1; 2] (Some 3) = raise IndexError).
Proof.
  apply (to_one_hot_enc_wraps [-1; 2] 3). lia.
Defined.

Lemma test_if_balanced_counts_witness :
  (exists rows counts,
     to_one_hot_enc [0; 2; 2; 1] (Some 3) = ok rows /\
     test_if_balanced rows = ok counts /\
     Z.of_nat (length counts) = 3 /\
     forall c, 0 <= c < 3 ->
       counts !! Z.to_nat c
       = Some (Z.of_nat (count_occ Z.eq_dec [0; 2; 2; 1] c)))
  /\ test_if_balanced [] = raise IndexError.
Proof.
  apply (test_if_balanced_counts [0; 2; 2; 1] 3).
  - lia.
  - discriminate.
  - repeat constructor; lia.
Defined.

Lemma from_list_round_trip_witness :
  exists ds,
    from_list [Some (plain_dataset 5); Some (plain_dataset 10)]
    = ok (AsDatasets ds, []) /\
    List.filter (fun d => bool_decide (is_Some d)) (_lst ds)
    = [Some (plain_dataset 5); Some (plain_dataset 10)] /\
    Datasets_len ds
    = Z.of_nat (length [Some (plain_dataset 5); Some (plain_dataset 10)]) /\
    Some (train ds)
    = [Some (plain_dataset 5); Some (plain_dataset 10)] !! 0%nat /\
    ((1 < length [Some (plain_dataset 5); Some (plain_dataset 10)])%nat ->
     Some (test ds)
     = last [Some (plain_dataset 5); Some (plain_dataset 10)]) /\
    (length [Some (plain_dataset 5); Some (plain_dataset 10)] = 3%nat ->
     Some (validation ds)
     = [Some (plain_dataset 5); Some (plain_dataset 10)] !! 1%nat) /\
    (length [Some (plain_dataset 5); Some (plain_dataset 10)] <> 3%nat ->
     validation ds = None) /\
    Datasets_getitem ds 0 = ok (train ds) /\
    Datasets_getitem ds 1 = ok (validation ds) /\
    Datasets_getitem ds 2 = ok (test ds).
Proof.
  apply (from_list_round_trip
           [Some (plain_dataset 5); Some (plain_dataset 10)]).
  - simpl. lia.
  - repeat constructor; eexists; reflexivity.
Defined.

Lemma from_list_other_lengths_witness :
  from_list [Some 1; Some 2; Some 3; Some 4]
  = ok (AsList [Some 1; Some 2; Some 3; Some 4], [too_many_datasets]) /\
  from_list (D:=Z) [] = raise IndexError.
Proof.
  apply (from_list_other_lengths [Some 1; Some 2; Some 3; Some 4]).
  simpl. lia.
Defined.

Lemma feed_dict_lazy_as_eager_witness :
  let ev_lazy :=
    visiting (mkDataset (Windowed lazy_five) (table_of 5)) 2 (Some 1) in
  let ev_eager :=
    visiting (mkDataset (Windowed eager_five) (table_of 5)) 2 (Some 1) in
  feed_dict (P:=unit) "x" "y" ∅ ∅ ev_lazy [4; 3; 2; 1; 0] [4; 3]
  = feed_dict "x" "y" ∅ ∅ ev_eager [4; 3; 2; 1; 0] [4; 3] /\
  succeeds (table_rows (ds_data (dataset ev_lazy)) false [4; 3]).
Proof.
  apply (feed_dict_lazy_as_eager "x" "y" ∅ ∅ (table_of 5) bounds_one 2
           eager_five lazy_five (table_of 5)
           (visiting (mkDataset (Windowed lazy_five) (table_of 5)) 2
              (Some 1))
           (visiting (mkDataset (Windowed eager_five) (table_of 5)) 2
              (Some 1))
           [4; 3; 2; 1; 0] [4; 3]).
  - vm_compute. reflexivity.
  - vm_compute. reflexivity.
  - vm_compute. reflexivity.
  - vm_compute. reflexivity.
  - discriminate.
  - discriminate.
  - change (nd_len (table_of 5)) with 5. repeat constructor; lia.
Defined.

Lemma supplier_generates_and_drops_witness :
  let self := mkDataset (Windowed lazy_five) (table_of 5) in
  is_ok (_supplier (P:=unit) self "x" "y" ∅ None)
  = is_ok (init (table_of 5) bounds_one 2 true) /\
  forall fd, _supplier self "x" "y" ∅ None = ok fd ->
    (forall k, fd !! k =
       match (∅ : gmap string unit) !! k with
       | Some p => Some (DPayload p)
       | None =>
           if decide (k = "y") then Some (DTarget (table_of 5))
           else if decide (k = "x") then Some (DData (Windowed lazy_five))
           else None
       end).
Proof.
  apply (supplier_generates_and_drops (table_of 5) bounds_one 2 lazy_five
           (table_of 5) "x" "y" ∅ None).
  vm_compute. reflexivity.
Defined.
